(** * HDF5 dataset persistence (ion/data/persist/hdf5_dataset.py)

    A shallow embedding of [DatasetHDF5Persistence]: schema parsing,
    container creation, the append path with its resize policy, and the
    query path.  Python integers are [Z]; dictionaries are [gmap]s; the
    HDF5 file that the code opens, mutates and closes is a value threaded
    through a small state-and-exception monad, so that what was written
    before an exception stays written, as it does on disk. *)

From Stdlib Require Import ZArith Ascii String List Lia.
From Stdlib Require QArith_base.
From stdpp Require Import base option list gmap strings.

Local Open Scope string_scope.
Local Open Scope list_scope.
Local Open Scope Z_scope.
Set Warnings "-register-all".

(** ** Python values and exceptions *)

(** The exceptions that the modelled code paths can raise. *)
Inductive exn : Type :=
  | KeyError
  | ValueError
  | TypeError
  | AttributeError
  | OSError
  | IOError
  | ZeroDivisionError
  | NotImplementedError
  | BadRequest.

Inductive result (A : Type) : Type :=
  | Ok (a : A)
  | Raise (e : exn).
Arguments Ok {A} a.
Arguments Raise {A} e.

(** Stored and returned values.  [VRaw bits] is a scalar in its native
    on-disk representation (its 64-bit pattern); [VInt n] is a Python
    integer; [VNone] is [None], and in a stored record the null that a
    field makes of it; [VTuple] is a Python tuple (a composite record,
    or a (time, value) pair). *)
Inductive value : Type :=
  | VRaw (bits : Z)
  | VInt (n : Z)
  | VNone
  | VTuple (items : list value).

(** Computations over a mutable object of type [S] that may raise. The
    state is returned on both outcomes. *)
Definition M (S A : Type) : Type := S -> S * result A.

Definition ret {S A} (a : A) : M S A := fun s => (s, Ok a).
Definition raise {S A} (e : exn) : M S A := fun s => (s, Raise e).
Definition bind {S A B} (m : M S A) (k : A -> M S B) : M S B :=
  fun s => match m s with
           | (s', Ok a) => k a s'
           | (s', Raise e) => (s', Raise e)
           end.
Definition gets {S A} (f : S -> A) : M S A := fun s => (s, Ok (f s)).
Definition modify {S} (f : S -> S) : M S unit := fun s => (f s, Ok tt).
Definition lift {S A} (r : result A) : M S A := fun s => (s, r).

Notation "x <- m ;; k" := (bind m (fun x => k))
  (at level 100, m at next level, right associativity).
Notation "m ;;; k" := (bind m (fun _ => k))
  (at level 100, right associativity).

(** [for x in l: body x], stopping at the first exception. *)
Fixpoint for_each {S A} (body : A -> M S unit) (l : list A) : M S unit :=
  match l with
  | [] => ret tt
  | x :: rest => body x ;;; for_each body rest
  end.

(** [[f(x) for x in l]], stopping at the first exception. *)
Fixpoint map_result {A B} (f : A -> result B) (l : list A)
    : result (list B) :=
  match l with
  | [] => Ok []
  | x :: rest =>
      match f x with
      | Raise e => Raise e
      | Ok y =>
          match map_result f rest with
          | Raise e => Raise e
          | Ok ys => Ok (y :: ys)
          end
      end
  end.

(** Python 2 [a / b] on integers: floor division, [ZeroDivisionError]
    on a zero divisor.  [Z.div] rounds toward minus infinity as Python
    does. *)
Definition py_div (a b : Z) : result Z :=
  if b =? 0 then Raise ZeroDivisionError else Ok (a / b).

(** A Python float, taken as the rational number it denotes; the
    rounding of float arithmetic is not modelled. *)
Definition pyfloat : Type := QArith_base.Q.

(** [n * x] for an integer and a float. *)
Definition py_mul_float (n : Z) (x : pyfloat) : pyfloat :=
  QArith_base.Qmult (QArith_base.inject_Z n) x.

(** [int(x)] for a float: the integer part, rounded toward zero. *)
Definition py_int_of_float (x : pyfloat) : Z :=
  Z.quot (QArith_base.Qnum x) (Z.pos (QArith_base.Qden x)).

(** [slice(start, stop).indices(len)] for a unit step. *)
Definition slice_bound (len x : Z) : Z :=
  if x <? 0 then Z.max (x + len) 0 else Z.min x len.

(** [l[start:stop]]. *)
Definition py_slice {A} (l : list A) (start stop : Z) : list A :=
  let len := Z.of_nat (length l) in
  let a := slice_bound len start in
  let b := slice_bound len stop in
  take (Z.to_nat (b - a)) (drop (Z.to_nat a) l).

(** ** The h5py objects *)

Inductive attr : Type :=
  | AInt (n : Z)
  | AStr (s : string)
  | ADtype (fields : list (string * string)).

Inductive dtype : Type :=
  | Scalar (code : string)
  | Compound (fields : list (string * string)).

(** A one-dimensional, unlimited-maxshape h5py dataset.  [ds_rows] is
    the allocated extent, so [len(var_ds)] is its length; [last_row] is
    the integer attribute of that name, which every dataset created
    here carries; [ds_attrs] holds the remaining attributes. *)
Record Dataset : Type := mkDataset {
  ds_rows : list value;
  ds_dtype : dtype;
  ds_attrs : gmap string attr;
  last_row : Z
}.

Definition len (d : Dataset) : Z := Z.of_nat (length (ds_rows d)).

(** The value HDF5 fills unwritten rows with. *)
Definition fill_value (t : dtype) : value :=
  match t with
  | Scalar _ => VRaw 0
  | Compound fields => VTuple (map (fun _ => VRaw 0) fields)
  end.

Definition set_rows (rows : list value) (d : Dataset) : Dataset :=
  mkDataset rows (ds_dtype d) (ds_attrs d) (last_row d).

Definition set_last_row (n : Z) (d : Dataset) : Dataset :=
  mkDataset (ds_rows d) (ds_dtype d) (ds_attrs d) n.

(** [create_dataset(path, (n,), dtype=t, maxshape=(None,))]. *)
Definition create_dataset (n : Z) (t : dtype) : result Dataset :=
  if n <? 0 then Raise ValueError
  else Ok (mkDataset (replicate (Z.to_nat n) (fill_value t)) t ∅ 0).

(** [var_ds.resize(new_size, axis=0)]: rows are kept up to the new
    size, new rows hold the fill value. *)
Definition h5_resize (new_size : Z) : M Dataset unit :=
  fun d =>
    if new_size <? 0 then (d, Raise ValueError)
    else (set_rows (resize (Z.to_nat new_size) (fill_value (ds_dtype d))
                           (ds_rows d)) d, Ok tt).

(** [var_ds[a:b] = data]: the selection must lie inside the extent and
    have the length of the data; h5py does not grow a dataset on
    assignment. *)
Definition h5_write_slice (a b : Z) (data : list value) : M Dataset unit :=
  fun d =>
    if (0 <=? a) && (a <=? b) && (b <=? len d)
       && (Z.of_nat (length data) =? b - a)
    then (set_rows (take (Z.to_nat a) (ds_rows d) ++ data
                    ++ drop (Z.to_nat b) (ds_rows d)) d, Ok tt)
    else (d, Raise TypeError).

(** The type strings that numpy reads as integer types: the
    array-protocol strings and the one-character codes, which may
    carry a byte-order character, and the names of the integer
    types. *)
Definition integer_codes : list string :=
  ["i1"; "i2"; "i4"; "i8"; "u1"; "u2"; "u4"; "u8";
   "b"; "B"; "h"; "H"; "i"; "I"; "l"; "L"; "q"; "Q"; "p"; "P"].

Definition integer_names : list string :=
  ["int8"; "int16"; "int32"; "int64"; "uint8"; "uint16"; "uint32";
   "uint64"; "int"; "uint"; "intp"; "uintp"; "intc"; "uintc"; "int_";
   "byte"; "ubyte"; "short"; "ushort"; "longlong"; "ulonglong"].

Definition without_byte_order (code : string) : string :=
  match code with
  | String c rest =>
      if bool_decide (c ∈ ["<"; ">"; "="; "|"]%char) then rest else code
  | EmptyString => code
  end.

Definition is_integer_dtype (code : string) : bool :=
  bool_decide (without_byte_order code ∈ integer_codes)
  || bool_decide (code ∈ integer_names).

(** One component of a tuple on its way into a field of type [code]:
    an integer field refuses [None] with [TypeError], as [int(None)]
    does; in a floating field [None] becomes NaN, the null of the
    field, for which the model keeps [VNone].  Other values are in
    their on-disk representation already. *)
Definition field_accepts (code : string) (v : value) : result unit :=
  match v with
  | VNone => if is_integer_dtype code then Raise TypeError else Ok tt
  | _ => Ok tt
  end.

(** [numpy.asarray(row, dtype=t)], which h5py calls on a tuple that
    is assigned to an element of a record type: the tuple must have
    one component per field ([ValueError] otherwise) and each field
    must accept its component. *)
Definition dtype_accepts (t : dtype) (row : value) : result unit :=
  match t, row with
  | Compound fields, VTuple items =>
      if bool_decide (length items = length fields)
      then match map_result (fun p => field_accepts p.1.2 p.2)
                   (zip fields items) with
           | Ok _ => Ok tt
           | Raise e => Raise e
           end
      else Raise ValueError
  | _, _ => Ok tt
  end.

(** [var_ds[i] = row]: the row is converted to the type of the
    dataset before the element is selected. *)
Definition h5_write_row (i : Z) (row : value) : M Dataset unit :=
  fun d =>
    match dtype_accepts (ds_dtype d) row with
    | Raise e => (d, Raise e)
    | Ok _ =>
        if (0 <=? i) && (i <? len d)
        then (set_rows (<[Z.to_nat i := row]> (ds_rows d)) d, Ok tt)
        else (d, Raise ValueError)
    end.

(** An open HDF5 file: its top-level attributes and the members of
    its ["vars"] group, keyed by member name. *)
Record H5File : Type := mkFile {
  f_attrs : gmap string attr;
  f_vars : gmap string Dataset
}.

Definition set_var (name : string) (d : Dataset) (f : H5File) : H5File :=
  mkFile (f_attrs f) (<[name := d]> (f_vars f)).

(** Run a computation on the dataset ["vars/<name>"] of the file, in
    place ([var_ds = data_file[ds_path]] followed by operations on
    [var_ds]). *)
Definition on_var {A} (name : string) (m : M Dataset A) : M H5File A :=
  fun f =>
    match f_vars f !! name with
    | None => (f, Raise KeyError)
    | Some d => let (d', r) := m d in (set_var name d' f, r)
    end.

(** ** The file system *)

(** Directories, and HDF5 files with their content, by path. *)
Record FileSys : Type := mkFS {
  fs_dirs : gset string;
  fs_files : gmap string H5File
}.

(** [os.path.exists]. *)
Definition path_exists (fs : FileSys) (p : string) : bool :=
  bool_decide (p ∈ fs_dirs fs) || bool_decide (is_Some (fs_files fs !! p)).

Definition is_slash (c : ascii) : bool := bool_decide (c = "/"%char).

(** [p[:i], p[i:]] for [i = p.rfind('/') + 1], when [p] has a slash. *)
Fixpoint rsplit_slash (p : string) : option (string * string) :=
  match p with
  | EmptyString => None
  | String c r =>
      match rsplit_slash r with
      | Some (h, t) => Some (String c h, t)
      | None => if is_slash c then Some (String c EmptyString, r) else None
      end
  end.

(** [s.rstrip('/')]. *)
Fixpoint rstrip_slash (s : string) : string :=
  match s with
  | EmptyString => EmptyString
  | String c r =>
      match rstrip_slash r with
      | EmptyString => if is_slash c then EmptyString else String c EmptyString
      | r' => String c r'
      end
  end.

(** [posixpath.split]: the head keeps its slashes only when it consists
    of nothing else. *)
Definition os_path_split (p : string) : string * string :=
  match rsplit_slash p with
  | None => (EmptyString, p)
  | Some (head, tail) =>
      match rstrip_slash head with
      | EmptyString => (head, tail)
      | head' => (head', tail)
      end
  end.

(** The proper prefixes of a path that end just before a slash. *)
Fixpoint parents_from (pre s : string) : list string :=
  match s with
  | EmptyString => []
  | String c r =>
      (if is_slash c && negb (bool_decide (pre = EmptyString))
       then [pre] else [])
      ++ parents_from (pre +:+ String c EmptyString) r
  end.

(** [os.makedirs(name)] (Python 2, no [exist_ok]): an error when the
    leaf exists, otherwise the leaf and the missing intermediate
    directories are created. *)
Definition makedirs (name : string) : M FileSys unit :=
  fun fs =>
    if path_exists fs name then (fs, Raise OSError)
    else (mkFS (fs_dirs fs ∪ {[name]}
                ∪ list_to_set (parents_from EmptyString name))
               (fs_files fs), Ok tt).

Inductive open_mode : Type := ModeW | ModeR | ModeRW.

(** [data_file = HDFLockingFile(fn, mode, ...); try: body finally:
    data_file.close()], for one caller at a time (the lock is free).
    Mode "w" starts from an empty file and cannot replace a directory;
    the other modes need the file.  What [body] did to the file is on
    disk after [close], whether or not it raised. *)
Definition with_file {A} (fn : string) (mode : open_mode)
    (body : M H5File A) : M FileSys A :=
  fun fs =>
    let opened :=
      match mode with
      | ModeW => if bool_decide (fn ∈ fs_dirs fs) then None
                 else Some (mkFile ∅ ∅)
      | ModeR | ModeRW => fs_files fs !! fn
      end in
    match opened with
    | None => (fs, Raise IOError)
    | Some f0 =>
        let (f, r) := body f0 in
        (mkFS (fs_dirs fs) (<[fn := f]> (fs_files fs)), r)
    end.

(** ** Schemas *)

Definition DS_LAYOUT_COMBINED : string := "vars_combined".
Definition DS_LAYOUT_INDIVIDUAL : string := "vars_individual".
Definition DS_FILE_PREFIX : string := "ds_".
Definition DS_BASE_PATH : string := "SCIDATA/datasets".
Definition DEFAULT_ROW_INCREMENT : Z := 1000.
Definition DEFAULT_TIME_VARIABLE : string := "time".
Definition DS_VARIABLES : string := "data".

(** One entry of [dataset_schema["variables"]]; [None] is an absent
    key. *)
Record var_info : Type := mkVar {
  vi_name : option string;
  vi_base_type : option string;
  vi_storage_dtype : option string;
  vi_description : option string;
  vi_unit : option string
}.

(** [dataset_schema["attributes"]["persistence"]] when it is a
    dictionary; [None] is an absent key.  The ["row_increment"] entry
    is given by what [int] makes of it: an integer, or the exception
    that [int] raises ([ValueError] for a string that is no number,
    [TypeError] for [None] or a container). *)
Record persistence_attrs : Type := mkPersist {
  pa_layout : option string;
  pa_row_increment : option (result Z);
  pa_time_variable : option string
}.

(** The ["persistence"] entry of the attributes, as line 48 reads it
    with [.get("persistence", None) or {}]: absent, [None] or another
    false value, in place of which the empty dictionary is taken; a
    dictionary; or a true value that is no dictionary and has no
    [get]. *)
Inductive persistence_entry : Type :=
  | PersistenceFalse
  | PersistenceDict (pa : persistence_attrs)
  | PersistenceOther.

(** The raw schema description, a dictionary: [None] is an absent
    ["attributes"] or ["variables"] entry; the variables are a list of
    dictionaries. *)
Record dataset_schema : Type := mkSchema {
  sch_attributes : option persistence_entry;
  sch_variables : option (list var_info)
}.

(** The persistence object after [__init__].  [file_system_get] is
    [Container.instance.file_system.get], which maps a path relative to
    the container's base to a path on disk. *)
Record DatasetHDF5Persistence : Type := mkSelf {
  dataset_id : string;
  file_system_get : string -> string;
  ds_layout : string;
  ds_increment : Z;
  var_defs : list var_info;
  var_defs_map : gmap string var_info;
  time_var : string;
  var_index : gmap string nat
}.

(** [var_info["name"]]. *)
Definition name_of (vi : var_info) : result string :=
  match vi_name vi with
  | Some n => Ok n
  | None => Raise KeyError
  end.

(** [{vi["name"]: vi for vi in var_defs}]: a later entry replaces an
    earlier one of the same name. *)
Fixpoint build_var_defs_map (l : list var_info) (m : gmap string var_info)
    : result (gmap string var_info) :=
  match l with
  | [] => Ok m
  | vi :: rest =>
      match name_of vi with
      | Ok n => build_var_defs_map rest (<[n := vi]> m)
      | Raise e => Raise e
      end
  end.

(** [for position, var_info in enumerate(var_defs):
       var_index[var_info["name"]] = position]. *)
Fixpoint build_var_index (position : nat) (l : list var_info)
    (m : gmap string nat) : result (gmap string nat) :=
  match l with
  | [] => Ok m
  | vi :: rest =>
      match name_of vi with
      | Ok n => build_var_index (S position) rest (<[n := position]> m)
      | Raise e => Raise e
      end
  end.

Definition no_persistence : persistence_attrs := mkPersist None None None.

(** Line 48: [... .get("persistence", None) or {}], and whether the
    result has the [get] of line 49. *)
Definition persistence_or_empty (persistence : persistence_entry)
    : result persistence_attrs :=
  match persistence with
  | PersistenceFalse => Ok no_persistence
  | PersistenceDict pa => Ok pa
  | PersistenceOther => Raise AttributeError
  end.

(** Lines 49-52: a layout that is neither of the two becomes the
    Individual one. *)
Definition layout_of (pa : persistence_attrs) : string :=
  let layout0 := default DS_LAYOUT_INDIVIDUAL (pa_layout pa) in
  if bool_decide (layout0 = DS_LAYOUT_COMBINED)
     || bool_decide (layout0 = DS_LAYOUT_INDIVIDUAL)
  then layout0 else DS_LAYOUT_INDIVIDUAL.

(** Line 53: [int(... .get("row_increment", DEFAULT_ROW_INCREMENT))]. *)
Definition increment_of (pa : persistence_attrs) : result Z :=
  default (Ok DEFAULT_ROW_INCREMENT) (pa_row_increment pa).

Definition _parse_schema (id : string) (fs_get : string -> string)
    (sch : dataset_schema) : result DatasetHDF5Persistence :=
  match sch_attributes sch with
  | None => Raise KeyError
  | Some persistence =>
      match persistence_or_empty persistence with
      | Raise e => Raise e
      | Ok pa =>
          let layout := layout_of pa in
          match increment_of pa with
          | Raise e => Raise e
          | Ok increment =>
              match sch_variables sch with
              | None => Raise KeyError
              | Some vars =>
                  match build_var_defs_map vars ∅ with
                  | Raise e => Raise e
                  | Ok vmap =>
                      let tv := default DEFAULT_TIME_VARIABLE
                                  (pa_time_variable pa) in
                      match build_var_index 0 vars ∅ with
                      | Raise e => Raise e
                      | Ok vindex =>
                          Ok (mkSelf id fs_get layout increment vars vmap
                                     tv vindex)
                      end
                  end
              end
          end
      end
  end.

(** [DatasetHDF5Persistence(dataset_id, ds_schema, format_name)];
    [h5py] tells whether the h5py module could be imported. *)
Definition init (h5py : bool) (id : string) (fs_get : string -> string)
    (sch : dataset_schema) : result DatasetHDF5Persistence :=
  if h5py then _parse_schema id fs_get sch else Raise BadRequest.

Definition _get_ds_filename (self : DatasetHDF5Persistence) : string :=
  let local_fn := DS_FILE_PREFIX +:+ dataset_id self +:+ ".hdf5" in
  file_system_get self (DS_BASE_PATH +:+ "/" +:+ local_fn).

(** ** Creating the container *)

Definition set_attr (k : string) (v : attr) (d : Dataset) : Dataset :=
  mkDataset (ds_rows d) (ds_dtype d) (<[k := v]> (ds_attrs d)) (last_row d).

Definition set_file_attr (k : string) (v : attr) (f : H5File) : H5File :=
  mkFile (<[k := v]> (f_attrs f)) (f_vars f).

(** [data_file.create_dataset("vars/<name>", (n,), dtype=t,
    maxshape=(None,))]: h5py refuses a name that is taken. *)
Definition file_create_dataset (name : string) (n : Z) (t : dtype)
    : M H5File unit :=
  fun f =>
    match f_vars f !! name with
    | Some _ => (f, Raise ValueError)
    | None =>
        match create_dataset n t with
        | Raise e => (f, Raise e)
        | Ok d => (set_var name d f, Ok tt)
        end
    end.

(** The body of the loop at lines 86-96. *)
Definition create_individual (self : DatasetHDF5Persistence)
    (position : nat) (vi : var_info) : M H5File unit :=
  var_name <- lift (name_of vi) ;;
  let base_type := default "float" (vi_base_type vi) in
  let dtype := default "f8" (vi_storage_dtype vi) in
  file_create_dataset var_name (ds_increment self) (Scalar dtype) ;;;
  on_var var_name (modify (set_attr "base_type" (AStr base_type))) ;;;
  on_var var_name
    (modify (set_attr "position" (AInt (Z.of_nat position)))) ;;;
  on_var var_name
    (modify (set_attr "description"
               (AStr (default "" (vi_description vi))))) ;;;
  on_var var_name
    (modify (set_attr "unit" (AStr (default "" (vi_unit vi))))) ;;;
  on_var var_name (modify (set_last_row 0)).

(** [for position, var_info in enumerate(l)], counting from
    [position]. *)
Fixpoint for_enumerate {St A} (body : nat -> A -> M St unit)
    (position : nat) (l : list A) : M St unit :=
  match l with
  | [] => ret tt
  | x :: rest => body position x ;;; for_enumerate body (S position) rest
  end.

(** Lines 99-104: the (name, dtype) parts of the composite record. *)
Fixpoint dtype_parts (l : list var_info) : result (list (string * string)) :=
  match l with
  | [] => Ok []
  | vi :: rest =>
      match name_of vi with
      | Raise e => Raise e
      | Ok var_name =>
          match dtype_parts rest with
          | Raise e => Raise e
          | Ok parts =>
              Ok ((var_name, default "f8" (vi_storage_dtype vi)) :: parts)
          end
      end
  end.

(** [np.dtype(parts)]: numpy refuses a repeated field name. *)
Definition np_dtype (parts : list (string * string)) : result dtype :=
  if bool_decide (NoDup parts.*1) then Ok (Compound parts)
  else Raise ValueError.

Definition create_combined (self : DatasetHDF5Persistence) : M H5File unit :=
  parts <- lift (dtype_parts (var_defs self)) ;;
  t <- lift (np_dtype parts) ;;
  file_create_dataset DS_VARIABLES (ds_increment self) t ;;;
  on_var DS_VARIABLES (modify (set_attr "dtype_repr" (ADtype parts))) ;;;
  on_var DS_VARIABLES (modify (set_last_row 0)).

(** Lines 79-109, the part of [require_dataset] under [try]. *)
Definition create_container (self : DatasetHDF5Persistence)
    : M H5File unit :=
  modify (set_file_attr "dataset_id" (AStr (dataset_id self))) ;;;
  modify (set_file_attr "layout" (AStr (ds_layout self))) ;;;
  if bool_decide (ds_layout self = DS_LAYOUT_INDIVIDUAL)
  then for_enumerate (create_individual self) 0%nat (var_defs self)
  else if bool_decide (ds_layout self = DS_LAYOUT_COMBINED)
  then create_combined self
  else ret tt.

Definition require_dataset (self : DatasetHDF5Persistence)
    : M FileSys (string * bool) :=
  fun fs =>
    let ds_filename := _get_ds_filename self in
    if path_exists fs ds_filename then (fs, Ok (ds_filename, false))
    else
      (makedirs (os_path_split ds_filename).1 ;;;
       with_file ds_filename ModeW (create_container self) ;;;
       ret (ds_filename, true)) fs.

(** ** Appending *)

(** An ingestion packet: [packet.data["cols"]] and [packet.data["data"]],
    a one-dimensional array of records with named fields. *)
Record Packet : Type := mkPacket {
  cols : list string;
  data : list (gmap string value)
}.

(** [row[name]] for a record of the array. *)
Definition field (name : string) (row : gmap string value) : result value :=
  match row !! name with
  | Some v => Ok v
  | None => Raise ValueError
  end.

(** [packet.data["data"][:][var_name]]. *)
Definition column (rows : list (gmap string value)) (var_name : string)
    : result (list value) :=
  map_result (field var_name) rows.

Definition _resize_dataset (self : DatasetHDF5Persistence) (num_rows : Z)
    : M Dataset unit :=
  cur_size <- gets len ;;
  q <- lift (py_div num_rows (ds_increment self)) ;;
  let new_size := cur_size + (q + 1) * ds_increment self in
  h5_resize new_size.

(** Lines 133-136 and 146-149, the same in both layouts: the sizes
    read from the extent, and the resize when the batch would not
    fit.  Returns [cur_idx]. *)
Definition resize_if_needed (self : DatasetHDF5Persistence) (num_rows : Z)
    : M Dataset Z :=
  cur_size <- gets len ;;
  cur_idx <- gets last_row ;;
  (if cur_idx + num_rows >? cur_size
   then _resize_dataset self num_rows else ret tt) ;;;
  ret cur_idx.

(** Lines 133-139, on [var_ds]. *)
Definition extend_var (self : DatasetHDF5Persistence) (packet : Packet)
    (var_name : string) : M Dataset unit :=
  let num_rows := Z.of_nat (length (data packet)) in
  cur_idx <- resize_if_needed self num_rows ;;
  data_slice <- lift (column (data packet) var_name) ;;
  h5_write_slice cur_idx (cur_idx + num_rows) data_slice ;;;
  modify (fun d => set_last_row (last_row d + num_rows) d).

(** The body of the loop at lines 127-139. *)
Definition extend_individual (self : DatasetHDF5Persistence)
    (packet : Packet) (var_name : string) : M H5File unit :=
  fun f =>
    match f_vars f !! var_name with
    | None => (f, Ok tt)
    | Some _ => on_var var_name (extend_var self packet var_name) f
    end.

(** [{col_name: col_idx for col_idx, col_name in enumerate(cols)
      if col_name in ds_var_names}]. *)
Fixpoint build_pvi (col_idx : nat) (cs ds_var_names : list string)
    (m : gmap string nat) : gmap string nat :=
  match cs with
  | [] => m
  | col_name :: rest =>
      build_pvi (S col_idx) rest ds_var_names
        (if bool_decide (col_name ∈ ds_var_names)
         then <[col_name := col_idx]> m else m)
  end.

(** [tuple(row_data[vn] if vn in pvi else None for vn in
    ds_var_names)]. *)
Definition row_vals (pvi : gmap string nat) (ds_var_names : list string)
    (row_data : gmap string value) : result value :=
  match map_result (fun vn => if bool_decide (is_Some (pvi !! vn))
                              then field vn row_data else Ok VNone)
                   ds_var_names with
  | Raise e => Raise e
  | Ok vals => Ok (VTuple vals)
  end.

(** Lines 146-156, on [var_ds]. *)
Definition extend_combined (self : DatasetHDF5Persistence) (packet : Packet)
    : M Dataset unit :=
  let num_rows := Z.of_nat (length (data packet)) in
  cur_idx <- resize_if_needed self num_rows ;;
  ds_var_names <- lift (map_result name_of (var_defs self)) ;;
  let pvi := build_pvi 0 (cols packet) ds_var_names ∅ in
  for_enumerate
    (fun row_idx row_data =>
       vals <- lift (row_vals pvi ds_var_names row_data) ;;
       h5_write_row (cur_idx + Z.of_nat row_idx) vals)
    0%nat (data packet) ;;;
  modify (fun d => set_last_row (last_row d + num_rows) d).

(** Lines 126-156, the part of [extend_dataset] under [try]. *)
Definition extend_container (self : DatasetHDF5Persistence)
    (packet : Packet) : M H5File unit :=
  if bool_decide (ds_layout self = DS_LAYOUT_INDIVIDUAL)
  then for_each (extend_individual self packet) (cols packet)
  else if bool_decide (ds_layout self = DS_LAYOUT_COMBINED)
  then fun f =>
         match f_vars f !! DS_VARIABLES with
         | None => (f, Raise BadRequest)
         | Some _ => on_var DS_VARIABLES (extend_combined self packet) f
         end
  else ret tt.

Definition extend_dataset (self : DatasetHDF5Persistence) (packet : Packet)
    : M FileSys unit :=
  with_file (_get_ds_filename self) ModeRW (extend_container self packet).

(** ** Querying *)

(** The [data_filter] dictionary; [None] is an absent key. *)
Record data_filter : Type := mkFilter {
  df_variables : option (list string);
  df_time_format : option string;
  df_max_rows : option Z;
  df_transpose_time : option bool
}.

Definition no_filter : data_filter := mkFilter None None None None.

Section Query.

(** [IonTime.from_ntp64(dv.tostring()).to_unix()]: [IonTime] lives
    in pyon.util.ion_time, outside the modelled files, so the seconds
    since the Unix epoch that a stored time value stands for, a float,
    are a parameter. *)
Variable to_unix : value -> pyfloat.

(** [int(1000 * IonTime.from_ntp64(dv.tostring()).to_unix())], the
    expression of line 184. *)
Definition unix_millis (dv : value) : Z :=
  py_int_of_float (py_mul_float 1000 (to_unix dv)).

Variable self : DatasetHDF5Persistence.
Variable filter : data_filter.

Definition time_format : string :=
  default "unix_millis" (df_time_format filter).

Definition max_rows : Z := default 999999999 (df_max_rows filter).

(** [data_filter.get("variables", []) or [vi["name"] for vi in
    self.var_defs]]. *)
Definition read_vars : result (list string) :=
  match df_variables filter with
  | Some (v :: vs) => Ok (v :: vs)
  | _ => map_result name_of (var_defs self)
  end.

(** Line 181, [var_ds[max(cur_idx - max_rows, 0):cur_idx]]; a
    selection whose stop lies before its start is empty. *)
Definition window (var_ds : Dataset) : list value :=
  let cur_idx := last_row var_ds in
  py_slice (ds_rows var_ds) (Z.max (cur_idx - max_rows) 0) cur_idx.

(** The test of line 182; [self.var_defs_map[var_name]] is only
    evaluated for the time variable. *)
Definition is_time_encoded (var_name : string) : result bool :=
  if bool_decide (var_name = time_var self)
  then match var_defs_map self !! var_name with
       | None => Raise KeyError
       | Some vi =>
           Ok (bool_decide (default "" (vi_base_type vi) = "ntp_time"))
       end
  else Ok false.

(** Lines 182-188. *)
Definition convert (encoded : bool) (data_array : list value)
    : list value :=
  if encoded
  then if bool_decide (time_format = "unix_millis")
       then map (fun dv => VInt (unix_millis dv)) data_array
       else data_array
  else data_array.

(** The body of the loop at lines 174-190; the state is
    [res_data]. *)
Definition read_var (f : H5File) (var_name : string)
    : M (gmap string (list value)) unit :=
  match f_vars f !! var_name with
  | None => ret tt
  | Some var_ds =>
      encoded <- lift (is_time_encoded var_name) ;;
      modify (<[var_name := convert encoded (window var_ds)]>)
  end.

(** [[(tv, dv) for (tv, dv) in zip(time_series, var_series)]]. *)
Definition pair_with_time (time_series var_series : list value)
    : list value :=
  zip_with (fun tv dv => VTuple [tv; dv]) time_series var_series.

(** Lines 192-195. *)
Definition transpose_time : M (gmap string (list value)) unit :=
  fun res_data =>
    match res_data !! time_var self with
    | None => (res_data, Raise KeyError)
    | Some time_series =>
        (pair_with_time time_series <$> delete (time_var self) res_data,
         Ok tt)
    end.

(** Lines 174-190: the loop that fills [res_data]. *)
Definition collect (f : H5File) (vars : list string)
    : M (gmap string (list value)) unit :=
  for_each (read_var f) vars.

(** Lines 169-202, the part of [get_data] under [try]; the file is
    only read. *)
Definition query_container (f : H5File)
    : result (gmap string (list value)) :=
  match read_vars with
  | Raise e => Raise e
  | Ok vars =>
      if bool_decide (ds_layout self = DS_LAYOUT_INDIVIDUAL)
      then
        let m :=
          collect f vars ;;;
          (if bool_decide (df_transpose_time filter = Some true)
           then transpose_time else ret tt) in
        match m ∅ with
        | (res_data, Ok _) => Ok res_data
        | (_, Raise e) => Raise e
        end
      else if bool_decide (ds_layout self = DS_LAYOUT_COMBINED)
      then Raise NotImplementedError
      else Ok ∅
  end.

Definition get_data : M FileSys (gmap string (list value)) :=
  fun fs =>
    let ds_filename := _get_ds_filename self in
    if negb (path_exists fs ds_filename) then (fs, Ok ∅)
    else with_file ds_filename ModeR
           (fun f => (f, query_container f)) fs.

End Query.

(** The extent ["vars/<name>"] of the container of [self]. *)
Definition extent (self : DatasetHDF5Persistence) (fs : FileSys)
    (name : string) : option Dataset :=
  f ← fs_files fs !! _get_ds_filename self; f_vars f !! name.

(** ** A concrete dataset: time and temperature, ten rows a step *)

Module Scenario.

Definition time_def : var_info :=
  mkVar (Some "time") (Some "ntp_time") (Some "i8") None None.
Definition temperature_def : var_info :=
  mkVar (Some "temperature") (Some "float") None None (Some "deg_C").

Definition schema : dataset_schema :=
  mkSchema (Some (PersistenceDict (mkPersist None (Some (Ok 10)) None)))
           (Some [time_def; temperature_def]).

Definition fs_get (p : string) : string := "/data/" +:+ p.

(** A schema without variables, and one that declares a name twice. *)
Definition empty_schema : dataset_schema :=
  mkSchema (Some PersistenceFalse) (Some []).
Definition duplicate_schema : dataset_schema :=
  mkSchema (Some PersistenceFalse) (Some [temperature_def; temperature_def]).

(** The schema of the scenario with a ["row_increment"] that [int]
    refuses, such as the string ["ten"]. *)
Definition unreadable_schema : dataset_schema :=
  mkSchema (Some (PersistenceDict
                    (mkPersist None (Some (Raise ValueError)) None)))
           (Some [time_def; temperature_def]).

Definition self : DatasetHDF5Persistence :=
  match _parse_schema "a" fs_get schema with
  | Ok s => s
  | Raise _ => mkSelf "" fs_get "" 0 [] ∅ "" ∅
  end.

Definition row (t x : Z) : gmap string value :=
  {[ "time" := VRaw t; "temperature" := VRaw x ]}.

Definition rows_from (t : Z) (n : nat) : list (gmap string value) :=
  map (fun i => row (t + Z.of_nat i) (100 + t + Z.of_nat i)) (seq 0 n).

Definition packet5 : Packet :=
  mkPacket ["time"; "temperature"] (rows_from 0 5).
Definition packet8 : Packet :=
  mkPacket ["time"; "temperature"] (rows_from 5 8).
(** A batch that carries the time column only. *)
Definition packet_time_only : Packet :=
  mkPacket ["time"] (rows_from 13 2).

Definition fs0 : FileSys := mkFS ∅ ∅.

(** Create, append five rows, append eight rows. *)
Definition fs_created : FileSys :=
  Eval vm_compute in (require_dataset self fs0).1.
Definition fs5 : FileSys :=
  Eval vm_compute in (extend_dataset self packet5 fs_created).1.
Definition fs13 : FileSys :=
  Eval vm_compute in (extend_dataset self packet8 fs5).1.
Definition fs_diverged : FileSys :=
  Eval vm_compute in (extend_dataset self packet_time_only fs13).1.

(** A second dataset under the same base path. *)
Definition other : DatasetHDF5Persistence :=
  match _parse_schema "b" fs_get schema with
  | Ok s => s
  | Raise _ => mkSelf "" fs_get "" 0 [] ∅ "" ∅
  end.

(** The same schema in the Combined layout. *)
Definition combined : DatasetHDF5Persistence :=
  match _parse_schema "c" fs_get
          (mkSchema (Some (PersistenceDict
                             (mkPersist (Some DS_LAYOUT_COMBINED)
                                        (Some (Ok 10)) None)))
                    (Some [time_def; temperature_def])) with
  | Ok s => s
  | Raise _ => mkSelf "" fs_get "" 0 [] ∅ "" ∅
  end.
Definition fs_combined : FileSys :=
  Eval vm_compute in (require_dataset combined fs0).1.

Definition transposed : data_filter := mkFilter None None None (Some true).
Definition only_temperature : data_filter :=
  mkFilter (Some ["temperature"]) None None (Some true).
Definition last3 : data_filter := mkFilter None None (Some 3) None.

(** The seconds since the Unix epoch of a stored time value, for
    stored values that count whole seconds. *)
Definition seconds (v : value) : pyfloat :=
  match v with
  | VRaw t => QArith_base.inject_Z t
  | _ => QArith_base.inject_Z 0
  end.

Definition no_dataset : Dataset := mkDataset [] (Scalar "") ∅ 0.

(** The container file in a state. *)
Definition file_at (fs : FileSys) : H5File :=
  default (mkFile ∅ ∅) (fs_files fs !! _get_ds_filename self).

(** The extents of the two variables in a state. *)
Definition time_at (fs : FileSys) : Dataset :=
  default no_dataset (extent self fs "time").
Definition temperature_at (fs : FileSys) : Dataset :=
  default no_dataset (extent self fs "temperature").

End Scenario.

(** ** What the invariant and the claims are stated with *)

(** The committed rows lie inside the allocated extent. *)
Definition extent_ok (d : Dataset) : Prop :=
  0 <= last_row d <= len d.

(** Capacity after a step: not smaller, and larger by a whole number
    of increments. *)
Definition grown_by (inc : Z) (d d' : Dataset) : Prop :=
  len d <= len d' /\ exists k, 0 <= k /\ len d' = len d + k * inc.

(** States reached from one without the container by creating and
    appending, whether or not a call raised. *)
Inductive reachable (self : DatasetHDF5Persistence) : FileSys -> Prop :=
  | reach_start fs :
      fs_files fs !! _get_ds_filename self = None -> reachable self fs
  | reach_require fs :
      reachable self fs -> reachable self (require_dataset self fs).1
  | reach_extend fs packet :
      reachable self fs -> reachable self (extend_dataset self packet fs).1.


(** Whether the values of a variable go through the time conversion
    test of line 182 as time-encoded. *)
Definition encoded (self : DatasetHDF5Persistence) (var_name : string)
    : bool :=
  match is_time_encoded self var_name with
  | Ok b => b
  | Raise _ => false
  end.



(** A schema description that the constructor can read: the
    ["attributes"] and ["variables"] entries are there,
    ["persistence"] is false or a dictionary whose ["row_increment"],
    if it has one, [int] accepts, and every variable has a ["name"].
    Nothing is asked of the variable list itself. *)
Definition well_formed (sch : dataset_schema) : Prop :=
  (exists persistence,
     sch_attributes sch = Some persistence
     /\ persistence <> PersistenceOther
     /\ forall pa e,
          persistence = PersistenceDict pa ->
          pa_row_increment pa <> Some (Raise e))
  /\ exists vars,
       sch_variables sch = Some vars
       /\ Forall (fun vi => is_Some (vi_name vi)) vars.

(** The same filter without its [transpose_time] entry. *)
Definition without_transpose (filter : data_filter) : data_filter :=
  mkFilter (df_variables filter) (df_time_format filter)
           (df_max_rows filter) None.

(** [os.remove(p)] on a file. *)
Definition remove_file (p : string) (fs : FileSys) : FileSys :=
  mkFS (fs_dirs fs) (delete p (fs_files fs)).

(** The sequence that a query returned for a variable, if it returned
    one. *)
Definition series (r : FileSys * result (gmap string (list value)))
    (name : string) : option (list value) :=
  match r.2 with
  | Ok res => res !! name
  | Raise _ => None
  end.

(** One extent across a step that starts from a sound extent. *)
Definition evolves (inc : Z) (d d' : Dataset) : Prop :=
  extent_ok d -> extent_ok d' /\ grown_by inc d d'.

(** A file across a step: the same members, each evolved. *)
Definition file_evolves (inc : Z) (f f' : H5File) : Prop :=
  forall name,
    match f_vars f !! name with
    | Some d => exists d', f_vars f' !! name = Some d' /\ evolves inc d d'
    | None => f_vars f' !! name = None
    end.

(** An extent as [require_dataset] leaves it. *)
Definition fresh (inc : Z) (d : Dataset) : Prop :=
  last_row d = 0 /\ len d = inc /\ 0 <= inc.

Definition all_fresh (inc : Z) (f : H5File) : Prop :=
  forall name d, f_vars f !! name = Some d -> fresh inc d.

(** What holds of the container of [self] in every reachable state. *)
Definition container_ok (self : DatasetHDF5Persistence) (fs : FileSys)
    : Prop :=
  forall name d,
    extent self fs name = Some d ->
    0 <= ds_increment self /\ extent_ok d
    /\ exists k, 0 <= k /\ len d = k * ds_increment self.

(** ** What the further properties are stated with *)

(** The rows of an extent below its high-water mark. *)
Definition committed (d : Dataset) : list value :=
  take (Z.to_nat (last_row d)) (ds_rows d).

(** Every extent of a file is sound. *)
Definition file_ok (f : H5File) : Prop :=
  forall name d, f_vars f !! name = Some d -> extent_ok d.

(** The attributes and types of a file and of its extents are those
    of another. *)
Definition same_metadata (f f' : H5File) : Prop :=
  f_attrs f' = f_attrs f
  /\ forall name,
       ds_attrs <$> f_vars f' !! name = ds_attrs <$> f_vars f !! name
       /\ ds_dtype <$> f_vars f' !! name = ds_dtype <$> f_vars f !! name.

(** Nothing is at the container path or at its parent directory, and
    the path is not one of the directories that [os.makedirs] will
    make. *)
Definition creatable (self : DatasetHDF5Persistence) (fs : FileSys) : Prop :=
  path_exists fs (_get_ds_filename self) = false
  /\ path_exists fs (os_path_split (_get_ds_filename self)).1 = false
  /\ _get_ds_filename self
       ∉ fs_dirs (makedirs (os_path_split (_get_ds_filename self)).1 fs).1.

(** The extent that lines 88-96 leave for the variable at a
    position. *)
Definition created_extent (inc : Z) (position : nat) (vi : var_info)
    : Dataset :=
  mkDataset (replicate (Z.to_nat inc) (VRaw 0))
            (Scalar (default "f8" (vi_storage_dtype vi)))
            (<["unit" := AStr (default "" (vi_unit vi))]>
               (<["description" := AStr (default "" (vi_description vi))]>
                  (<["position" := AInt (Z.of_nat position)]>
                     (<["base_type"
                        := AStr (default "float" (vi_base_type vi))]> ∅))))
            0.

(** The record extent that lines 99-109 leave. *)
Definition created_records (inc : Z) (parts : list (string * string))
    : Dataset :=
  mkDataset (replicate (Z.to_nat inc) (VTuple (map (fun _ => VRaw 0) parts)))
            (Compound parts) (<["dtype_repr" := ADtype parts]> ∅) 0.

(** No variable of the list has the name. *)
Definition undeclared (vars : list var_info) (name : string) : Prop :=
  forall j vj, vars !! j = Some vj -> vi_name vj <> Some name.

(** The variable at position [i] is the last one of the list with the
    name. *)
Definition last_declared (vars : list var_info) (name : string) (i : nat)
    (vi : var_info) : Prop :=
  vars !! i = Some vi /\ vi_name vi = Some name
  /\ forall j vj, (i < j)%nat -> vars !! j = Some vj ->
                  vi_name vj <> Some name.

(** The record the Combined layout writes for a row: the row's value
    for each schema variable that the packet names, [None] for the
    others, in schema order. *)
Definition assembled (cs names : list string) (row_data : gmap string value)
    : value :=
  VTuple (map (fun vn => if bool_decide (vn ∈ cs)
                         then default VNone (row_data !! vn) else VNone)
              names).

Fixpoint has_slash (s : string) : bool :=
  match s with
  | EmptyString => false
  | String c r => is_slash c || has_slash r
  end.

(** An extent after a step still has the committed rows it had, in
    front. *)
Definition keeps_rows (d d' : Dataset) : Prop :=
  committed d `prefix_of` committed d' /\ last_row d <= last_row d'.

(** Further concrete inputs. *)
Module Cases.

(** The schema with a repeated name, compiled. *)
Definition repeated : DatasetHDF5Persistence :=
  match _parse_schema "d" Scenario.fs_get Scenario.duplicate_schema with
  | Ok s => s
  | Raise _ => mkSelf "" Scenario.fs_get "" 0 [] ∅ "" ∅
  end.

(** The scenario's schema with a row increment of zero. *)
Definition zero_increment : DatasetHDF5Persistence :=
  match _parse_schema "z" Scenario.fs_get
          (mkSchema (Some (PersistenceDict
                             (mkPersist None (Some (Ok 0)) None)))
                    (Some [Scenario.time_def; Scenario.temperature_def])) with
  | Ok s => s
  | Raise _ => mkSelf "" Scenario.fs_get "" 0 [] ∅ "" ∅
  end.
Definition fs_zero : FileSys :=
  Eval vm_compute in (require_dataset zero_increment Scenario.fs0).1.

(** A batch of one record that has no fields. *)
Definition packet_without_fields : Packet := mkPacket ["time"] [∅].

(** A batch that names both variables but carries only the time. *)
Definition packet_half : Packet :=
  mkPacket ["time"; "temperature"] [{[ "time" := VRaw 5 ]}].

(** A batch that carries the temperature only. *)
Definition packet_temperature_only : Packet :=
  mkPacket ["temperature"] [{[ "temperature" := VRaw 120 ]}].

(** The record extent of the Combined scenario as created. *)
Definition records_created : Dataset :=
  default Scenario.no_dataset
    (extent Scenario.combined Scenario.fs_combined DS_VARIABLES).

(** A query for the last eight temperatures. *)
Definition last8_temperature : data_filter :=
  mkFilter (Some ["temperature"]) None (Some 8) None.

End Cases.

(** ** The resize policy *)

Lemma len_nonneg d : 0 <= len d.
Proof. unfold len. lia. Qed.

Lemma len_set_last_row n d : len (set_last_row n d) = len d.
Proof. reflexivity. Qed.

Lemma h5_resize_run new_size d :
  0 <= new_size ->
  exists d', h5_resize new_size d = (d', Ok tt) /\ len d' = new_size
             /\ last_row d' = last_row d /\ ds_dtype d' = ds_dtype d
             /\ ds_rows d' = resize (Z.to_nat new_size)
                               (fill_value (ds_dtype d)) (ds_rows d).
Proof.
  intros Hn. unfold h5_resize.
  destruct (new_size <? 0) eqn:E; [lia|].
  eexists; split; [reflexivity|].
  unfold len; simpl. rewrite length_resize. repeat split; lia.
Qed.

Lemma growth_positive n inc :
  0 < inc -> 0 <= n -> n < (n / inc + 1) * inc <= n + inc.
Proof.
  intros Hinc Hn.
  pose proof (Z.div_mod n inc ltac:(lia)) as Hdm.
  pose proof (Z.mod_pos_bound n inc Hinc) as Hb.
  nia.
Qed.

Lemma growth_exact n inc :
  0 < inc -> (n / inc + 1) * inc = n + inc - n mod inc.
Proof.
  intros Hinc. pose proof (Z.div_mod n inc ltac:(lia)) as Hdm. nia.
Qed.

(** With a positive increment the resize goes through and adds
    [(num_rows / increment + 1) * increment] rows. *)
Lemma _resize_dataset_run self n d :
  0 < ds_increment self -> 0 <= n ->
  exists d', _resize_dataset self n d = (d', Ok tt)
    /\ len d' = len d + (n / ds_increment self + 1) * ds_increment self
    /\ last_row d' = last_row d
    /\ ds_rows d' = resize (Z.to_nat (len d'))
                      (fill_value (ds_dtype d)) (ds_rows d).
Proof.
  intros Hinc Hn. unfold _resize_dataset, bind, gets, lift, py_div.
  destruct (ds_increment self =? 0) eqn:E; [lia|].
  pose proof (growth_positive n _ Hinc Hn) as Hg.
  pose proof (len_nonneg d) as Hl.
  destruct (h5_resize_run
              (len d + (n / ds_increment self + 1) * ds_increment self) d)
    as (d' & Hrun & Hlen & Hlast & _ & Hrows); [lia|].
  exists d'. rewrite Hrun. repeat split; try done. by rewrite Hlen.
Qed.

Lemma resize_if_needed_keep self n d :
  last_row d + n <= len d ->
  resize_if_needed self n d = (d, Ok (last_row d)).
Proof.
  intros H. unfold resize_if_needed, bind, gets, ret.
  destruct (last_row d + n >? len d) eqn:E; [lia|done].
Qed.

Lemma resize_if_needed_grow self n d :
  0 < ds_increment self -> 0 <= n -> last_row d + n > len d ->
  exists d', resize_if_needed self n d = (d', Ok (last_row d))
    /\ len d' = len d + (n / ds_increment self + 1) * ds_increment self
    /\ last_row d' = last_row d
    /\ ds_rows d' = resize (Z.to_nat (len d'))
                      (fill_value (ds_dtype d)) (ds_rows d).
Proof.
  intros Hinc Hn H. unfold resize_if_needed, bind, gets, ret.
  destruct (last_row d + n >? len d) eqn:E; [|lia].
  destruct (_resize_dataset_run self n d Hinc Hn) as (d' & -> & ?).
  by exists d'.
Qed.

(** ** Loops keep what their bodies keep *)

Lemma for_each_preserve {St A} (P : St -> Prop) (body : A -> M St unit) l s :
  (forall x s0, P s0 -> P (body x s0).1) ->
  P s -> P (for_each body l s).1.
Proof.
  intros Hbody. revert s. induction l as [|x l IH]; intros s Hs; [done|].
  simpl. unfold bind. specialize (Hbody x s Hs).
  destruct (body x s) as [s1 [[]|e]]; simpl in *; [by apply IH|done].
Qed.

Lemma for_enumerate_preserve {St A} (P : St -> Prop)
    (body : nat -> A -> M St unit) l p s :
  (forall i x s0, P s0 -> P (body i x s0).1) ->
  P s -> P (for_enumerate body p l s).1.
Proof.
  intros Hbody. revert p s.
  induction l as [|x l IH]; intros p s Hs; [done|].
  simpl. unfold bind. specialize (Hbody p x s Hs).
  destruct (body p x s) as [s1 [[]|e]]; simpl in *; [by apply IH|done].
Qed.

(** ** One extent under an append *)

Lemma grown_by_refl inc d : grown_by inc d d.
Proof. split; [lia|]. exists 0. lia. Qed.

Lemma grown_by_trans inc d1 d2 d3 :
  0 <= inc -> grown_by inc d1 d2 -> grown_by inc d2 d3 -> grown_by inc d1 d3.
Proof.
  intros Hinc [H1 (k1 & Hk1 & E1)] [H2 (k2 & Hk2 & E2)].
  split; [lia|]. exists (k1 + k2). split; [lia|]. rewrite E2, E1. ring.
Qed.

(** Whatever the outcome, the guard of lines 135-136 leaves
    [last_row] alone and can only add whole increments. *)
Lemma resize_if_needed_any self n d :
  0 <= ds_increment self -> 0 <= n ->
  last_row (resize_if_needed self n d).1 = last_row d
  /\ grown_by (ds_increment self) d (resize_if_needed self n d).1.
Proof.
  intros Hinc Hn.
  destruct (Z_le_gt_dec (last_row d + n) (len d)) as [Hfit|Hover].
  - rewrite resize_if_needed_keep by done. split; [done|apply grown_by_refl].
  - destruct (Z.eq_dec (ds_increment self) 0) as [Hz|Hnz].
    + unfold resize_if_needed, _resize_dataset, bind, gets, lift, py_div, ret.
      destruct (last_row d + n >? len d); simpl;
        [|split; [done|apply grown_by_refl]].
      rewrite Hz. simpl. split; [done|apply grown_by_refl].
    + destruct (resize_if_needed_grow self n d) as (d' & -> & Hlen & Hlast & _);
        [lia|done|done|].
      simpl. split; [done|].
      pose proof (growth_positive n (ds_increment self) ltac:(lia) Hn).
      split; [lia|]. exists (n / ds_increment self + 1).
      split; [|done]. pose proof (Z.div_pos n (ds_increment self)). lia.
Qed.

Lemma h5_write_slice_run a b batch d :
  (h5_write_slice a b batch d).2 = Ok tt ->
  0 <= a /\ a <= b /\ b <= len d /\ Z.of_nat (length batch) = b - a
  /\ h5_write_slice a b batch d
     = (set_rows (take (Z.to_nat a) (ds_rows d) ++ batch
                  ++ drop (Z.to_nat b) (ds_rows d)) d, Ok tt).
Proof.
  unfold h5_write_slice.
  destruct ((0 <=? a) && (a <=? b) && (b <=? len d)
            && (Z.of_nat (length batch) =? b - a)) eqn:E; [|done].
  intros _. repeat (apply andb_prop in E as [E ?]).
  repeat split; try lia; done.
Qed.

Lemma h5_write_slice_len a b batch d :
  len (h5_write_slice a b batch d).1 = len d
  /\ last_row (h5_write_slice a b batch d).1 = last_row d.
Proof.
  destruct (h5_write_slice a b batch d).2 as [[]|e] eqn:E.
  - apply h5_write_slice_run in E as (Ha & Hab & Hb & Hlen & ->).
    unfold len in *. simpl. split; [|done].
    rewrite !length_app, length_take, length_drop. lia.
  - unfold h5_write_slice in *.
    by destruct ((0 <=? a) && (a <=? b) && (b <=? len d)
                 && (Z.of_nat (length batch) =? b - a)).
Qed.

Lemma h5_write_row_len i row d :
  len (h5_write_row i row d).1 = len d
  /\ last_row (h5_write_row i row d).1 = last_row d.
Proof.
  unfold h5_write_row. destruct (dtype_accepts (ds_dtype d) row); [|done].
  destruct ((0 <=? i) && (i <? len d)); [|done].
  unfold len. simpl. by rewrite length_insert.
Qed.

(** The state of an extent after lines 133-139, on every outcome. *)
Lemma extend_var_any self packet var_name d :
  0 <= ds_increment self -> extent_ok d ->
  extent_ok (extend_var self packet var_name d).1
  /\ grown_by (ds_increment self) d (extend_var self packet var_name d).1.
Proof.
  intros Hinc Hok. unfold extend_var, bind.
  pose proof (resize_if_needed_any self (Z.of_nat (length (data packet))) d
                Hinc ltac:(lia)) as [Hlast Hgrow].
  destruct (resize_if_needed self _ d) as [d1 [cur_idx|e]] eqn:Hr; simpl in *;
    [|split; [unfold extent_ok in *; destruct Hgrow; lia|done]].
  assert (cur_idx = last_row d) as ->.
  { unfold resize_if_needed, bind, gets, ret in Hr.
    destruct (last_row d + _ >? len d); simpl in Hr.
    - destruct (_resize_dataset self _ d) as [? [[]|?]]; simpl in Hr;
        congruence.
    - congruence. }
  unfold lift.
  destruct (column (data packet) var_name) as [batch|e]; simpl;
    [|split; [unfold extent_ok in *; destruct Hgrow; lia|done]].
  pose proof (h5_write_slice_len (last_row d)
                (last_row d + Z.of_nat (length (data packet))) batch d1)
    as [Hl2 Hr2].
  destruct (h5_write_slice _ _ batch d1) as [d2 [[]|e]] eqn:Hw; simpl in *.
  - assert ((h5_write_slice (last_row d)
               (last_row d + Z.of_nat (length (data packet))) batch d1).2
            = Ok tt) as Hok2 by (by rewrite Hw).
    apply h5_write_slice_run in Hok2 as (Ha & Hab & Hb & _).
    unfold modify; simpl. split.
    + unfold extent_ok in *. rewrite len_set_last_row. simpl. lia.
    + destruct Hgrow as [? (k & ? & ?)]. split; rewrite len_set_last_row;
        [lia|]. exists k. split; [done|lia].
  - split.
    + unfold extent_ok in *. destruct Hgrow. lia.
    + destruct Hgrow as [? (k & ? & ?)]. split; [lia|]. exists k. lia.
Qed.

Lemma take_S_insert {A} (l : list A) a x :
  (a < length l)%nat -> take (S a) (<[a := x]> l) = take a l ++ [x].
Proof.
  intros Ha. rewrite insert_take_drop by done.
  rewrite take_app_ge by (rewrite length_take; lia).
  rewrite length_take. replace (S a - a `min` length l)%nat with 1%nat by lia.
  done.
Qed.

(** The row loop of lines 152-155 when it runs to its end. *)
Lemma write_rows_run pvi names cur_idx rows p d d' :
  for_enumerate
    (fun row_idx row_data =>
       vals <- lift (row_vals pvi names row_data) ;;
       h5_write_row (cur_idx + Z.of_nat row_idx) vals) p rows d
  = (d', Ok tt) ->
  exists recs,
    map_result (row_vals pvi names) rows = Ok recs
    /\ length recs = length rows
    /\ last_row d' = last_row d /\ len d' = len d
    /\ (rows <> [] -> 0 <= cur_idx + Z.of_nat p
                      /\ cur_idx + Z.of_nat p + Z.of_nat (length rows) <= len d)
    /\ ds_rows d'
       = take (Z.to_nat (cur_idx + Z.of_nat p)) (ds_rows d) ++ recs
         ++ drop (Z.to_nat (cur_idx + Z.of_nat p) + length rows) (ds_rows d).
Proof.
  revert p d. induction rows as [|row rows IH]; intros p d Hrun.
  - simpl in Hrun. injection Hrun as <-. exists []. simpl.
    rewrite Nat.add_0_r, take_drop. repeat split; done.
  - simpl in Hrun. unfold bind at 1 in Hrun. unfold bind at 1 in Hrun.
    unfold lift at 1 in Hrun.
    destruct (row_vals pvi names row) as [v|e] eqn:Hv; [|done].
    unfold h5_write_row at 1 in Hrun.
    destruct (dtype_accepts (ds_dtype d) v); [|done].
    destruct ((0 <=? cur_idx + Z.of_nat p) && (cur_idx + Z.of_nat p <? len d))
      eqn:Hin; [|done].
    apply andb_prop in Hin as [H0 H1].
    apply IH in Hrun as (recs & Hrecs & Hlen & Hlast & Hcap & Hbound & Hrows).
    exists (v :: recs). simpl. rewrite Hv, Hrecs.
    unfold len in *. simpl in *. rewrite length_insert in *.
    repeat split; try done; try lia.
    + destruct rows; [simpl; lia|]. destruct Hbound as [_ Hb]; [done|].
      simpl in *. lia.
    + rewrite Hrows.
      replace (Z.to_nat (cur_idx + Z.of_nat (S p)))
        with (S (Z.to_nat (cur_idx + Z.of_nat p))) by lia.
      rewrite take_S_insert by lia.
      rewrite drop_insert_lt by lia.
      rewrite <- app_assoc. simpl. repeat f_equal; lia.
Qed.

Lemma write_rows_any pvi names cur_idx rows p d :
  let d' := (for_enumerate
               (fun row_idx row_data =>
                  vals <- lift (row_vals pvi names row_data) ;;
                  h5_write_row (cur_idx + Z.of_nat row_idx) vals) p rows d).1 in
  len d' = len d /\ last_row d' = last_row d.
Proof.
  apply (for_enumerate_preserve
           (fun s => len s = len d /\ last_row s = last_row d)); [|done].
  intros i x s0 [Hl Hr]. unfold bind, lift.
  destruct (row_vals pvi names x); simpl; [|done].
  destruct (h5_write_row_len (cur_idx + Z.of_nat i) a s0) as [-> ->]. done.
Qed.

(** The state of the record extent after lines 146-156, on every
    outcome. *)
Lemma extend_combined_any self packet d :
  0 <= ds_increment self -> extent_ok d ->
  extent_ok (extend_combined self packet d).1
  /\ grown_by (ds_increment self) d (extend_combined self packet d).1.
Proof.
  intros Hinc Hok. unfold extend_combined, bind.
  pose proof (resize_if_needed_any self (Z.of_nat (length (data packet))) d
                Hinc ltac:(lia)) as [Hlast Hgrow].
  destruct (resize_if_needed self _ d) as [d1 [cur_idx|e]] eqn:Hr; simpl in *;
    [|split; [unfold extent_ok in *; destruct Hgrow; lia|done]].
  assert (cur_idx = last_row d) as ->.
  { unfold resize_if_needed, bind, gets, ret in Hr.
    destruct (last_row d + _ >? len d); simpl in Hr.
    - destruct (_resize_dataset self _ d) as [? [[]|?]]; simpl in Hr;
        congruence.
    - congruence. }
  unfold lift.
  destruct (map_result name_of (var_defs self)) as [names|e]; simpl;
    [|split; [unfold extent_ok in *; destruct Hgrow; lia|done]].
  pose proof (write_rows_any (build_pvi 0 (cols packet) names ∅) names
                (last_row d) (data packet) 0%nat d1) as [Hl2 Hr2].
  simpl in Hl2, Hr2.
  destruct (for_enumerate _ 0%nat (data packet) d1) as [d2 [[]|e]] eqn:Hw;
    simpl in *.
  - apply write_rows_run in Hw as (recs & _ & _ & _ & _ & Hbound & _).
    unfold modify; simpl. split.
    + unfold extent_ok in *. rewrite len_set_last_row. simpl.
      destruct (data packet) as [|r rs] eqn:Hd.
      * simpl. destruct Hgrow. lia.
      * destruct Hbound as [? ?]; [done|]. simpl in *. lia.
    + destruct Hgrow as [? (k & ? & ?)]. split; rewrite len_set_last_row;
        [lia|]. exists k. split; [done|lia].
  - split.
    + unfold extent_ok in *. destruct Hgrow. lia.
    + destruct Hgrow as [? (k & ? & ?)]. split; [lia|]. exists k. lia.
Qed.

(** ** The container under an append *)

Lemma evolves_refl inc d : evolves inc d d.
Proof. intros H. split; [done|apply grown_by_refl]. Qed.

Lemma evolves_trans inc d1 d2 d3 :
  0 <= inc -> evolves inc d1 d2 -> evolves inc d2 d3 -> evolves inc d1 d3.
Proof.
  intros Hinc H12 H23 H1. destruct (H12 H1) as [H2 G12].
  destruct (H23 H2) as [H3 G23]. split; [done|].
  by apply grown_by_trans with d2.
Qed.

Lemma file_evolves_refl inc f : file_evolves inc f f.
Proof.
  intros name. destruct (f_vars f !! name) as [d|] eqn:E; [|done].
  exists d. split; [done|apply evolves_refl].
Qed.

Lemma file_evolves_trans inc f1 f2 f3 :
  0 <= inc ->
  file_evolves inc f1 f2 -> file_evolves inc f2 f3 -> file_evolves inc f1 f3.
Proof.
  intros Hinc H12 H23 name. specialize (H12 name). specialize (H23 name).
  destruct (f_vars f1 !! name) as [d1|].
  - destruct H12 as (d2 & E2 & Hev). rewrite E2 in H23.
    destruct H23 as (d3 & E3 & Hev'). exists d3. split; [done|].
    by apply evolves_trans with d2.
  - by rewrite H12 in H23.
Qed.

(** A step on one member leaves the others as they are. *)
Lemma on_var_evolves {A} inc name (m : M Dataset A) f d :
  f_vars f !! name = Some d ->
  evolves inc d (m d).1 ->
  file_evolves inc f (on_var name m f).1.
Proof.
  intros Hd Hev other. unfold on_var. rewrite Hd.
  destruct (m d) as [d' r]; simpl in *.
  destruct (decide (name = other)) as [<-|Hne].
  - rewrite Hd, lookup_insert_eq. by exists d'.
  - rewrite lookup_insert_ne by done.
    destruct (f_vars f !! other) as [d0|]; [|done].
    exists d0. split; [done|apply evolves_refl].
Qed.

Lemma extend_individual_evolves self packet var_name f :
  0 <= ds_increment self ->
  file_evolves (ds_increment self) f (extend_individual self packet var_name f).1.
Proof.
  intros Hinc. unfold extend_individual.
  destruct (f_vars f !! var_name) as [d|] eqn:Hd;
    [|apply file_evolves_refl].
  apply on_var_evolves with d; [done|].
  intros Hok. by apply extend_var_any.
Qed.

Lemma extend_container_evolves self packet f :
  0 <= ds_increment self ->
  file_evolves (ds_increment self) f (extend_container self packet f).1.
Proof.
  intros Hinc. unfold extend_container.
  destruct (bool_decide (ds_layout self = DS_LAYOUT_INDIVIDUAL)).
  - generalize (cols packet) as cs. intros cs. revert f.
    induction cs as [|c cs IH]; intros f; [apply file_evolves_refl|].
    simpl. unfold bind.
    pose proof (extend_individual_evolves self packet c f Hinc) as Hstep.
    destruct (extend_individual self packet c f) as [f1 [[]|e]]; simpl in *;
      [|done].
    apply file_evolves_trans with f1; [done|done|apply IH].
  - destruct (bool_decide (ds_layout self = DS_LAYOUT_COMBINED));
      [|apply file_evolves_refl].
    destruct (f_vars f !! DS_VARIABLES) as [d|] eqn:Hd;
      [|apply file_evolves_refl].
    apply on_var_evolves with d; [done|].
    intros Hok. by apply extend_combined_any.
Qed.

(** A file without members stays so. *)
Lemma extend_container_empty self packet f :
  f_vars f = ∅ -> (extend_container self packet f).1 = f.
Proof.
  intros Hempty. unfold extend_container.
  destruct (bool_decide (ds_layout self = DS_LAYOUT_INDIVIDUAL)).
  - apply (for_each_preserve (fun s => s = f)); [|done].
    intros x s0 ->. unfold extend_individual.
    by rewrite Hempty, lookup_empty.
  - destruct (bool_decide (ds_layout self = DS_LAYOUT_COMBINED)); [|done].
    by rewrite Hempty, lookup_empty.
Qed.

(** ** The container as created *)

Lemma bind_preserve {St A B} (P : St -> Prop) (m : M St A)
    (k : A -> M St B) s :
  P (m s).1 -> (forall a s', P s' -> P (k a s').1) -> P (bind m k s).1.
Proof.
  intros Hm Hk. unfold bind. destruct (m s) as [s' [a|e]]; simpl in *;
    [by apply Hk|done].
Qed.

Lemma create_dataset_fresh n t d : create_dataset n t = Ok d -> fresh n d.
Proof.
  unfold create_dataset. destruct (n <? 0) eqn:E; [done|].
  intros [= <-]. unfold fresh, len. simpl. rewrite length_replicate. lia.
Qed.

Lemma file_create_dataset_fresh name n t f :
  all_fresh n f -> all_fresh n (file_create_dataset name n t f).1.
Proof.
  intros Hf. unfold file_create_dataset.
  destruct (f_vars f !! name) eqn:Hname; [done|].
  destruct (create_dataset n t) as [d|e] eqn:Hc; [|done].
  intros other d0. unfold set_var. simpl.
  destruct (decide (name = other)) as [<-|Hne].
  - rewrite lookup_insert_eq. intros [= <-]. by apply create_dataset_fresh with t.
  - rewrite lookup_insert_ne by done. apply Hf.
Qed.

Lemma on_var_modify_fresh inc name g f :
  (forall d, fresh inc d -> fresh inc (g d)) ->
  all_fresh inc f -> all_fresh inc (on_var name (modify g) f).1.
Proof.
  intros Hg Hf. unfold on_var, modify.
  destruct (f_vars f !! name) as [d|] eqn:Hd; [|done].
  intros other d0. unfold set_var. simpl.
  destruct (decide (name = other)) as [<-|Hne].
  - rewrite lookup_insert_eq. intros [= <-]. apply Hg. by apply Hf with name.
  - rewrite lookup_insert_ne by done. apply Hf.
Qed.

Lemma fresh_set_attr inc k v d : fresh inc d -> fresh inc (set_attr k v d).
Proof. done. Qed.

Lemma fresh_set_last_row inc d : fresh inc d -> fresh inc (set_last_row 0 d).
Proof. intros (_ & ? & ?). done. Qed.

Lemma create_individual_fresh self position vi f :
  all_fresh (ds_increment self) f ->
  all_fresh (ds_increment self) (create_individual self position vi f).1.
Proof.
  intros Hf. unfold create_individual.
  apply bind_preserve; [done|]. intros var_name f0 H0.
  apply bind_preserve; [by apply file_create_dataset_fresh|]. intros _ f1 H1.
  repeat (apply bind_preserve;
          [by apply on_var_modify_fresh; [apply fresh_set_attr|]|];
          intros _ ? ?).
  apply on_var_modify_fresh; [apply fresh_set_last_row|done].
Qed.

Lemma create_combined_fresh self f :
  all_fresh (ds_increment self) f ->
  all_fresh (ds_increment self) (create_combined self f).1.
Proof.
  intros Hf. unfold create_combined.
  apply bind_preserve; [done|]. intros parts f0 H0.
  apply bind_preserve; [done|]. intros t f1 H1.
  apply bind_preserve; [by apply file_create_dataset_fresh|]. intros _ f2 H2.
  apply bind_preserve;
    [by apply on_var_modify_fresh; [apply fresh_set_attr|]|].
  intros _ f3 H3.
  apply on_var_modify_fresh; [apply fresh_set_last_row|done].
Qed.

Lemma create_container_fresh self :
  all_fresh (ds_increment self) (create_container self (mkFile ∅ ∅)).1.
Proof.
  unfold create_container.
  apply bind_preserve; [by intros name d; simpl; rewrite lookup_empty|].
  intros _ f0 H0.
  apply bind_preserve; [done|]. intros _ f1 H1.
  destruct (bool_decide (ds_layout self = DS_LAYOUT_INDIVIDUAL)).
  - apply (for_enumerate_preserve (all_fresh (ds_increment self))); [|done].
    intros i vi s0. apply create_individual_fresh.
  - destruct (bool_decide (ds_layout self = DS_LAYOUT_COMBINED)); [|done].
    by apply create_combined_fresh.
Qed.

(** ** The file system under the two operations *)

Lemma path_exists_file fs p f : fs_files fs !! p = Some f -> path_exists fs p = true.
Proof.
  intros H. unfold path_exists. rewrite (bool_decide_eq_true_2 (is_Some _));
    [apply orb_true_r|by rewrite H].
Qed.

Lemma extend_dataset_file self packet fs :
  match fs_files fs !! _get_ds_filename self with
  | Some f =>
      extend_dataset self packet fs
      = (mkFS (fs_dirs fs)
              (<[_get_ds_filename self := (extend_container self packet f).1]>
                 (fs_files fs)),
         (extend_container self packet f).2)
  | None => extend_dataset self packet fs = (fs, Raise IOError)
  end.
Proof.
  unfold extend_dataset, with_file.
  destruct (fs_files fs !! _get_ds_filename self) as [f|]; [|done].
  by destruct (extend_container self packet f).
Qed.

Lemma makedirs_files name fs : fs_files (makedirs name fs).1 = fs_files fs.
Proof. unfold makedirs. by destruct (path_exists fs name). Qed.

(** [require_dataset] where there is nothing at the path yet. *)
Lemma require_dataset_run self fs :
  path_exists fs (_get_ds_filename self) = false ->
  require_dataset self fs
  = match makedirs (os_path_split (_get_ds_filename self)).1 fs with
    | (fs1, Raise e) => (fs1, Raise e)
    | (fs1, Ok _) =>
        if bool_decide (_get_ds_filename self ∈ fs_dirs fs1)
        then (fs1, Raise IOError)
        else (mkFS (fs_dirs fs1)
                   (<[_get_ds_filename self
                      := (create_container self (mkFile ∅ ∅)).1]>
                      (fs_files fs1)),
              match (create_container self (mkFile ∅ ∅)).2 with
              | Ok _ => Ok (_get_ds_filename self, true)
              | Raise e => Raise e
              end)
    end.
Proof.
  intros Hno. unfold require_dataset. rewrite Hno. unfold bind, with_file, ret.
  destruct (makedirs _ fs) as [fs1 [[]|e]]; [|done].
  destruct (bool_decide (_get_ds_filename self ∈ fs_dirs fs1)); [done|].
  by destruct (create_container self (mkFile ∅ ∅)) as [f [[]|e]].
Qed.

(** It leaves either no file or the file that [create_container]
    wrote. *)
Lemma require_dataset_file self fs :
  path_exists fs (_get_ds_filename self) = false ->
  fs_files (require_dataset self fs).1 !! _get_ds_filename self = None
  \/ fs_files (require_dataset self fs).1 !! _get_ds_filename self
     = Some (create_container self (mkFile ∅ ∅)).1.
Proof.
  intros Hno. rewrite require_dataset_run by done.
  assert (fs_files fs !! _get_ds_filename self = None) as Hnone.
  { destruct (fs_files fs !! _get_ds_filename self) eqn:E; [|done].
    apply path_exists_file in E. congruence. }
  pose proof (makedirs_files (os_path_split (_get_ds_filename self)).1 fs)
    as Hmk.
  destruct (makedirs _ fs) as [fs1 [[]|e]]; simpl in *;
    [|left; by rewrite Hmk].
  destruct (bool_decide (_get_ds_filename self ∈ fs_dirs fs1)); simpl.
  - left. by rewrite Hmk.
  - right. by rewrite lookup_insert_eq.
Qed.

Lemma require_dataset_exists self fs :
  path_exists fs (_get_ds_filename self) = true ->
  require_dataset self fs = (fs, Ok (_get_ds_filename self, false)).
Proof. intros H. unfold require_dataset. by rewrite H. Qed.

Lemma fresh_ok inc d :
  fresh inc d -> 0 <= inc /\ extent_ok d /\ exists k, 0 <= k /\ len d = k * inc.
Proof.
  intros (Hl & Hlen & Hinc). split; [done|]. split.
  - unfold extent_ok. lia.
  - exists 1. lia.
Qed.

Lemma container_ok_require self fs :
  container_ok self fs -> container_ok self (require_dataset self fs).1.
Proof.
  intros Hok.
  destruct (path_exists fs (_get_ds_filename self)) eqn:Hex.
  - by rewrite require_dataset_exists.
  - intros name d. unfold extent.
    destruct (require_dataset_file self fs Hex) as [-> | ->]; [done|].
    simpl. intros Hd. apply fresh_ok.
    by apply (create_container_fresh self name).
Qed.

Lemma container_ok_extend self packet fs :
  container_ok self fs -> container_ok self (extend_dataset self packet fs).1.
Proof.
  intros Hok. pose proof (extend_dataset_file self packet fs) as Hrun.
  destruct (fs_files fs !! _get_ds_filename self) as [f|] eqn:Hf;
    [|by rewrite Hrun].
  rewrite Hrun. intros name d'. unfold extent. simpl.
  rewrite lookup_insert_eq. simpl. intros Hd'.
  destruct (decide (f_vars f = ∅)) as [Hempty|Hne].
  - rewrite extend_container_empty in Hd' by done.
    by rewrite Hempty, lookup_empty in Hd'.
  - apply map_choose in Hne as (some & d0 & Hsome).
    destruct (Hok some d0) as (Hinc & _); [unfold extent; by rewrite Hf|].
    pose proof (extend_container_evolves self packet f Hinc name) as Hev.
    destruct (f_vars f !! name) as [d|] eqn:Hd; [|congruence].
    destruct Hev as (d1 & Hd1 & Hev). assert (d1 = d') as -> by congruence.
    destruct (Hok name d) as (_ & Hext & k & Hk & Hlen);
      [unfold extent; by rewrite Hf|].
    destruct (Hev Hext) as [Hext' [_ (k' & Hk' & Hlen')]].
    split; [done|]. split; [done|]. exists (k + k'). split; [lia|].
    rewrite Hlen', Hlen. ring.
Qed.

(** The invariant of the container. *)
Lemma reachable_ok self fs : reachable self fs -> container_ok self fs.
Proof.
  induction 1 as [fs Hnone|fs _ IH|fs packet _ IH].
  - intros name d. unfold extent. by rewrite Hnone.
  - by apply container_ok_require.
  - by apply container_ok_extend.
Qed.

(** ** Successful appends, in full *)

Lemma h5_resize_last_row new_size d :
  last_row (h5_resize new_size d).1 = last_row d.
Proof. unfold h5_resize. by destruct (new_size <? 0). Qed.

Lemma resize_if_needed_result self n d :
  last_row (resize_if_needed self n d).1 = last_row d
  /\ forall x, (resize_if_needed self n d).2 = Ok x -> x = last_row d.
Proof.
  unfold resize_if_needed, _resize_dataset, bind, gets, lift, ret.
  destruct (last_row d + n >? len d); simpl; [|split; congruence].
  destruct (py_div n (ds_increment self)) as [q|e]; simpl; [|done].
  pose proof (h5_resize_last_row (len d + (q + 1) * ds_increment self) d).
  destruct (h5_resize _ d) as [d1 [[]|e]]; simpl in *; split; congruence.
Qed.

Lemma map_result_cons {A B} (f : A -> result B) x l ys :
  map_result f (x :: l) = Ok ys ->
  exists y ys', ys = y :: ys' /\ f x = Ok y /\ map_result f l = Ok ys'.
Proof.
  simpl. destruct (f x) as [y|]; [|done].
  destruct (map_result f l) as [ys'|]; [|done].
  intros [= <-]. by exists y, ys'.
Qed.

Lemma map_result_elem {A B} (f : A -> result B) l ys y :
  map_result f l = Ok ys -> y ∈ ys -> exists x, x ∈ l /\ f x = Ok y.
Proof.
  revert ys. induction l as [|x l IH]; intros ys Hys Hy.
  - injection Hys as <-. by apply elem_of_nil in Hy.
  - apply map_result_cons in Hys as (y0 & ys' & -> & Hx & Hl).
    apply elem_of_cons in Hy as [->|Hy].
    + exists x. split; [apply elem_of_cons; by left|done].
    + destruct (IH ys' Hl Hy) as (x' & Hin & Hx').
      exists x'. split; [apply elem_of_cons; by right|done].
Qed.


Lemma map_result_length {A B} (f : A -> result B) l ys :
  map_result f l = Ok ys -> length ys = length l.
Proof.
  revert ys. induction l as [|x l IH]; intros ys; simpl.
  - by intros [= <-].
  - destruct (f x); [|done]. destruct (map_result f l); [|done].
    intros [= <-]. simpl. f_equal. by apply IH.
Qed.

(** Lines 133-139 when they run to the end: the column goes to
    [[last_row, last_row + num_rows)] of the extent as the guard left
    it, and [last_row] moves by [num_rows]. *)
Lemma extend_var_run self packet var_name d d' :
  extend_var self packet var_name d = (d', Ok tt) ->
  let n := Z.of_nat (length (data packet)) in
  let rows := ds_rows (resize_if_needed self n d).1 in
  exists batch,
    column (data packet) var_name = Ok batch
    /\ length batch = length (data packet)
    /\ 0 <= last_row d /\ last_row d + n <= Z.of_nat (length rows)
    /\ last_row d' = last_row d + n
    /\ ds_rows d' = take (Z.to_nat (last_row d)) rows ++ batch
                    ++ drop (Z.to_nat (last_row d + n)) rows.
Proof.
  intros Hrun. simpl. unfold extend_var, bind in Hrun.
  destruct (resize_if_needed_result self (Z.of_nat (length (data packet))) d)
    as [Hlast Hidx].
  destruct (resize_if_needed self _ d) as [d1 [cur_idx|e]]; [|done].
  simpl in *. rewrite (Hidx cur_idx eq_refl) in Hrun. clear Hidx.
  unfold lift in Hrun.
  destruct (column (data packet) var_name) as [batch|e] eqn:Hcol; [|done].
  destruct (h5_write_slice _ _ batch d1) as [d2 [[]|e]] eqn:Hw; [|done].
  assert ((h5_write_slice (last_row d)
             (last_row d + Z.of_nat (length (data packet))) batch d1).2
          = Ok tt) as Hok by (by rewrite Hw).
  apply h5_write_slice_run in Hok as (Ha & Hab & Hb & Hlen & Heq).
  rewrite Heq in Hw. injection Hw as <-. injection Hrun as <-.
  exists batch. unfold len in *. simpl.
  repeat split; try done; lia.
Qed.

Lemma extend_var_len self packet var_name d :
  len (extend_var self packet var_name d).1
  = len (resize_if_needed self (Z.of_nat (length (data packet))) d).1.
Proof.
  unfold extend_var, bind.
  destruct (resize_if_needed self _ d) as [d1 [cur_idx|e]]; [|done].
  unfold lift. destruct (column (data packet) var_name) as [batch|e]; [|done].
  pose proof (h5_write_slice_len cur_idx
                (cur_idx + Z.of_nat (length (data packet))) batch d1) as [Hl _].
  by destruct (h5_write_slice _ _ batch d1) as [d2 [[]|e]].
Qed.

(** Lines 146-156 when they run to the end. *)
Lemma extend_combined_run self packet d d' :
  extend_combined self packet d = (d', Ok tt) ->
  let n := Z.of_nat (length (data packet)) in
  let rows := ds_rows (resize_if_needed self n d).1 in
  exists names recs,
    map_result name_of (var_defs self) = Ok names
    /\ map_result (row_vals (build_pvi 0 (cols packet) names ∅) names)
         (data packet) = Ok recs
    /\ length recs = length (data packet)
    /\ (data packet <> [] ->
        0 <= last_row d /\ last_row d + n <= Z.of_nat (length rows))
    /\ last_row d' = last_row d + n
    /\ ds_rows d' = take (Z.to_nat (last_row d)) rows ++ recs
                    ++ drop (Z.to_nat (last_row d) + length (data packet)) rows.
Proof.
  intros Hrun. simpl. unfold extend_combined, bind in Hrun.
  destruct (resize_if_needed_result self (Z.of_nat (length (data packet))) d)
    as [Hlast Hidx].
  destruct (resize_if_needed self _ d) as [d1 [cur_idx|e]]; [|done].
  simpl in Hlast, Hidx. rewrite (Hidx cur_idx eq_refl) in Hrun. clear Hidx.
  unfold lift at 1 in Hrun.
  destruct (map_result name_of (var_defs self)) as [names|e]; [|done].
  destruct (for_enumerate _ 0%nat (data packet) d1) as [d2 [[]|e]] eqn:Hw;
    [|done].
  apply write_rows_run in Hw
    as (recs & Hrecs & Hlen & Hlast2 & Hcap & Hbound & Hrows).
  injection Hrun as <-. exists names, recs. simpl.
  rewrite Z.add_0_r in *. unfold len in *.
  repeat split; try done; try (apply Hbound; done); lia.
Qed.

Lemma extend_combined_len self packet d :
  len (extend_combined self packet d).1
  = len (resize_if_needed self (Z.of_nat (length (data packet))) d).1.
Proof.
  unfold extend_combined, bind.
  destruct (resize_if_needed self _ d) as [d1 [cur_idx|e]]; [|done].
  unfold lift at 1.
  destruct (map_result name_of (var_defs self)) as [names|e]; [|done].
  pose proof (write_rows_any (build_pvi 0 (cols packet) names ∅) names
                cur_idx (data packet) 0%nat d1) as [Hl _].
  simpl in Hl.
  by destruct (for_enumerate _ 0%nat (data packet) d1) as [d2 [[]|e]].
Qed.

(** ** The resize policy, as specified *)

(** C1.  An append of [num_rows] rows resizes the extent exactly when
    [last_row + num_rows > capacity], and then to
    [capacity + (num_rows / row_increment + 1) * row_increment]; the
    writes that follow keep that capacity and a completed append
    leaves [last_row + num_rows].  With an increment of 10, capacity 10
    and [last_row = 5], eight more rows give capacity 20 and
    [last_row = 13]. *)
Theorem resize_policy self packet d :
  0 < ds_increment self ->
  let n := Z.of_nat (length (data packet)) in
  let resized := (resize_if_needed self n d).1 in
  (last_row d + n <= len d -> resized = d)
  /\ (last_row d + n > len d ->
      len resized = len d + (n / ds_increment self + 1) * ds_increment self
      /\ len d < len resized)
  /\ (forall var_name,
        len (extend_var self packet var_name d).1 = len resized)
  /\ len (extend_combined self packet d).1 = len resized
  /\ (forall var_name d',
        extend_var self packet var_name d = (d', Ok tt) ->
        last_row d' = last_row d + n)
  /\ (forall d',
        extend_combined self packet d = (d', Ok tt) ->
        last_row d' = last_row d + n)
  /\ (ds_increment Scenario.self = 10
      /\ len (Scenario.time_at Scenario.fs5) = 10
      /\ last_row (Scenario.time_at Scenario.fs5) = 5
      /\ length (data Scenario.packet8) = 8%nat
      /\ (extend_dataset Scenario.self Scenario.packet8 Scenario.fs5).2 = Ok tt
      /\ len (Scenario.time_at Scenario.fs13) = 20
      /\ last_row (Scenario.time_at Scenario.fs13) = 13
      /\ len (Scenario.temperature_at Scenario.fs13) = 20
      /\ last_row (Scenario.temperature_at Scenario.fs13) = 13).
Proof.
  intros Hinc n resized. subst n resized.
  assert (0 <= Z.of_nat (length (data packet))) as Hn by lia.
  split; [|split; [|split; [|split; [|split; [|split]]]]].
  - intros Hfit. by rewrite resize_if_needed_keep.
  - intros Hover.
    destruct (resize_if_needed_grow self _ d Hinc Hn Hover)
      as (d1 & -> & Hlen & _). simpl.
    pose proof (growth_positive _ _ Hinc Hn). split; [done|lia].
  - intros var_name. apply extend_var_len.
  - apply extend_combined_len.
  - intros var_name d' Hrun.
    by apply extend_var_run in Hrun as (batch & _ & _ & _ & _ & ? & _).
  - intros d' Hrun.
    by apply extend_combined_run in Hrun
      as (names & recs & _ & _ & _ & _ & ? & _).
  - vm_compute. repeat split; reflexivity.
Qed.

Lemma resize_policy_witness :
  0 < ds_increment Scenario.self
  /\ len (extend_var Scenario.self Scenario.packet8 "time"
            (Scenario.time_at Scenario.fs5)).1 = 20.
Proof.
  assert (0 < ds_increment Scenario.self) as Hinc by (vm_compute; reflexivity).
  split; [exact Hinc|].
  destruct (resize_policy Scenario.self Scenario.packet8
              (Scenario.time_at Scenario.fs5) Hinc)
    as (_ & Hgrow & Hvar & _).
  rewrite Hvar. destruct Hgrow as [-> _]; [vm_compute; reflexivity|].
  vm_compute. reflexivity.
Defined.

(** C5, as the code has it.  When a batch triggers a resize, capacity
    grows by [num_rows] and between one row and one increment more:
    the room left after the batch is
    [(capacity - last_row) + row_increment - num_rows mod row_increment],
    at least one row, and a full increment only when
    [num_rows mod row_increment <= capacity - last_row]. *)
Theorem resize_headroom self n d :
  0 < ds_increment self -> 0 <= n -> last_row d + n > len d ->
  let inc := ds_increment self in
  let capacity' := len (resize_if_needed self n d).1 in
  capacity' - (len d + n) = inc - n mod inc
  /\ 1 <= capacity' - (len d + n) <= inc
  /\ capacity' - (last_row d + n) = (len d - last_row d) + inc - n mod inc
  /\ (last_row d <= len d -> 1 <= capacity' - (last_row d + n))
  /\ (capacity' - (last_row d + n) >= inc <-> n mod inc <= len d - last_row d).
Proof.
  intros Hinc Hn Hover. simpl.
  destruct (resize_if_needed_grow self n d Hinc Hn Hover)
    as (d1 & -> & Hlen & _). simpl.
  rewrite Hlen, (growth_exact n _ Hinc).
  pose proof (Z.mod_pos_bound n _ Hinc).
  repeat split; lia.
Qed.

Lemma resize_headroom_witness :
  0 < ds_increment Scenario.self
  /\ len (resize_if_needed Scenario.self 8 (Scenario.time_at Scenario.fs5)).1
     - (last_row (Scenario.time_at Scenario.fs5) + 8) = 7.
Proof.
  assert (0 < ds_increment Scenario.self) as Hinc by (vm_compute; reflexivity).
  split; [exact Hinc|].
  destruct (resize_headroom Scenario.self 8 (Scenario.time_at Scenario.fs5)
              Hinc ltac:(lia) ltac:(vm_compute; reflexivity))
    as (_ & _ & -> & _).
  vm_compute. reflexivity.
Defined.

(** C5 as stated fails on the scenario of the specification itself:
    capacity 10, [last_row = 5], eight rows, increment 10 leave 7 free
    rows after the resize, fewer than one increment. *)
Lemma resize_headroom_counterexample :
  let d := Scenario.time_at Scenario.fs5 in
  last_row d + 8 > len d
  /\ ~ (len (resize_if_needed Scenario.self 8 d).1 - (last_row d + 8)
        >= ds_increment Scenario.self).
Proof.
  assert (len (resize_if_needed Scenario.self 8
                 (Scenario.time_at Scenario.fs5)).1 = 20) as H1
    by (vm_compute; reflexivity).
  assert (last_row (Scenario.time_at Scenario.fs5) = 5) as H2
    by (vm_compute; reflexivity).
  assert (len (Scenario.time_at Scenario.fs5) = 10) as H3
    by (vm_compute; reflexivity).
  assert (ds_increment Scenario.self = 10) as H4
    by (vm_compute; reflexivity).
  cbv zeta. rewrite H1, H2, H3, H4. lia.
Qed.

(** ** The invariant of the container, as specified *)

Lemma extent_file self fs name d :
  extent self fs name = Some d ->
  exists f, fs_files fs !! _get_ds_filename self = Some f
            /\ f_vars f !! name = Some d.
Proof.
  unfold extent. destruct (fs_files fs !! _get_ds_filename self) as [f|];
    [|done].
  simpl. intros H. by exists f.
Qed.

(** C3.  In every state reached by creating and appending, each
    extent has [0 <= last_row <= capacity]; a further create or append
    keeps every extent and changes its capacity only upwards, by a
    whole number of increments; and creating the container where
    there was none leaves every extent with [last_row = 0] and
    capacity [row_increment]. *)
Theorem container_invariant self fs :
  reachable self fs ->
  (forall name d,
     extent self fs name = Some d -> 0 <= last_row d <= len d)
  /\ (forall fs',
        fs' = (require_dataset self fs).1
        \/ (exists packet, fs' = (extend_dataset self packet fs).1) ->
        forall name d,
          extent self fs name = Some d ->
          exists d', extent self fs' name = Some d'
            /\ len d <= len d'
            /\ exists k, 0 <= k /\ len d' = len d + k * ds_increment self)
  /\ (path_exists fs (_get_ds_filename self) = false ->
      forall name d,
        extent self (require_dataset self fs).1 name = Some d ->
        last_row d = 0 /\ len d = ds_increment self).
Proof.
  intros Hreach. pose proof (reachable_ok self fs Hreach) as Hok.
  split; [|split].
  - intros name d Hd. by destruct (Hok name d Hd) as (_ & ? & _).
  - intros fs' Hstep name d Hd.
    destruct (Hok name d Hd) as (Hinc & Hext & _).
    destruct (extent_file self fs name d Hd) as (f & Hf & Hname).
    destruct Hstep as [-> | [packet ->]].
    + rewrite require_dataset_exists by (by apply path_exists_file with f).
      exists d. split; [done|]. split; [lia|]. exists 0. lia.
    + pose proof (extend_dataset_file self packet fs) as Hrun.
      rewrite Hf in Hrun. rewrite Hrun. unfold extent. simpl.
      rewrite lookup_insert_eq. simpl.
      pose proof (extend_container_evolves self packet f Hinc name) as Hev.
      rewrite Hname in Hev. destruct Hev as (d' & Hd' & Hev).
      exists d'. split; [done|]. by destruct (Hev Hext) as [_ [? ?]].
  - intros Hno name d. unfold extent.
    destruct (require_dataset_file self fs Hno) as [-> | ->]; [done|].
    simpl. intros Hd.
    by destruct (create_container_fresh self name d Hd) as (? & ? & _).
Qed.

Lemma container_invariant_witness :
  reachable Scenario.self Scenario.fs5
  /\ 0 <= last_row (Scenario.time_at Scenario.fs5)
       <= len (Scenario.time_at Scenario.fs5).
Proof.
  assert (reachable Scenario.self Scenario.fs5) as Hreach.
  { replace Scenario.fs5
      with (extend_dataset Scenario.self Scenario.packet5
              (require_dataset Scenario.self Scenario.fs0).1).1
      by (vm_compute; reflexivity).
    apply reach_extend, reach_require, reach_start. reflexivity. }
  split; [exact Hreach|].
  destruct (container_invariant Scenario.self Scenario.fs5 Hreach)
    as (Hrows & _).
  apply (Hrows "time"). vm_compute. reflexivity.
Defined.

(** ** Appends are contiguous, as specified *)

Lemma extend_individual_other self packet c f name :
  name <> c ->
  f_vars (extend_individual self packet c f).1 !! name = f_vars f !! name.
Proof.
  intros Hne. unfold extend_individual, on_var.
  destruct (f_vars f !! c) as [d|]; [|done].
  destruct (extend_var self packet c d) as [d' r]. unfold set_var. simpl.
  by rewrite lookup_insert_ne.
Qed.

Lemma extend_individual_run self packet c f d :
  f_vars f !! c = Some d ->
  extend_individual self packet c f
  = (set_var c (extend_var self packet c d).1 f,
     (extend_var self packet c d).2).
Proof.
  intros Hd. unfold extend_individual, on_var. rewrite Hd.
  by destruct (extend_var self packet c d).
Qed.

(** Variables that the packet does not name are not touched, on any
    outcome of the loop. *)
Lemma for_each_extend_untouched self packet cs f name :
  name ∉ cs ->
  f_vars (for_each (extend_individual self packet) cs f).1 !! name
  = f_vars f !! name.
Proof.
  revert f. induction cs as [|c cs IH]; intros f Hnot; [done|].
  apply not_elem_of_cons in Hnot as [Hne Hnot].
  simpl. unfold bind.
  pose proof (extend_individual_other self packet c f name Hne) as Hstep.
  destruct (extend_individual self packet c f) as [f1 [[]|e]]; simpl in *;
    [|done].
  by rewrite IH.
Qed.

(** Each named variable of the container gets exactly one run of
    lines 133-139 when no column name repeats. *)
Lemma for_each_extend_run self packet cs f f' :
  NoDup cs ->
  for_each (extend_individual self packet) cs f = (f', Ok tt) ->
  forall name d,
    name ∈ cs -> f_vars f !! name = Some d ->
    exists d', f_vars f' !! name = Some d'
               /\ extend_var self packet name d = (d', Ok tt).
Proof.
  revert f. induction cs as [|c cs IH]; intros f Hnd Hrun name d Hin Hd.
  - by apply elem_of_nil in Hin.
  - apply NoDup_cons in Hnd as [Hc Hnd]. simpl in Hrun. unfold bind in Hrun.
    destruct (extend_individual self packet c f) as [f1 [[]|e]] eqn:Hstep;
      [|done].
    destruct (decide (name = c)) as [->|Hne].
    + rewrite (extend_individual_run self packet c f d Hd) in Hstep.
      injection Hstep as Hf1 Hr.
      pose proof (for_each_extend_untouched self packet cs f1 c Hc) as Hkeep.
      rewrite Hrun in Hkeep. simpl in Hkeep.
      exists (extend_var self packet c d).1. split.
      * rewrite Hkeep, <- Hf1. unfold set_var. simpl.
        by rewrite lookup_insert_eq.
      * rewrite <- Hr. by destruct (extend_var self packet c d).
    + apply elem_of_cons in Hin as [?|Hin]; [done|].
      apply (IH f1 Hnd Hrun name d Hin).
      pose proof (extend_individual_other self packet c f name Hne) as Hk.
      rewrite Hstep in Hk. simpl in Hk. by rewrite Hk.
Qed.


(** With a positive increment the guard only adds rows behind those
    of the extent. *)
Lemma resize_if_needed_pads self n d :
  0 < ds_increment self -> 0 <= n ->
  exists pad, ds_rows (resize_if_needed self n d).1 = ds_rows d ++ pad.
Proof.
  intros Hinc Hn.
  destruct (Z_le_gt_dec (last_row d + n) (len d)) as [Hfit|Hover].
  - rewrite resize_if_needed_keep by done. exists []. by rewrite app_nil_r.
  - destruct (resize_if_needed_grow self n d Hinc Hn Hover)
      as (d' & -> & Hlen & _ & Hrows).
    simpl. rewrite Hrows.
    pose proof (growth_positive n _ Hinc Hn). unfold len in *.
    rewrite resize_ge by lia. by eexists.
Qed.



Lemma build_pvi_lookup cs names col_idx m vn :
  is_Some (build_pvi col_idx cs names m !! vn)
  <-> (vn ∈ cs /\ vn ∈ names) \/ is_Some (m !! vn).
Proof.
  revert col_idx m. induction cs as [|c cs IH]; intros col_idx m; simpl.
  - split; [by right|]. intros [[Hin _]|Hm]; [|done].
    by apply elem_of_nil in Hin.
  - rewrite IH. rewrite elem_of_cons. case_bool_decide as Hc.
    + destruct (decide (c = vn)) as [->|Hne].
      * rewrite lookup_insert_eq. split; [|intros _; right; by eexists].
        intros _. left. split; [by left|done].
      * rewrite lookup_insert_ne by done. split.
        -- intros [[Hin Hn]|Hm]; [left; split; [by right|done]|by right].
        -- intros [[[->|Hin] Hn]|Hm]; [done|left; by split|by right].
    + split.
      * intros [[Hin Hn]|Hm]; [left; split; [by right|done]|by right].
      * intros [[[->|Hin] Hn]|Hm]; [done|left; by split|by right].
Qed.

Lemma row_values_run cs names all_names row_data :
  (forall vn, vn ∈ names -> vn ∈ all_names) ->
  (forall vn, vn ∈ names -> vn ∈ cs -> is_Some (row_data !! vn)) ->
  map_result
    (fun vn => if bool_decide (is_Some (build_pvi 0 cs all_names ∅ !! vn))
               then field vn row_data else Ok VNone) names
  = Ok (map (fun vn => if bool_decide (vn ∈ cs)
                       then default VNone (row_data !! vn) else VNone)
            names).
Proof.
  intros Hsub Hrow. induction names as [|vn names IH]; [done|].
  simpl. rewrite IH.
  - assert (vn ∈ all_names) as Hall by (apply Hsub, elem_of_cons; by left).
    destruct (decide (vn ∈ cs)) as [Hin|Hnot].
    + rewrite (bool_decide_eq_true_2 (is_Some _))
        by (apply build_pvi_lookup; left; by split).
      rewrite (bool_decide_eq_true_2 (vn ∈ cs)) by done.
      destruct (Hrow vn) as [v Hv]; [apply elem_of_cons; by left|done|].
      unfold field. by rewrite Hv.
    + rewrite (bool_decide_eq_false_2 (is_Some _)).
      * by rewrite (bool_decide_eq_false_2 (vn ∈ cs)).
      * intros [[? _]|Hm]%build_pvi_lookup; [done|].
        rewrite lookup_empty in Hm. by destruct Hm.
  - intros vn' Hin. apply Hsub, elem_of_cons. by right.
  - intros vn' Hin. apply Hrow, elem_of_cons. by right.
Qed.

Lemma combined_record_aux cs names row_data :
  (forall vn, vn ∈ names -> vn ∈ cs -> is_Some (row_data !! vn)) ->
  row_vals (build_pvi 0 cs names ∅) names row_data
  = Ok (assembled cs names row_data)
  /\ row_vals (build_pvi 0 cs names ∅) names row_data
     = row_vals (build_pvi 0 (filter (fun c => c ∈ names) cs) names ∅)
         names row_data.
Proof.
  intros Hrow. unfold row_vals, assembled.
  rewrite (row_values_run cs names names row_data) by done.
  split; [done|].
  rewrite (row_values_run (filter (fun c => c ∈ names) cs) names names
             row_data).
  - do 2 f_equal. apply map_ext_in. intros vn Hvn.
    apply list_elem_of_In in Hvn.
    destruct (decide (vn ∈ cs)) as [Hin|Hnot].
    + rewrite !bool_decide_eq_true_2; [done| |done].
      by apply list_elem_of_filter.
    + rewrite !bool_decide_eq_false_2; [done| |done].
      by intros [_ ?]%list_elem_of_filter.
  - done.
  - intros vn Hn [_ Hin]%list_elem_of_filter. by apply Hrow.
Qed.





Lemma layouts_differ : DS_LAYOUT_COMBINED <> DS_LAYOUT_INDIVIDUAL.
Proof. done. Qed.



(** ** Schema compilation *)

Lemma build_var_defs_map_spec vars m :
  match build_var_defs_map vars m with
  | Ok _ => Forall (fun vi => is_Some (vi_name vi)) vars
  | Raise e => e = KeyError /\ ~ Forall (fun vi => is_Some (vi_name vi)) vars
  end.
Proof.
  revert m. induction vars as [|vi vars IH]; intros m; simpl; [done|].
  unfold name_of. destruct (vi_name vi) as [n|] eqn:Hn.
  - specialize (IH (<[n := vi]> m)).
    destruct (build_var_defs_map vars _) as [m'|e].
    + constructor; [by rewrite Hn|done].
    + destruct IH as [-> Hnot]. split; [done|].
      intros Hall. apply Hnot. by inversion Hall.
  - split; [done|]. intros Hall. inversion Hall as [|? ? Hsome _]; subst.
    rewrite Hn in Hsome. by destruct Hsome.
Qed.

Lemma build_var_index_ok vars position m :
  Forall (fun vi => is_Some (vi_name vi)) vars ->
  exists m', build_var_index position vars m = Ok m'.
Proof.
  revert position m. induction vars as [|vi vars IH]; intros position m Hall;
    simpl; [by eexists|].
  inversion Hall as [|? ? [n Hn] Hrest]; subst.
  unfold name_of. rewrite Hn. by apply IH.
Qed.

(** A well-formed description leaves nothing for lines 48-53 to
    raise. *)
Lemma well_formed_attributes sch :
  well_formed sch ->
  exists persistence pa increment,
    sch_attributes sch = Some persistence
    /\ persistence_or_empty persistence = Ok pa
    /\ increment_of pa = Ok increment.
Proof.
  intros [(persistence & Hattrs & Hother & Hint) _].
  exists persistence. unfold increment_of.
  destruct persistence as [|pa|]; [| |done].
  - by exists no_persistence, DEFAULT_ROW_INCREMENT.
  - destruct (pa_row_increment pa) as [[n|e]|] eqn:Hinc.
    + exists pa, n. by rewrite Hinc.
    + by destruct (Hint pa e eq_refl).
    + exists pa, DEFAULT_ROW_INCREMENT. by rewrite Hinc.
Qed.

Lemma layout_of_legal pa :
  layout_of pa = DS_LAYOUT_COMBINED \/ layout_of pa = DS_LAYOUT_INDIVIDUAL.
Proof.
  unfold layout_of.
  destruct (bool_decide (default DS_LAYOUT_INDIVIDUAL (pa_layout pa)
                         = DS_LAYOUT_COMBINED)) eqn:Hc; simpl.
  - left. by apply bool_decide_eq_true_1 in Hc.
  - right.
    destruct (bool_decide (default DS_LAYOUT_INDIVIDUAL (pa_layout pa)
                           = DS_LAYOUT_INDIVIDUAL)) eqn:Hi; [|done].
    by apply bool_decide_eq_true_1 in Hi.
Qed.

(** C4, as the code has it.  The constructor checks neither emptiness
    nor repetition of the variable list and has no configuration
    error: it returns exactly when h5py is there and the description
    is well formed, whatever its variable list, and otherwise raises
    [BadRequest] (no h5py), [KeyError] (no ["attributes"],
    ["variables"] or ["name"]), [AttributeError] (a ["persistence"]
    that is no dictionary) or what [int] raises on the
    ["row_increment"].  The compiled schema keeps the variable list as
    given and one of the two layouts. *)
Theorem schema_compilation h5py id fs_get sch :
  ((exists self, init h5py id fs_get sch = Ok self)
   <-> h5py = true /\ well_formed sch)
  /\ (forall e,
        init h5py id fs_get sch = Raise e ->
        e = BadRequest \/ e = KeyError \/ e = AttributeError
        \/ exists pa,
             sch_attributes sch = Some (PersistenceDict pa)
             /\ pa_row_increment pa = Some (Raise e))
  /\ (forall self,
        init h5py id fs_get sch = Ok self ->
        sch_variables sch = Some (var_defs self)
        /\ (ds_layout self = DS_LAYOUT_COMBINED
            \/ ds_layout self = DS_LAYOUT_INDIVIDUAL)).
Proof.
  unfold init. destruct h5py.
  2: { split; [|split]; [|intros e [= <-]; by left|done].
       split; [by intros [? ?]|by intros [? _]]. }
  split; [|split].
  - split.
    + intros [self Hself]. split; [done|]. unfold _parse_schema in Hself.
      destruct (sch_attributes sch) as [persistence|] eqn:Hattrs; [|done].
      destruct (persistence_or_empty persistence) as [pa|e] eqn:Hpa; [|done].
      destruct (increment_of pa) as [increment|e] eqn:Hinc; [|done].
      destruct (sch_variables sch) as [vars|] eqn:Hvars; [|done].
      pose proof (build_var_defs_map_spec vars ∅) as Hmap.
      destruct (build_var_defs_map vars ∅) as [vmap|e]; [|done].
      split; [|by exists vars].
      exists persistence. split; [done|].
      split; [by intros ->|].
      intros pa' e -> Hbad. simpl in Hpa. injection Hpa as ->.
      unfold increment_of in Hinc. by rewrite Hbad in Hinc.
    + intros [_ Hwf].
      destruct (well_formed_attributes sch Hwf)
        as (persistence & pa & increment & Hattrs & Hpa & Hinc).
      destruct Hwf as [_ (vars & Hvars & Hnamed)].
      unfold _parse_schema. rewrite Hattrs, Hpa, Hinc, Hvars.
      pose proof (build_var_defs_map_spec vars ∅) as Hmap.
      destruct (build_var_defs_map vars ∅) as [vmap|e];
        [|by destruct Hmap as [_ Hnot]].
      destruct (build_var_index_ok vars 0 ∅ Hnamed) as [vindex ->].
      by eexists.
  - intros e. unfold _parse_schema.
    destruct (sch_attributes sch) as [persistence|];
      [|intros [= <-]; right; by left].
    destruct persistence as [|pa|]; simpl;
      [| |intros [= <-]; right; right; by left].
    + destruct (sch_variables sch) as [vars|];
        [|intros [= <-]; right; by left].
      pose proof (build_var_defs_map_spec vars ∅) as Hmap.
      destruct (build_var_defs_map vars ∅) as [vmap|e1].
      * by destruct (build_var_index_ok vars 0 ∅ Hmap) as [vindex ->].
      * destruct Hmap as [-> _]. intros [= <-]. right. by left.
    + unfold increment_of.
      destruct (pa_row_increment pa) as [[n|e1]|] eqn:Hinc; simpl.
      * destruct (sch_variables sch) as [vars|];
          [|intros [= <-]; right; by left].
        pose proof (build_var_defs_map_spec vars ∅) as Hmap.
        destruct (build_var_defs_map vars ∅) as [vmap|e2].
        -- by destruct (build_var_index_ok vars 0 ∅ Hmap) as [vindex ->].
        -- destruct Hmap as [-> _]. intros [= <-]. right. by left.
      * intros [= <-]. right. right. right. by exists pa.
      * destruct (sch_variables sch) as [vars|];
          [|intros [= <-]; right; by left].
        pose proof (build_var_defs_map_spec vars ∅) as Hmap.
        destruct (build_var_defs_map vars ∅) as [vmap|e2].
        -- by destruct (build_var_index_ok vars 0 ∅ Hmap) as [vindex ->].
        -- destruct Hmap as [-> _]. intros [= <-]. right. by left.
  - intros self. unfold _parse_schema.
    destruct (sch_attributes sch) as [persistence|]; [|done].
    destruct (persistence_or_empty persistence) as [pa|e]; [|done].
    destruct (increment_of pa) as [increment|e]; [|done].
    destruct (sch_variables sch) as [vars|]; [|done].
    destruct (build_var_defs_map vars ∅) as [vmap|e]; [|done].
    destruct (build_var_index 0 vars ∅) as [vindex|e]; [|done].
    intros [= <-]. simpl. split; [done|apply layout_of_legal].
Qed.

Lemma schema_compilation_witness :
  exists self, init true "a" Scenario.fs_get Scenario.schema = Ok self.
Proof.
  apply (proj1 (schema_compilation true "a" Scenario.fs_get Scenario.schema)).
  split; [reflexivity|]. split.
  - eexists. split; [reflexivity|]. split; [discriminate|].
    intros pa e Hpa. injection Hpa as <-. discriminate.
  - eexists. split; [reflexivity|].
    repeat constructor; by eexists.
Defined.

(** C4 as stated fails: a schema with no variables, and one with a
    repeated name, both compile; and a schema whose two variables
    have different names does not compile when [int] refuses its
    ["row_increment"]. *)
Lemma schema_compilation_counterexample :
  (exists self,
     init true "a" Scenario.fs_get Scenario.empty_schema = Ok self
     /\ var_defs self = [])
  /\ (exists self,
        init true "a" Scenario.fs_get Scenario.duplicate_schema = Ok self
        /\ ~ NoDup (map vi_name (var_defs self)))
  /\ (init true "a" Scenario.fs_get Scenario.unreadable_schema
      = Raise ValueError
      /\ exists vars,
           sch_variables Scenario.unreadable_schema = Some vars
           /\ vars <> [] /\ NoDup (map vi_name vars)).
Proof.
  split; [|split].
  - eexists. split; [reflexivity|reflexivity].
  - eexists. split; [reflexivity|]. simpl. intros Hnd.
    apply NoDup_cons in Hnd as [Hnot _]. apply Hnot, elem_of_cons. by left.
  - split; [reflexivity|]. eexists. split; [reflexivity|].
    split; [discriminate|].
    apply (bool_decide_unpack
             (NoDup (map vi_name
                       [Scenario.time_def; Scenario.temperature_def]))).
    vm_compute. exact I.
Qed.

(** ** Queries *)

(** On an existing container file a query returns what
    [query_container] computes and leaves the file system as it
    was. *)
Lemma get_data_run conv self filter fs f :
  fs_files fs !! _get_ds_filename self = Some f ->
  get_data conv self filter fs = (fs, query_container conv self filter f).
Proof.
  intros Hf. unfold get_data, with_file.
  rewrite (path_exists_file fs _ f Hf). simpl. rewrite Hf.
  rewrite insert_id by done. by destruct fs.
Qed.

Lemma is_time_encoded_other self v :
  v <> time_var self -> is_time_encoded self v = Ok false.
Proof.
  intros Hne. unfold is_time_encoded. by rewrite bool_decide_eq_false_2.
Qed.

(** The loop of lines 174-190 when the test of line 182 does not
    raise: every requested variable of the container is in
    [res_data] with its window, converted if time-encoded. *)
Lemma collect_run conv self filter f vars res0 :
  (forall v, v ∈ vars -> is_Some (f_vars f !! v) ->
             exists b, is_time_encoded self v = Ok b) ->
  exists res,
    collect conv self filter f vars res0 = (res, Ok tt)
    /\ forall v,
         res !! v
         = if bool_decide (v ∈ vars)
           then match f_vars f !! v with
                | Some d => Some (convert conv filter (encoded self v)
                                    (window filter d))
                | None => res0 !! v
                end
           else res0 !! v.
Proof.
  unfold collect. revert res0.
  induction vars as [|v0 vars IH]; intros res0 Hok.
  - exists res0. split; [done|]. intros v.
    rewrite bool_decide_eq_false_2; [done|apply not_elem_of_nil].
  - simpl. unfold bind.
    assert (forall v, v ∈ vars -> is_Some (f_vars f !! v) ->
                      exists b, is_time_encoded self v = Ok b) as Hok'.
    { intros v Hv. apply Hok, elem_of_cons. by right. }
    unfold read_var at 1.
    destruct (f_vars f !! v0) as [d0|] eqn:Hd0.
    + destruct (Hok v0) as [b Hb]; [apply elem_of_cons; by left|by eexists|].
      unfold bind, lift, modify. rewrite Hb.
      destruct (IH (<[v0 := convert conv filter b (window filter d0)]> res0)
                  Hok') as (res & -> & Hres).
      exists res. split; [done|]. intros v. rewrite Hres.
      destruct (decide (v = v0)) as [->|Hne].
      * rewrite Hd0, lookup_insert_eq.
        rewrite (bool_decide_eq_true_2 (v0 ∈ v0 :: vars))
          by (apply elem_of_cons; by left).
        unfold encoded. rewrite Hb. by destruct (bool_decide (v0 ∈ vars)).
      * rewrite lookup_insert_ne by done.
        destruct (decide (v ∈ vars)) as [Hin|Hnot].
        -- rewrite !bool_decide_eq_true_2; [done| |done].
           apply elem_of_cons. by right.
        -- rewrite !bool_decide_eq_false_2; [done| |done].
           intros [?|?]%elem_of_cons; done.
    + unfold ret. destruct (IH res0 Hok') as (res & -> & Hres).
      exists res. split; [done|]. intros v. rewrite Hres.
      destruct (decide (v = v0)) as [->|Hne].
      * rewrite Hd0.
        rewrite (bool_decide_eq_true_2 (v0 ∈ v0 :: vars))
          by (apply elem_of_cons; by left).
        by destruct (bool_decide (v0 ∈ vars)).
      * destruct (decide (v ∈ vars)) as [Hin|Hnot].
        -- rewrite !bool_decide_eq_true_2; [done| |done].
           apply elem_of_cons. by right.
        -- rewrite !bool_decide_eq_false_2; [done| |done].
           intros [?|?]%elem_of_cons; done.
Qed.

Lemma query_individual conv self filter f vars :
  ds_layout self = DS_LAYOUT_INDIVIDUAL ->
  read_vars self filter = Ok vars ->
  query_container conv self filter f
  = match (collect conv self filter f vars ;;;
           (if bool_decide (df_transpose_time filter = Some true)
            then transpose_time self else ret tt)) ∅ with
    | (res_data, Ok _) => Ok res_data
    | (_, Raise e) => Raise e
    end.
Proof.
  intros Hlayout Hvars. unfold query_container. rewrite Hvars.
  by rewrite bool_decide_eq_true_2.
Qed.

Lemma is_time_encoded_ok self v :
  (v = time_var self -> is_Some (var_defs_map self !! v)) ->
  exists b, is_time_encoded self v = Ok b.
Proof.
  intros Hdecl. unfold is_time_encoded.
  destruct (decide (v = time_var self)) as [Heq|Hne].
  - rewrite bool_decide_eq_true_2 by done.
    destruct (Hdecl Heq) as [vi ->]. by eexists.
  - rewrite bool_decide_eq_false_2 by done. by eexists.
Qed.

Lemma convert_native conv filter b data_array :
  b = false \/ time_format filter <> "unix_millis" ->
  convert conv filter b data_array = data_array.
Proof.
  intros [-> | Hfmt]; [done|]. unfold convert. destruct b; [|done].
  by rewrite bool_decide_eq_false_2.
Qed.

Lemma transpose_time_run self res_data time_series :
  res_data !! time_var self = Some time_series ->
  transpose_time self res_data
  = (pair_with_time time_series <$> delete (time_var self) res_data, Ok tt).
Proof. intros H. unfold transpose_time. by rewrite H. Qed.






(** ** Transposition *)

Lemma pair_with_time_length time_series var_series :
  length (pair_with_time time_series var_series)
  = (length time_series `min` length var_series)%nat.
Proof. apply length_zip_with. Qed.

Lemma pair_with_time_lookup time_series var_series i tv dv :
  time_series !! i = Some tv -> var_series !! i = Some dv ->
  pair_with_time time_series var_series !! i = Some (VTuple [tv; dv]).
Proof.
  intros Ht Hv. unfold pair_with_time. rewrite lookup_zip_with, Ht. simpl.
  by rewrite Hv.
Qed.

(** C6, as the code has it.  With [transpose_time] set, and the time
    variable requested and stored, the result has no entry for the
    time variable, and every other variable that the same query
    without transposition returns comes back as the pairs of the time
    sequence and its own, position by position, as many as the shorter
    of the two has. *)
Theorem transpose_pairs conv self filter fs f vars dt :
  ds_layout self = DS_LAYOUT_INDIVIDUAL ->
  fs_files fs !! _get_ds_filename self = Some f ->
  read_vars self filter = Ok vars ->
  df_transpose_time filter = Some true ->
  time_var self ∈ vars ->
  f_vars f !! time_var self = Some dt ->
  is_Some (var_defs_map self !! time_var self) ->
  exists res plain time_series,
    get_data conv self filter fs = (fs, Ok res)
    /\ get_data conv self (without_transpose filter) fs = (fs, Ok plain)
    /\ plain !! time_var self = Some time_series
    /\ res !! time_var self = None
    /\ forall v,
         v <> time_var self ->
         match plain !! v with
         | Some var_series =>
             exists pairs,
               res !! v = Some pairs
               /\ length pairs
                  = (length time_series `min` length var_series)%nat
               /\ (length var_series = length time_series ->
                   length pairs = length time_series)
               /\ forall i tv dv,
                    time_series !! i = Some tv ->
                    var_series !! i = Some dv ->
                    pairs !! i = Some (VTuple [tv; dv])
         | None => res !! v = None
         end.
Proof.
  intros Hlayout Hf Hvars Htrans Hin Hdt Hdecl.
  rewrite !(get_data_run conv self _ fs f Hf).
  rewrite (query_individual conv self filter f vars Hlayout Hvars).
  rewrite (query_individual conv self (without_transpose filter) f vars
             Hlayout Hvars).
  rewrite bool_decide_eq_true_2 by done.
  rewrite (bool_decide_eq_false_2
             (df_transpose_time (without_transpose filter) = Some true))
    by done.
  change (collect conv self (without_transpose filter) f vars)
    with (collect conv self filter f vars).
  unfold bind.
  destruct (collect_run conv self filter f vars ∅) as (plain & -> & Hplain).
  { intros v _ _. apply is_time_encoded_ok. by intros ->. }
  assert (exists time_series, plain !! time_var self = Some time_series)
    as [time_series Hts].
  { rewrite Hplain, bool_decide_eq_true_2, Hdt by done. by eexists. }
  rewrite (transpose_time_run self plain time_series Hts). unfold ret.
  exists (pair_with_time time_series <$> delete (time_var self) plain),
         plain, time_series.
  split; [done|]. split; [done|]. split; [done|]. split.
  - by rewrite lookup_fmap, lookup_delete_eq.
  - intros v Hne. rewrite lookup_fmap, lookup_delete_ne by done.
    destruct (plain !! v) as [var_series|]; [|done]. simpl.
    eexists. split; [done|]. split; [apply pair_with_time_length|]. split.
    + intros Hlen. rewrite pair_with_time_length. lia.
    + intros i tv dv. apply pair_with_time_lookup.
Qed.

Lemma transpose_pairs_witness :
  exists res,
    get_data Scenario.seconds Scenario.self Scenario.transposed Scenario.fs13
    = (Scenario.fs13, Ok res)
    /\ res !! "time" = None.
Proof.
  assert (fs_files Scenario.fs13 !! _get_ds_filename Scenario.self
          = Some (Scenario.file_at Scenario.fs13)) as Hf
    by (vm_compute; reflexivity).
  assert (read_vars Scenario.self Scenario.transposed
          = Ok ["time"; "temperature"]) as Hvars
    by (vm_compute; reflexivity).
  assert (is_Some (var_defs_map Scenario.self !! time_var Scenario.self))
    as Hdecl by (vm_compute; by eexists).
  assert (time_var Scenario.self ∈ ["time"; "temperature"]) as Hin.
  { apply elem_of_cons. by left. }
  assert (f_vars (Scenario.file_at Scenario.fs13) !! time_var Scenario.self
          = Some (Scenario.time_at Scenario.fs13)) as Hdt
    by (vm_compute; reflexivity).
  pose proof (transpose_pairs Scenario.seconds Scenario.self
                Scenario.transposed Scenario.fs13
                (Scenario.file_at Scenario.fs13) ["time"; "temperature"]
                (Scenario.time_at Scenario.fs13)
                eq_refl Hf Hvars eq_refl Hin Hdt Hdecl) as HH.
  destruct HH as (res & plain & time_series & Hrun & _ & _ & Hnone & _).
  exists res. split; [exact Hrun|exact Hnone].
Defined.

(** C6 as stated fails once the variables have diverged: after a
    batch that carried only the time column, the pairs returned for
    the temperature are 13 while the time sequence has 15 values. *)
Lemma transpose_pairs_counterexample :
  let transposed :=
    get_data Scenario.seconds Scenario.self Scenario.transposed
      Scenario.fs_diverged in
  let plain :=
    get_data Scenario.seconds Scenario.self no_filter Scenario.fs_diverged in
  length <$> series plain "time" = Some 15%nat
  /\ length <$> series transposed "temperature" = Some 13%nat
  /\ length <$> series transposed "temperature"
     <> length <$> series plain "time".
Proof.
  assert (length <$> series
            (get_data Scenario.seconds Scenario.self no_filter
               Scenario.fs_diverged) "time" = Some 15%nat) as H1
    by (vm_compute; reflexivity).
  assert (length <$> series
            (get_data Scenario.seconds Scenario.self Scenario.transposed
               Scenario.fs_diverged) "temperature" = Some 13%nat) as H2
    by (vm_compute; reflexivity).
  cbv zeta. rewrite H1, H2. repeat split. discriminate.
Qed.

(** C10, as the code has it.  With [transpose_time] set, a query on
    an existing Individual-layout container whose time variable is not
    among the requested variables, or is not stored, raises [KeyError]
    at [res_data.pop(self.time_var)] and returns no mapping. *)
Theorem transpose_without_time conv self filter fs f vars :
  ds_layout self = DS_LAYOUT_INDIVIDUAL ->
  fs_files fs !! _get_ds_filename self = Some f ->
  read_vars self filter = Ok vars ->
  df_transpose_time filter = Some true ->
  time_var self ∉ vars \/ f_vars f !! time_var self = None ->
  get_data conv self filter fs = (fs, Raise KeyError).
Proof.
  intros Hlayout Hf Hvars Htrans Habsent.
  rewrite (get_data_run conv self filter fs f Hf).
  rewrite (query_individual conv self filter f vars Hlayout Hvars).
  rewrite bool_decide_eq_true_2 by done. unfold bind.
  destruct (collect_run conv self filter f vars ∅) as (res & -> & Hres).
  { intros v Hin Hfile. exists false. apply is_time_encoded_other.
    intros ->. destruct Habsent as [Hnot|Hnone]; [done|].
    rewrite Hnone in Hfile. by destruct Hfile. }
  unfold transpose_time. rewrite Hres.
  destruct Habsent as [Hnot|Hnone].
  - by rewrite bool_decide_eq_false_2, lookup_empty.
  - rewrite Hnone, lookup_empty. by destruct (bool_decide _).
Qed.

Lemma transpose_without_time_witness :
  get_data Scenario.seconds Scenario.self Scenario.only_temperature
    Scenario.fs13
  = (Scenario.fs13, Raise KeyError).
Proof.
  assert (fs_files Scenario.fs13 !! _get_ds_filename Scenario.self
          = Some (Scenario.file_at Scenario.fs13)) as Hf
    by (vm_compute; reflexivity).
  apply (transpose_without_time Scenario.seconds Scenario.self
           Scenario.only_temperature Scenario.fs13
           (Scenario.file_at Scenario.fs13) ["temperature"]
           eq_refl Hf eq_refl eq_refl).
  left. intros Hin. apply elem_of_cons in Hin as [Heq|Hin].
  - vm_compute in Heq. discriminate Heq.
  - by apply elem_of_nil in Hin.
Defined.

(** C10 as stated fails for the queries that do not reach line 193:
    with [transpose_time] set and the time variable not requested, a
    query of a container that does not exist returns the empty mapping
    (lines 165-166), and a query through a Combined-layout object
    raises [NotImplementedError] (lines 199-200).  Neither raises
    [KeyError], and in neither is the time variable among the returned
    variables. *)
Lemma transpose_without_time_counterexample :
  df_transpose_time Scenario.only_temperature = Some true
  /\ df_variables Scenario.only_temperature = Some ["temperature"]
  /\ time_var Scenario.self = "time"
  /\ time_var Scenario.combined = "time"
  /\ get_data Scenario.seconds Scenario.self Scenario.only_temperature
       Scenario.fs0
     = (Scenario.fs0, Ok ∅)
  /\ get_data Scenario.seconds Scenario.combined Scenario.only_temperature
       Scenario.fs_combined
     = (Scenario.fs_combined, Raise NotImplementedError).
Proof.
  repeat split; vm_compute; reflexivity.
Qed.

(** ** Queries on the Combined layout *)

Lemma init_named h5py id fs_get sch self :
  init h5py id fs_get sch = Ok self ->
  exists names, map_result name_of (var_defs self) = Ok names.
Proof.
  unfold init, _parse_schema. destruct h5py; [|done].
  destruct (sch_attributes sch) as [persistence|]; [|done].
  destruct (persistence_or_empty persistence) as [pa|]; [|done].
  destruct (increment_of pa); [|done].
  destruct (sch_variables sch) as [vars|]; [|done].
  pose proof (build_var_defs_map_spec vars ∅) as Hall.
  destruct (build_var_defs_map vars ∅); [|done].
  destruct (build_var_index 0 vars ∅); [|done].
  intros [= <-]. simpl. clear -Hall.
  induction Hall as [|vi vars [n Hn] _ [names IH]]; simpl; [by eexists|].
  unfold name_of at 1. rewrite Hn, IH. by eexists.
Qed.

(** C8.  A query through a persistence object of the Combined layout
    on its existing container raises [NotImplementedError], the
    "not supported" error of the code, returns no mapping and leaves
    the file system as it was. *)
Theorem combined_query_unsupported conv h5py id fs_get sch self filter fs :
  init h5py id fs_get sch = Ok self ->
  ds_layout self = DS_LAYOUT_COMBINED ->
  is_Some (fs_files fs !! _get_ds_filename self) ->
  get_data conv self filter fs = (fs, Raise NotImplementedError).
Proof.
  intros Hinit Hlayout [f Hf].
  rewrite (get_data_run conv self filter fs f Hf). f_equal.
  unfold query_container.
  assert (exists vars, read_vars self filter = Ok vars) as [vars ->].
  { unfold read_vars.
    destruct (init_named _ _ _ _ _ Hinit) as [names Hnames].
    destruct (df_variables filter) as [[|v vs]|]; by eexists. }
  rewrite bool_decide_eq_false_2
    by (rewrite Hlayout; apply layouts_differ).
  by rewrite bool_decide_eq_true_2.
Qed.

Lemma combined_query_unsupported_witness :
  get_data Scenario.seconds Scenario.combined no_filter Scenario.fs_combined
  = (Scenario.fs_combined, Raise NotImplementedError).
Proof.
  apply (combined_query_unsupported Scenario.seconds true "c" Scenario.fs_get
           (mkSchema (Some (PersistenceDict
                              (mkPersist (Some DS_LAYOUT_COMBINED)
                                         (Some (Ok 10)) None)))
                     (Some [Scenario.time_def; Scenario.temperature_def]))).
  - reflexivity.
  - reflexivity.
  - vm_compute. by eexists.
Defined.

(** ** Creating next to an existing directory *)

Lemma makedirs_exists name fs :
  path_exists fs name = true -> makedirs name fs = (fs, Raise OSError).
Proof. intros H. unfold makedirs. by rewrite H. Qed.

Lemma require_dataset_dir_exists self fs :
  path_exists fs (_get_ds_filename self) = false ->
  path_exists fs (os_path_split (_get_ds_filename self)).1 = true ->
  require_dataset self fs = (fs, Raise OSError).
Proof.
  intros Hno Hdir. rewrite require_dataset_run by done.
  by rewrite makedirs_exists.
Qed.

Lemma path_exists_dir fs p : p ∈ fs_dirs fs -> path_exists fs p = true.
Proof.
  intros H. unfold path_exists. by rewrite bool_decide_eq_true_2.
Qed.

(** C9.  Where the container file is missing, [require_dataset] calls
    [os.makedirs] on the parent directory and fails with its error
    when that directory is there; so once one container has been
    created, creating another under the same directory fails, and so
    does creating the first again after its file alone was removed. *)
Theorem require_dataset_existing_directory self fs :
  path_exists fs (_get_ds_filename self) = false ->
  let ds_filename := _get_ds_filename self in
  let dir := (os_path_split ds_filename).1 in
  (path_exists fs dir = true ->
   require_dataset self fs = (fs, Raise OSError))
  /\ (forall r,
        (require_dataset self fs).2 = Ok r ->
        let fs1 := (require_dataset self fs).1 in
        r = (ds_filename, true)
        /\ path_exists fs dir = false
        /\ path_exists fs1 dir = true
        /\ (forall other,
              (os_path_split (_get_ds_filename other)).1 = dir ->
              path_exists fs1 (_get_ds_filename other) = false ->
              require_dataset other fs1 = (fs1, Raise OSError))
        /\ path_exists (remove_file ds_filename fs1) ds_filename = false
        /\ require_dataset self (remove_file ds_filename fs1)
           = (remove_file ds_filename fs1, Raise OSError)).
Proof.
  intros Hno. simpl. split; [by apply require_dataset_dir_exists|].
  intros r. rewrite require_dataset_run by done. unfold makedirs.
  destruct (path_exists fs (os_path_split (_get_ds_filename self)).1)
    eqn:Hdir; [done|].
  set (dirs1 := fs_dirs fs ∪ {[(os_path_split (_get_ds_filename self)).1]}
                ∪ list_to_set
                    (parents_from EmptyString
                       (os_path_split (_get_ds_filename self)).1)).
  simpl. destruct (bool_decide (_get_ds_filename self ∈ dirs1)) eqn:Hfn;
    [done|].
  apply bool_decide_eq_false_1 in Hfn. simpl.
  destruct (create_container self (mkFile ∅ ∅)) as [f [[]|e]]; [|done].
  simpl. intros [= <-].
  assert ((os_path_split (_get_ds_filename self)).1 ∈ dirs1) as Hin
    by (unfold dirs1; set_solver).
  split; [done|]. split; [done|]. split; [by apply path_exists_dir|].
  split; [|split].
  - intros other Hsame Hnew. apply require_dataset_dir_exists; [done|].
    rewrite Hsame. by apply path_exists_dir.
  - unfold path_exists, remove_file. simpl.
    rewrite bool_decide_eq_false_2 by done. rewrite lookup_delete_eq.
    by rewrite bool_decide_eq_false_2 by (by intros [? ?]).
  - apply require_dataset_dir_exists.
    + unfold path_exists, remove_file. simpl.
      rewrite bool_decide_eq_false_2 by done. rewrite lookup_delete_eq.
      by rewrite bool_decide_eq_false_2 by (by intros [? ?]).
    + by apply path_exists_dir.
Qed.

Lemma require_dataset_existing_directory_witness :
  require_dataset Scenario.other Scenario.fs_created
  = (Scenario.fs_created, Raise OSError).
Proof.
  destruct (require_dataset_existing_directory Scenario.self Scenario.fs0)
    as [_ Hdone]; [reflexivity|].
  destruct (Hdone (_get_ds_filename Scenario.self, true))
    as (_ & _ & _ & Hother & _); [vm_compute; reflexivity|].
  replace Scenario.fs_created with (require_dataset Scenario.self Scenario.fs0).1
    by (vm_compute; reflexivity).
  apply Hother; vm_compute; reflexivity.
Defined.

(** * Further properties of the persistence layer *)

(** ** Queries only read *)

(** X1.  A query returns the file system as it found it, on every
    outcome; and where nothing exists at the container path it
    returns the empty mapping, whatever the layout and the filter. *)
Theorem get_data_read_only conv self filter fs :
  (get_data conv self filter fs).1 = fs
  /\ (path_exists fs (_get_ds_filename self) = false ->
      get_data conv self filter fs = (fs, Ok ∅))
  /\ (path_exists fs (_get_ds_filename self) = true ->
      fs_files fs !! _get_ds_filename self = None ->
      get_data conv self filter fs = (fs, Raise IOError)).
Proof.
  unfold get_data, with_file. split; [|split].
  - destruct (path_exists fs (_get_ds_filename self)); [|done]. simpl.
    destruct (fs_files fs !! _get_ds_filename self) as [f|] eqn:Hf; [|done].
    simpl. rewrite insert_id by done. by destruct fs.
  - by intros ->.
  - by intros -> ->.
Qed.

(** ** Creating twice *)

Lemma require_dataset_outcome self fs fs1 r :
  require_dataset self fs = (fs1, Ok r) ->
  r.1 = _get_ds_filename self
  /\ path_exists fs1 (_get_ds_filename self) = true
  /\ (r.2 = false -> fs1 = fs)
  /\ (r.2 = true -> path_exists fs (_get_ds_filename self) = false).
Proof.
  destruct (path_exists fs (_get_ds_filename self)) eqn:Hex.
  - rewrite require_dataset_exists by done. by intros [= <- <-].
  - rewrite require_dataset_run by done.
    destruct (makedirs _ fs) as [fs0 [[]|e]]; [|done].
    destruct (bool_decide (_get_ds_filename self ∈ fs_dirs fs0)); [done|].
    destruct (create_container self (mkFile ∅ ∅)).2; [|done].
    intros [= <- <-]. simpl. split; [done|]. split; [|done].
    apply path_exists_file with (create_container self (mkFile ∅ ∅)).1.
    simpl. by rewrite lookup_insert_eq.
Qed.

(** X2.  [require_dataset] is idempotent: after a call that returned,
    a second call returns the same path with [created = False] and
    changes nothing. *)
Theorem require_dataset_idempotent self fs fs1 r :
  require_dataset self fs = (fs1, Ok r) ->
  r.1 = _get_ds_filename self
  /\ require_dataset self fs1 = (fs1, Ok (_get_ds_filename self, false)).
Proof.
  intros Hrun. apply require_dataset_outcome in Hrun as (Hpath & Hex & _).
  split; [done|]. by apply require_dataset_exists.
Qed.

Lemma require_dataset_idempotent_witness :
  require_dataset Scenario.self Scenario.fs_created
  = (Scenario.fs_created, Ok (_get_ds_filename Scenario.self, false)).
Proof.
  apply (require_dataset_idempotent Scenario.self Scenario.fs0
           Scenario.fs_created (_get_ds_filename Scenario.self, true)).
  vm_compute. reflexivity.
Defined.

(** X3.  When the creation of the extents raises, the file that was
    opened for writing stays behind with what was written, the error
    reaches the caller, and the next [require_dataset] finds the file
    and returns it as an existing container. *)
Theorem failed_creation_stays self fs e :
  path_exists fs (_get_ds_filename self) = false ->
  (makedirs (os_path_split (_get_ds_filename self)).1 fs).2 = Ok tt ->
  _get_ds_filename self
    ∉ fs_dirs (makedirs (os_path_split (_get_ds_filename self)).1 fs).1 ->
  (create_container self (mkFile ∅ ∅)).2 = Raise e ->
  let fs1 := (require_dataset self fs).1 in
  require_dataset self fs = (fs1, Raise e)
  /\ fs_files fs1 !! _get_ds_filename self
     = Some (create_container self (mkFile ∅ ∅)).1
  /\ require_dataset self fs1 = (fs1, Ok (_get_ds_filename self, false)).
Proof.
  intros Hno Hmk Hfile Hraise. simpl.
  rewrite (require_dataset_run self fs Hno).
  destruct (makedirs _ fs) as [fs0 [[]|e0]]; [|done]. simpl in *.
  rewrite bool_decide_eq_false_2 by done. rewrite Hraise. simpl.
  split; [done|]. split; [by rewrite lookup_insert_eq|].
  apply require_dataset_exists.
  apply path_exists_file with (create_container self (mkFile ∅ ∅)).1.
  simpl. by rewrite lookup_insert_eq.
Qed.

Lemma failed_creation_stays_witness :
  (require_dataset Cases.repeated Scenario.fs0).2 = Raise ValueError
  /\ require_dataset Cases.repeated
       (require_dataset Cases.repeated Scenario.fs0).1
     = ((require_dataset Cases.repeated Scenario.fs0).1,
        Ok (_get_ds_filename Cases.repeated, false)).
Proof.
  destruct (failed_creation_stays Cases.repeated Scenario.fs0 ValueError)
    as (Hrun & _ & Hagain).
  - reflexivity.
  - reflexivity.
  - apply (bool_decide_eq_false_1
             (_get_ds_filename Cases.repeated
                ∈ fs_dirs (makedirs
                    (os_path_split (_get_ds_filename Cases.repeated)).1
                    Scenario.fs0).1)).
    vm_compute. reflexivity.
  - vm_compute. reflexivity.
  - split; [by rewrite Hrun|exact Hagain].
Defined.

(** ** Appending to what is not there *)

(** X4.  [extend_dataset] does not create anything: without the
    container file it raises [IOError], in the Combined layout
    without the record extent it raises [BadRequest], and in both
    cases the file system is as before; in the Individual layout a
    packet none of whose columns is stored completes and changes
    nothing. *)
Theorem extend_dataset_needs_container self packet fs :
  (fs_files fs !! _get_ds_filename self = None ->
   extend_dataset self packet fs = (fs, Raise IOError))
  /\ (forall f,
        fs_files fs !! _get_ds_filename self = Some f ->
        ds_layout self = DS_LAYOUT_COMBINED ->
        f_vars f !! DS_VARIABLES = None ->
        extend_dataset self packet fs = (fs, Raise BadRequest))
  /\ (forall f,
        fs_files fs !! _get_ds_filename self = Some f ->
        ds_layout self = DS_LAYOUT_INDIVIDUAL ->
        (forall c, c ∈ cols packet -> f_vars f !! c = None) ->
        extend_dataset self packet fs = (fs, Ok tt)).
Proof.
  pose proof (extend_dataset_file self packet fs) as Hrun.
  split; [|split].
  - intros Hnone. by rewrite Hnone in Hrun.
  - intros f Hf Hlayout Hdata. rewrite Hf in Hrun. rewrite Hrun.
    unfold extend_container.
    rewrite bool_decide_eq_false_2
      by (rewrite Hlayout; apply layouts_differ).
    rewrite bool_decide_eq_true_2 by done. rewrite Hdata. simpl.
    rewrite insert_id by done. by destruct fs.
  - intros f Hf Hlayout Hcols. rewrite Hf in Hrun. rewrite Hrun.
    unfold extend_container. rewrite bool_decide_eq_true_2 by done.
    assert (for_each (extend_individual self packet) (cols packet) f
            = (f, Ok tt)) as ->.
    { revert Hcols. generalize (cols packet) as cs.
      induction cs as [|c cs IH]; intros Hcols; [done|].
      simpl. unfold bind. unfold extend_individual at 1.
      rewrite (Hcols c) by (apply elem_of_cons; by left).
      apply IH. intros c' Hin. apply Hcols, elem_of_cons. by right. }
    simpl. rewrite insert_id by done. by destruct fs.
Qed.

(** ** The committed rows are an append-only log *)

(** With a non-negative increment the guard only adds rows behind
    those of the extent, whether or not it raises. *)
Lemma resize_if_needed_pads_any self n d :
  0 <= ds_increment self -> 0 <= n ->
  exists pad, ds_rows (resize_if_needed self n d).1 = ds_rows d ++ pad.
Proof.
  intros Hinc Hn.
  destruct (Z.eq_dec (ds_increment self) 0) as [Hz|Hnz];
    [|apply resize_if_needed_pads; [lia|done]].
  exists []. rewrite app_nil_r. f_equal.
  unfold resize_if_needed, _resize_dataset, bind, gets, lift, py_div, ret.
  destruct (last_row d + n >? len d); [|done]. by rewrite Hz.
Qed.

Lemma committed_app d rows batch tail :
  0 <= last_row d <= len d ->
  committed (mkDataset
               (take (Z.to_nat (last_row d)) (ds_rows d ++ rows) ++ batch
                ++ tail)
               (ds_dtype d) (ds_attrs d)
               (last_row d + Z.of_nat (length batch)))
  = committed d ++ batch.
Proof.
  intros [Hlow Hhigh]. unfold committed, len in *. simpl.
  rewrite (take_app_le (ds_rows d)) by lia.
  rewrite app_assoc, take_app_le by (rewrite length_app, length_take; lia).
  apply take_ge. rewrite length_app, length_take. lia.
Qed.

Lemma extend_var_committed self packet var_name d d' :
  0 <= ds_increment self -> extent_ok d ->
  extend_var self packet var_name d = (d', Ok tt) ->
  exists batch,
    column (data packet) var_name = Ok batch
    /\ length batch = length (data packet)
    /\ committed d' = committed d ++ batch
    /\ last_row d' = last_row d + Z.of_nat (length (data packet)).
Proof.
  intros Hinc Hok Hrun.
  destruct (resize_if_needed_pads_any self
              (Z.of_nat (length (data packet))) d Hinc ltac:(lia))
    as [pad Hpad].
  apply extend_var_run in Hrun
    as (batch & Hcol & Hlen & _ & _ & Hlast & Hrows).
  exists batch. split; [done|]. split; [done|]. split; [|done].
  rewrite <- (committed_app d pad batch
                (drop (Z.to_nat (last_row d
                                 + Z.of_nat (length (data packet))))
                      (ds_rows d ++ pad)) Hok).
  unfold committed. rewrite Hlast, Hrows, Hpad, Hlen. done.
Qed.

Lemma extend_combined_committed self packet d d' :
  0 <= ds_increment self -> extent_ok d ->
  extend_combined self packet d = (d', Ok tt) ->
  exists names recs,
    map_result name_of (var_defs self) = Ok names
    /\ map_result (row_vals (build_pvi 0 (cols packet) names ∅) names)
         (data packet) = Ok recs
    /\ committed d' = committed d ++ recs
    /\ last_row d' = last_row d + Z.of_nat (length (data packet)).
Proof.
  intros Hinc Hok Hrun.
  destruct (resize_if_needed_pads_any self
              (Z.of_nat (length (data packet))) d Hinc ltac:(lia))
    as [pad Hpad].
  apply extend_combined_run in Hrun
    as (names & recs & Hnames & Hrecs & Hlen & _ & Hlast & Hrows).
  exists names, recs. split; [done|]. split; [done|]. split; [|done].
  rewrite <- (committed_app d pad recs
                (drop (Z.to_nat (last_row d) + length (data packet))
                      (ds_rows d ++ pad)) Hok).
  unfold committed. rewrite Hlast, Hrows, Hpad, Hlen. done.
Qed.

(** X5.  A completed append adds the batch behind the committed rows
    of the extent and changes none of them: the rows below
    [last_row] afterwards are those before followed by the column of
    the batch (Individual layout) or by its assembled records
    (Combined layout). *)
Theorem append_only self packet d d' :
  0 <= ds_increment self -> extent_ok d ->
  (forall var_name,
     extend_var self packet var_name d = (d', Ok tt) ->
     exists batch,
       column (data packet) var_name = Ok batch
       /\ length batch = length (data packet)
       /\ committed d' = committed d ++ batch
       /\ last_row d' = last_row d + Z.of_nat (length (data packet)))
  /\ (extend_combined self packet d = (d', Ok tt) ->
      exists names recs,
        map_result name_of (var_defs self) = Ok names
        /\ map_result (row_vals (build_pvi 0 (cols packet) names ∅) names)
             (data packet) = Ok recs
        /\ committed d' = committed d ++ recs
        /\ last_row d' = last_row d + Z.of_nat (length (data packet))).
Proof.
  intros Hinc Hok. split.
  - intros var_name. by apply extend_var_committed.
  - by apply extend_combined_committed.
Qed.

Lemma append_only_witness :
  committed (Scenario.time_at Scenario.fs13)
  = committed (Scenario.time_at Scenario.fs5)
    ++ map VRaw [5; 6; 7; 8; 9; 10; 11; 12].
Proof.
  destruct (append_only Scenario.self Scenario.packet8
              (Scenario.time_at Scenario.fs5)
              (Scenario.time_at Scenario.fs13)) as [Hvar _].
  - vm_compute. discriminate.
  - vm_compute. split; discriminate.
  - destruct (Hvar "time") as (batch & Hcol & _ & Hlog & _).
    + vm_compute. reflexivity.
    + rewrite Hlog. f_equal.
      assert (column (data Scenario.packet8) "time"
              = Ok (map VRaw [5; 6; 7; 8; 9; 10; 11; 12])) as Hcol'
        by (vm_compute; reflexivity).
      congruence.
Defined.

(** A completed Individual-layout append, seen from the file system:
    every named variable of the container had one run of lines
    133-139. *)
Lemma extend_dataset_individual_run self packet fs fs' :
  ds_layout self = DS_LAYOUT_INDIVIDUAL -> NoDup (cols packet) ->
  extend_dataset self packet fs = (fs', Ok tt) ->
  forall name d,
    name ∈ cols packet -> extent self fs name = Some d ->
    exists d', extent self fs' name = Some d'
               /\ extend_var self packet name d = (d', Ok tt).
Proof.
  intros Hlayout Hnd Hrun name d Hin Hd.
  destruct (extent_file self fs name d Hd) as (f & Hf & Hname).
  pose proof (extend_dataset_file self packet fs) as Hfile.
  rewrite Hf, Hrun in Hfile. injection Hfile as -> Hok.
  unfold extent. simpl. rewrite lookup_insert_eq. simpl.
  unfold extend_container in *. rewrite bool_decide_eq_true_2 in * by done.
  destruct (for_each (extend_individual self packet) (cols packet) f)
    as [f1 r] eqn:Hloop.
  simpl in *. subst r.
  apply (for_each_extend_run self packet _ f f1 Hnd Hloop name d Hin Hname).
Qed.

(** X6.  Two completed appends in a row, in the Individual layout:
    for a variable that both packets name, the committed rows end up
    as those before, then the first column, then the second, and
    [last_row] has moved by the sum of the two batch sizes. *)
Theorem appends_compose self packet1 packet2 fs fs1 fs2 name d :
  ds_layout self = DS_LAYOUT_INDIVIDUAL -> 0 <= ds_increment self ->
  NoDup (cols packet1) -> NoDup (cols packet2) ->
  name ∈ cols packet1 -> name ∈ cols packet2 ->
  extent self fs name = Some d -> extent_ok d ->
  extend_dataset self packet1 fs = (fs1, Ok tt) ->
  extend_dataset self packet2 fs1 = (fs2, Ok tt) ->
  exists d2 batch1 batch2,
    extent self fs2 name = Some d2
    /\ column (data packet1) name = Ok batch1
    /\ column (data packet2) name = Ok batch2
    /\ committed d2 = committed d ++ batch1 ++ batch2
    /\ last_row d2
       = last_row d + Z.of_nat (length (data packet1))
         + Z.of_nat (length (data packet2)).
Proof.
  intros Hlayout Hinc Hnd1 Hnd2 Hin1 Hin2 Hd Hok Hrun1 Hrun2.
  destruct (extend_dataset_individual_run self packet1 fs fs1 Hlayout Hnd1
              Hrun1 name d Hin1 Hd) as (d1 & Hd1 & Hvar1).
  destruct (extend_dataset_individual_run self packet2 fs1 fs2 Hlayout Hnd2
              Hrun2 name d1 Hin2 Hd1) as (d2 & Hd2 & Hvar2).
  assert (extent_ok d1) as Hok1.
  { pose proof (extend_var_any self packet1 name d Hinc Hok) as [H1 _].
    by rewrite Hvar1 in H1. }
  destruct (extend_var_committed self packet1 name d d1 Hinc Hok Hvar1)
    as (batch1 & Hcol1 & _ & Hlog1 & Hlast1).
  destruct (extend_var_committed self packet2 name d1 d2 Hinc Hok1 Hvar2)
    as (batch2 & Hcol2 & _ & Hlog2 & Hlast2).
  exists d2, batch1, batch2. split; [done|]. split; [done|]. split; [done|].
  split; [by rewrite Hlog2, Hlog1, app_assoc|lia].
Qed.

Lemma appends_compose_witness :
  exists d2,
    extent Scenario.self Scenario.fs13 "temperature" = Some d2
    /\ last_row d2 = 13
    /\ committed d2 = map VRaw (seqZ 100 13).
Proof.
  destruct (appends_compose Scenario.self Scenario.packet5 Scenario.packet8
              Scenario.fs_created Scenario.fs5 Scenario.fs13 "temperature"
              (Scenario.temperature_at Scenario.fs_created))
    as (d2 & batch1 & batch2 & Hd2 & Hcol1 & Hcol2 & Hlog & Hlast).
  - reflexivity.
  - vm_compute. discriminate.
  - apply (bool_decide_unpack (NoDup (cols Scenario.packet5))).
    vm_compute. exact I.
  - apply (bool_decide_unpack (NoDup (cols Scenario.packet8))).
    vm_compute. exact I.
  - apply elem_of_cons. right. apply elem_of_cons. by left.
  - apply elem_of_cons. right. apply elem_of_cons. by left.
  - vm_compute. reflexivity.
  - vm_compute. split; discriminate.
  - vm_compute. reflexivity.
  - vm_compute. reflexivity.
  - exists d2. split; [exact Hd2|]. split.
    + rewrite Hlast. vm_compute. reflexivity.
    + rewrite Hlog.
      assert (column (data Scenario.packet5) "temperature"
              = Ok (map VRaw (seqZ 100 5))) as H1 by (vm_compute; reflexivity).
      assert (column (data Scenario.packet8) "temperature"
              = Ok (map VRaw (seqZ 105 8))) as H2 by (vm_compute; reflexivity).
      rewrite H1 in Hcol1. rewrite H2 in Hcol2.
      injection Hcol1 as <-. injection Hcol2 as <-.
      vm_compute. reflexivity.
Defined.

(** ** Appends that raise *)

Lemma resize_if_needed_committed self n d :
  0 <= ds_increment self -> 0 <= n -> extent_ok d ->
  last_row (resize_if_needed self n d).1 = last_row d
  /\ committed (resize_if_needed self n d).1 = committed d.
Proof.
  intros Hinc Hn [Hlow Hhigh].
  destruct (resize_if_needed_result self n d) as [Hlast _].
  destruct (resize_if_needed_pads_any self n d Hinc Hn) as [pad Hpad].
  split; [done|]. unfold committed. rewrite Hlast, Hpad.
  apply take_app_le. unfold len in *. lia.
Qed.

Lemma write_rows_committed pvi names cur_idx rows p d :
  0 <= cur_idx ->
  let d' := (for_enumerate
               (fun row_idx row_data =>
                  vals <- lift (row_vals pvi names row_data) ;;
                  h5_write_row (cur_idx + Z.of_nat row_idx) vals) p rows d).1 in
  last_row d' = last_row d
  /\ take (Z.to_nat cur_idx) (ds_rows d') = take (Z.to_nat cur_idx) (ds_rows d).
Proof.
  intros Hidx.
  apply (for_enumerate_preserve
           (fun s => last_row s = last_row d
                     /\ take (Z.to_nat cur_idx) (ds_rows s)
                        = take (Z.to_nat cur_idx) (ds_rows d))); [|done].
  intros i x s0 [Hl Hr]. unfold bind, lift.
  destruct (row_vals pvi names x); simpl; [|done].
  unfold h5_write_row. destruct (dtype_accepts (ds_dtype s0) a); [|done].
  destruct ((0 <=? cur_idx + Z.of_nat i) && (cur_idx + Z.of_nat i <? len s0));
    simpl; [|done].
  split; [done|]. rewrite take_insert_ge by lia. done.
Qed.

Lemma failed_append_aux self packet d e :
  0 <= ds_increment self -> extent_ok d ->
  (forall var_name,
     (extend_var self packet var_name d).2 = Raise e ->
     last_row (extend_var self packet var_name d).1 = last_row d
     /\ committed (extend_var self packet var_name d).1 = committed d)
  /\ ((extend_combined self packet d).2 = Raise e ->
      last_row (extend_combined self packet d).1 = last_row d
      /\ committed (extend_combined self packet d).1 = committed d).
Proof.
  intros Hinc Hok.
  pose proof (resize_if_needed_committed self
                (Z.of_nat (length (data packet))) d Hinc ltac:(lia) Hok)
    as [Hlast Hlog].
  destruct (resize_if_needed_result self
              (Z.of_nat (length (data packet))) d) as [_ Hidx].
  split.
  - intros var_name. unfold extend_var, bind.
    destruct (resize_if_needed self _ d) as [d1 [cur_idx|e1]]; [|done].
    simpl in *. unfold lift.
    destruct (column (data packet) var_name) as [batch|e1]; [|done].
    unfold h5_write_slice.
    destruct ((0 <=? cur_idx) && _ && _ && _); [done|done].
  - destruct (extend_combined self packet d) as [d' r] eqn:Hrun.
    simpl. intros ->. unfold extend_combined, bind in Hrun.
    destruct (resize_if_needed self _ d) as [d1 [cur_idx|e1]];
      [|by injection Hrun as <- _].
    simpl in Hlast, Hlog, Hidx. rewrite (Hidx cur_idx eq_refl) in Hrun.
    unfold lift at 1 in Hrun.
    destruct (map_result name_of (var_defs self)) as [names|e1];
      [|by injection Hrun as <- _].
    pose proof (write_rows_committed (build_pvi 0 (cols packet) names ∅)
                  names (last_row d) (data packet) 0%nat d1
                  ltac:(destruct Hok; lia)) as [Hl2 Hr2].
    simpl in Hl2, Hr2.
    destruct (for_enumerate _ 0%nat (data packet) d1) as [d2 [[]|e1]];
      [done|].
    injection Hrun as <- _. simpl in Hl2, Hr2. split; [congruence|].
    unfold committed in *. rewrite Hlast in Hlog.
    rewrite Hl2, Hlast, Hr2. exact Hlog.
Qed.

(** X7.  An append that raises leaves the extent's [last_row] and its
    committed rows as they were, in both layouts: [last_row] moves
    only after the last write. *)
Theorem failed_append_keeps_committed self packet d e :
  0 <= ds_increment self -> extent_ok d ->
  (forall var_name,
     (extend_var self packet var_name d).2 = Raise e ->
     last_row (extend_var self packet var_name d).1 = last_row d
     /\ committed (extend_var self packet var_name d).1 = committed d)
  /\ ((extend_combined self packet d).2 = Raise e ->
      last_row (extend_combined self packet d).1 = last_row d
      /\ committed (extend_combined self packet d).1 = committed d).
Proof. apply failed_append_aux. Qed.

(** X8.  With a row increment of zero, a batch that does not fit
    raises [ZeroDivisionError] before anything is written, in both
    layouts; a container created with that increment has no room at
    all. *)
Theorem zero_increment_overflow self packet d :
  ds_increment self = 0 ->
  last_row d + Z.of_nat (length (data packet)) > len d ->
  (forall var_name,
     extend_var self packet var_name d = (d, Raise ZeroDivisionError))
  /\ extend_combined self packet d = (d, Raise ZeroDivisionError).
Proof.
  intros Hz Hover.
  assert (resize_if_needed self (Z.of_nat (length (data packet))) d
          = (d, Raise ZeroDivisionError)) as Hguard.
  { unfold resize_if_needed, _resize_dataset, bind, gets, lift, py_div, ret.
    destruct (last_row d + _ >? len d) eqn:E; [|lia]. by rewrite Hz. }
  split.
  - intros var_name. unfold extend_var, bind. by rewrite Hguard.
  - unfold extend_combined, bind. by rewrite Hguard.
Qed.

Lemma zero_increment_overflow_witness :
  extend_dataset Cases.zero_increment Scenario.packet5 Cases.fs_zero
  = (Cases.fs_zero, Raise ZeroDivisionError).
Proof.
  pose proof (extend_dataset_file Cases.zero_increment Scenario.packet5
                Cases.fs_zero) as Hrun.
  assert (fs_files Cases.fs_zero !! _get_ds_filename Cases.zero_increment
          = Some (default (mkFile ∅ ∅)
                    (fs_files Cases.fs_zero
                       !! _get_ds_filename Cases.zero_increment))) as Hf
    by (vm_compute; reflexivity).
  rewrite Hf in Hrun. rewrite Hrun. clear Hrun.
  destruct (zero_increment_overflow Cases.zero_increment Scenario.packet5
              (default Scenario.no_dataset
                 (extent Cases.zero_increment Cases.fs_zero "time")))
    as [Hvar _].
  - reflexivity.
  - vm_compute. reflexivity.
  - specialize (Hvar "time"). vm_compute in Hvar. vm_compute. reflexivity.
Defined.

Lemma failed_append_keeps_committed_witness :
  (extend_var Scenario.self Cases.packet_without_fields "time"
     (Scenario.time_at Scenario.fs5)).2 = Raise ValueError
  /\ last_row (extend_var Scenario.self Cases.packet_without_fields "time"
                 (Scenario.time_at Scenario.fs5)).1 = 5.
Proof.
  assert ((extend_var Scenario.self Cases.packet_without_fields "time"
             (Scenario.time_at Scenario.fs5)).2 = Raise ValueError) as Hraise
    by (vm_compute; reflexivity).
  split; [exact Hraise|].
  destruct (failed_append_keeps_committed Scenario.self
              Cases.packet_without_fields (Scenario.time_at Scenario.fs5)
              ValueError) as [Hvar _].
  - vm_compute. discriminate.
  - vm_compute. split; discriminate.
  - destruct (Hvar "time" Hraise) as [Hlast _]. rewrite Hlast.
    vm_compute. reflexivity.
Defined.

(** ** The window of a query *)

Lemma committed_length d :
  extent_ok d -> length (committed d) = Z.to_nat (last_row d).
Proof.
  intros [Hlow Hhigh]. unfold committed, len in *. rewrite length_take. lia.
Qed.

Lemma window_is_tail_aux filter d :
  extent_ok d -> 0 <= max_rows filter ->
  window filter d
  = drop (Z.to_nat (last_row d - max_rows filter)) (committed d)
  /\ Z.of_nat (length (window filter d))
     = Z.min (max_rows filter) (last_row d).
Proof.
  intros Hok Hmax. pose proof Hok as [Hlow Hhigh].
  assert (window filter d
          = drop (Z.to_nat (last_row d - max_rows filter)) (committed d))
    as Hwin.
  { unfold window, py_slice, slice_bound, committed. fold (len d).
    destruct (Z.max (last_row d - max_rows filter) 0 <? 0) eqn:E1; [lia|].
    destruct (last_row d <? 0) eqn:E2; [lia|].
    rewrite take_drop_commute. f_equal; [lia|]. f_equal. lia. }
  split; [done|].
  rewrite Hwin, length_drop, committed_length by done. lia.
Qed.

(** X9.  For a sound extent and a non-negative [max_rows] the window
    of line 181 is the tail of the committed rows: their last
    [max_rows], or all of them when there are fewer; rows above
    [last_row] are never returned. *)
Theorem window_is_tail filter d :
  extent_ok d -> 0 <= max_rows filter ->
  window filter d
  = drop (Z.to_nat (last_row d - max_rows filter)) (committed d)
  /\ Z.of_nat (length (window filter d))
     = Z.min (max_rows filter) (last_row d).
Proof. apply window_is_tail_aux. Qed.

Lemma window_is_tail_witness :
  window Scenario.last3 (Scenario.time_at Scenario.fs13)
  = map VRaw [10; 11; 12].
Proof.
  destruct (window_is_tail Scenario.last3 (Scenario.time_at Scenario.fs13))
    as [Hwin _].
  - vm_compute. split; discriminate.
  - vm_compute. discriminate.
  - rewrite Hwin. vm_compute. reflexivity.
Defined.

(** ** Reading back what was appended *)

(** A query without transposition on an Individual-layout container
    whose time variable, if read, is declared. *)
Lemma get_data_plain conv self filter fs f vars :
  ds_layout self = DS_LAYOUT_INDIVIDUAL ->
  fs_files fs !! _get_ds_filename self = Some f ->
  read_vars self filter = Ok vars ->
  df_transpose_time filter <> Some true ->
  (forall v, v ∈ vars -> is_Some (f_vars f !! v) ->
             exists b, is_time_encoded self v = Ok b) ->
  exists res,
    get_data conv self filter fs = (fs, Ok res)
    /\ forall v,
         res !! v
         = if bool_decide (v ∈ vars)
           then (fun d => convert conv filter (encoded self v)
                            (window filter d)) <$> f_vars f !! v
           else None.
Proof.
  intros Hlayout Hf Hvars Hplain Hdecl.
  rewrite (get_data_run conv self filter fs f Hf).
  rewrite (query_individual conv self filter f vars Hlayout Hvars).
  rewrite bool_decide_eq_false_2 by done. unfold bind.
  destruct (collect_run conv self filter f vars ∅ Hdecl) as (res & -> & Hres).
  exists res. split; [done|]. intros v. rewrite Hres.
  destruct (bool_decide (v ∈ vars)); [|done].
  by destruct (f_vars f !! v).
Qed.

(** X10.  Round trip in the Individual layout: after a completed
    append, a query for one of the packet's variables with [max_rows]
    set to the batch size returns exactly the column that was
    appended, converted if the variable is time-encoded. *)
Theorem append_then_query conv self packet filter fs fs' v d batch :
  ds_layout self = DS_LAYOUT_INDIVIDUAL -> 0 <= ds_increment self ->
  NoDup (cols packet) -> v ∈ cols packet ->
  extent self fs v = Some d -> extent_ok d ->
  column (data packet) v = Ok batch ->
  extend_dataset self packet fs = (fs', Ok tt) ->
  df_variables filter = Some [v] ->
  df_max_rows filter = Some (Z.of_nat (length (data packet))) ->
  df_transpose_time filter <> Some true ->
  (v = time_var self -> is_Some (var_defs_map self !! v)) ->
  get_data conv self filter fs'
  = (fs', Ok {[ v := convert conv filter (encoded self v) batch ]}).
Proof.
  intros Hlayout Hinc Hnd Hin Hd Hok Hcol Hrun Hvars Hmax Hplain Hdecl.
  destruct (extend_dataset_individual_run self packet fs fs' Hlayout Hnd
              Hrun v d Hin Hd) as (d' & Hd' & Hvar).
  destruct (extent_file self fs' v d' Hd') as (f' & Hf' & Hv').
  assert (extent_ok d') as Hok'.
  { pose proof (extend_var_any self packet v d Hinc Hok) as [H1 _].
    by rewrite Hvar in H1. }
  destruct (extend_var_committed self packet v d d' Hinc Hok Hvar)
    as (batch' & Hcol' & Hlen & Hlog & Hlast).
  assert (batch' = batch) as -> by congruence.
  assert (max_rows filter = Z.of_nat (length (data packet))) as Hm
    by (unfold max_rows; by rewrite Hmax).
  assert (window filter d' = batch) as Hwin.
  { destruct (window_is_tail_aux filter d') as [-> _]; [done|lia|].
    rewrite Hlog, Hlast, Hm.
    replace (Z.to_nat (last_row d + Z.of_nat (length (data packet))
                       - Z.of_nat (length (data packet))))
      with (length (committed d)) by (rewrite committed_length by done; lia).
    apply drop_app_length. }
  destruct (get_data_plain conv self filter fs' f' [v] Hlayout Hf')
    as (res & -> & Hres).
  - unfold read_vars. by rewrite Hvars.
  - done.
  - intros v0 Hv0 _. apply is_time_encoded_ok.
    apply list_elem_of_singleton in Hv0 as ->. done.
  - do 2 f_equal. apply map_eq. intros v0. rewrite Hres.
    destruct (decide (v0 = v)) as [->|Hne].
    + rewrite bool_decide_eq_true_2 by (by apply list_elem_of_singleton).
      rewrite Hv', lookup_singleton_eq. simpl. by rewrite Hwin.
    + rewrite bool_decide_eq_false_2
        by (by intros ?%list_elem_of_singleton).
      by rewrite lookup_singleton_ne.
Qed.

Lemma append_then_query_witness :
  get_data Scenario.seconds Scenario.self Cases.last8_temperature
    Scenario.fs13
  = (Scenario.fs13, Ok {[ "temperature" := map VRaw (seqZ 105 8) ]}).
Proof.
  assert (column (data Scenario.packet8) "temperature"
          = Ok (map VRaw (seqZ 105 8))) as Hcol by (vm_compute; reflexivity).
  pose proof (append_then_query Scenario.seconds Scenario.self
                Scenario.packet8 Cases.last8_temperature Scenario.fs5
                Scenario.fs13 "temperature"
                (Scenario.temperature_at Scenario.fs5)
                (map VRaw (seqZ 105 8))) as Hround.
  rewrite Hround.
  - reflexivity.
  - reflexivity.
  - vm_compute. discriminate.
  - apply (bool_decide_unpack (NoDup (cols Scenario.packet8))).
    vm_compute. exact I.
  - apply elem_of_cons. right. apply elem_of_cons. by left.
  - vm_compute. reflexivity.
  - vm_compute. split; discriminate.
  - exact Hcol.
  - vm_compute. reflexivity.
  - reflexivity.
  - reflexivity.
  - discriminate.
  - intros Heq. vm_compute in Heq. discriminate Heq.
Defined.

(** ** Appends leave the metadata alone *)

Lemma extend_var_metadata self packet var_name d :
  ds_attrs (extend_var self packet var_name d).1 = ds_attrs d
  /\ ds_dtype (extend_var self packet var_name d).1 = ds_dtype d.
Proof.
  pose (P := fun s : Dataset =>
               ds_attrs s = ds_attrs d /\ ds_dtype s = ds_dtype d).
  change (P (extend_var self packet var_name d).1).
  assert (forall n s, P s -> P (h5_resize n s).1) as Hresize.
  { intros n s Hs. unfold h5_resize. by destruct (n <? 0). }
  unfold extend_var, resize_if_needed, _resize_dataset.
  repeat (apply bind_preserve; [try done|intros ? ? ?]).
  - destruct (_ >? _); [|done].
    repeat (apply bind_preserve; [try done|intros ? ? ?]).
    by apply Hresize.
  - done.
  - unfold h5_write_slice. by destruct (_ && _ && _ && _).
  - done.
Qed.

Lemma extend_combined_metadata self packet d :
  ds_attrs (extend_combined self packet d).1 = ds_attrs d
  /\ ds_dtype (extend_combined self packet d).1 = ds_dtype d.
Proof.
  pose (P := fun s : Dataset =>
               ds_attrs s = ds_attrs d /\ ds_dtype s = ds_dtype d).
  change (P (extend_combined self packet d).1).
  assert (forall n s, P s -> P (h5_resize n s).1) as Hresize.
  { intros n s Hs. unfold h5_resize. by destruct (n <? 0). }
  unfold extend_combined, resize_if_needed, _resize_dataset.
  repeat (apply bind_preserve; [try done|intros ? ? ?]).
  - destruct (_ >? _); [|done].
    repeat (apply bind_preserve; [try done|intros ? ? ?]).
    by apply Hresize.
  - done.
  - apply for_enumerate_preserve; [|done].
    intros i x s0 Hs0. apply bind_preserve; [done|]. intros vals s1 Hs1.
    unfold h5_write_row. destruct (dtype_accepts _ _); [|done].
    by destruct (_ && _).
  - done.
Qed.

Lemma same_metadata_refl f : same_metadata f f.
Proof. by split. Qed.

Lemma same_metadata_trans f1 f2 f3 :
  same_metadata f1 f2 -> same_metadata f2 f3 -> same_metadata f1 f3.
Proof.
  intros [Ha Hv] [Ha' Hv']. split; [congruence|].
  intros name. destruct (Hv name), (Hv' name). split; congruence.
Qed.

Lemma on_var_metadata {A} name (m : M Dataset A) f :
  (forall d, ds_attrs (m d).1 = ds_attrs d /\ ds_dtype (m d).1 = ds_dtype d) ->
  same_metadata f (on_var name m f).1.
Proof.
  intros Hm. unfold on_var.
  destruct (f_vars f !! name) as [d|] eqn:Hd; [|apply same_metadata_refl].
  destruct (Hm d) as [Hattrs Hdtype]. destruct (m d) as [d' r].
  simpl in *. split; [done|]. intros other. unfold set_var. simpl.
  destruct (decide (name = other)) as [<-|Hne].
  - rewrite lookup_insert_eq, Hd. simpl. by rewrite Hattrs, Hdtype.
  - by rewrite lookup_insert_ne.
Qed.

Lemma extend_container_metadata self packet f :
  same_metadata f (extend_container self packet f).1.
Proof.
  unfold extend_container.
  destruct (bool_decide (ds_layout self = DS_LAYOUT_INDIVIDUAL)).
  - apply (for_each_preserve (same_metadata f)); [|apply same_metadata_refl].
    intros c f0 Hf0. apply same_metadata_trans with f0; [done|].
    unfold extend_individual.
    destruct (f_vars f0 !! c); [|apply same_metadata_refl].
    apply on_var_metadata. intros d0. apply extend_var_metadata.
  - destruct (bool_decide (ds_layout self = DS_LAYOUT_COMBINED));
      [|apply same_metadata_refl].
    destruct (f_vars f !! DS_VARIABLES); [|apply same_metadata_refl].
    apply on_var_metadata. intros d0. apply extend_combined_metadata.
Qed.

(** X11.  An append, whatever its outcome, changes nothing but rows
    and [last_row] of the container's extents: directories and other
    files stay, the container keeps its [dataset_id] and [layout]
    attributes and its set of extents, and every extent keeps its
    attributes (position, base type, unit, description) and its
    type. *)
Theorem append_keeps_metadata self packet fs :
  let fs' := (extend_dataset self packet fs).1 in
  fs_dirs fs' = fs_dirs fs
  /\ (forall p, p <> _get_ds_filename self ->
                fs_files fs' !! p = fs_files fs !! p)
  /\ match fs_files fs !! _get_ds_filename self with
     | Some f =>
         exists f', fs_files fs' !! _get_ds_filename self = Some f'
                    /\ same_metadata f f'
                    /\ dom (f_vars f') = dom (f_vars f)
     | None => fs_files fs' !! _get_ds_filename self = None
     end.
Proof.
  simpl. pose proof (extend_dataset_file self packet fs) as Hrun.
  destruct (fs_files fs !! _get_ds_filename self) as [f|] eqn:Hf.
  - rewrite Hrun. simpl. split; [done|]. split.
    + intros p Hne. by rewrite lookup_insert_ne.
    + eexists. split; [by rewrite lookup_insert_eq|].
      pose proof (extend_container_metadata self packet f) as Hmeta.
      split; [done|]. apply set_eq. intros name.
      rewrite !elem_of_dom. destruct Hmeta as [_ Hv].
      destruct (Hv name) as [Hattrs _].
      destruct (f_vars (extend_container self packet f).1 !! name),
               (f_vars f !! name); simpl in Hattrs; try done;
        split; intros [? ?]; done || by eexists.
  - rewrite Hrun. simpl. by rewrite Hf.
Qed.

(** ** What creation writes *)

Lemma on_var_modify_set name g d f :
  on_var name (modify g) (set_var name d f) = (set_var name (g d) f, Ok tt).
Proof.
  unfold on_var, modify, set_var. simpl. rewrite lookup_insert_eq.
  by rewrite insert_insert_eq.
Qed.

Lemma create_individual_run self position vi f name :
  name_of vi = Ok name -> f_vars f !! name = None ->
  0 <= ds_increment self ->
  create_individual self position vi f
  = (set_var name (created_extent (ds_increment self) position vi) f, Ok tt).
Proof.
  intros Hname Hfree Hinc. unfold create_individual, bind at 1, lift.
  rewrite Hname. unfold bind at 1, file_create_dataset, create_dataset.
  rewrite Hfree. destruct (ds_increment self <? 0) eqn:E; [lia|].
  repeat (unfold bind at 1; rewrite on_var_modify_set).
  by rewrite on_var_modify_set.
Qed.

Lemma create_individual_taken self position vi f name :
  name_of vi = Ok name -> is_Some (f_vars f !! name) ->
  create_individual self position vi f = (f, Raise ValueError).
Proof.
  intros Hname [d Hd]. unfold create_individual, bind at 1, lift.
  rewrite Hname. unfold bind at 1, file_create_dataset. by rewrite Hd.
Qed.

(** The loop of lines 86-96 over variables with distinct names that
    the file does not have yet. *)
Lemma create_loop_run self vars names position f :
  map_result name_of vars = Ok names -> 0 <= ds_increment self ->
  NoDup names -> (forall n, n ∈ names -> f_vars f !! n = None) ->
  exists f',
    for_enumerate (create_individual self) position vars f = (f', Ok tt)
    /\ f_attrs f' = f_attrs f
    /\ (forall i vi name,
          vars !! i = Some vi -> vi_name vi = Some name ->
          f_vars f' !! name
          = Some (created_extent (ds_increment self) (position + i) vi))
    /\ (forall n, n ∉ names -> f_vars f' !! n = f_vars f !! n).
Proof.
  intros Hnames Hinc. revert names position f Hnames.
  induction vars as [|vi vars IH]; intros names position f Hnames Hnd Hfree.
  - exists f. split; [done|]. split; [done|]. split; [|done].
    intros i vi name Hi. by rewrite lookup_nil in Hi.
  - apply map_result_cons in Hnames
      as (name0 & names' & -> & Hname0 & Hnames').
    apply NoDup_cons in Hnd as [Hnot Hnd].
    simpl. unfold bind.
    rewrite (create_individual_run self position vi f name0 Hname0)
      by (try done; apply Hfree, elem_of_cons; by left).
    destruct (IH names' (S position)
                (set_var name0
                   (created_extent (ds_increment self) position vi) f)
                Hnames' Hnd) as (f' & -> & Hattrs & Hvars & Hother).
    { intros n Hn. unfold set_var. simpl. rewrite lookup_insert_ne.
      - apply Hfree, elem_of_cons. by right.
      - by intros ->. }
    exists f'. split; [done|]. split; [done|]. split.
    + intros [|i] vi' name Hi Hname; simpl in Hi.
      * injection Hi as <-. rewrite Hother.
        -- unfold set_var. simpl.
           assert (name = name0) as ->
             by (unfold name_of in Hname0; rewrite Hname in Hname0;
                 by injection Hname0).
           rewrite lookup_insert_eq. by rewrite Nat.add_0_r.
        -- assert (name = name0) as ->
             by (unfold name_of in Hname0; rewrite Hname in Hname0;
                 by injection Hname0).
           done.
      * rewrite (Hvars i vi' name Hi Hname).
        by replace (S position + i)%nat with (position + S i)%nat by lia.
    + intros n Hn. apply not_elem_of_cons in Hn as [Hne Hn].
      rewrite (Hother n Hn). unfold set_var. simpl.
      by rewrite lookup_insert_ne.
Qed.

(** The same loop when a name repeats or is taken. *)
Lemma create_loop_collides self vars names position f :
  map_result name_of vars = Ok names -> 0 <= ds_increment self ->
  ~ NoDup names \/ (exists n, n ∈ names /\ is_Some (f_vars f !! n)) ->
  (for_enumerate (create_individual self) position vars f).2
  = Raise ValueError.
Proof.
  intros Hnames Hinc. revert names position f Hnames.
  induction vars as [|vi vars IH]; intros names position f Hnames Hbad.
  - injection Hnames as <-. destruct Hbad as [Hnd|(n & Hin & _)].
    + destruct Hnd. constructor.
    + by apply elem_of_nil in Hin.
  - apply map_result_cons in Hnames
      as (name0 & names' & -> & Hname0 & Hnames').
    simpl. unfold bind.
    destruct (f_vars f !! name0) as [d0|] eqn:Hd0.
    + by rewrite (create_individual_taken self position vi f name0 Hname0)
        by (by eexists).
    + rewrite (create_individual_run self position vi f name0 Hname0 Hd0 Hinc).
      apply (IH names' (S position)); [done|].
      destruct (decide (name0 ∈ names')) as [Hin|Hnot].
      * right. exists name0. split; [done|]. unfold set_var. simpl.
        rewrite lookup_insert_eq. by eexists.
      * destruct Hbad as [Hnd|(n & Hin & Hn)].
        -- left. intros Hnd'. apply Hnd. by constructor.
        -- right. apply elem_of_cons in Hin as [->|Hin].
           ++ rewrite Hd0 in Hn. by destruct Hn.
           ++ exists n. split; [done|]. unfold set_var. simpl.
              rewrite lookup_insert_ne; [done|]. by intros ->.
Qed.

Lemma create_container_individual self :
  ds_layout self = DS_LAYOUT_INDIVIDUAL ->
  create_container self (mkFile ∅ ∅)
  = for_enumerate (create_individual self) 0%nat (var_defs self)
      (mkFile (<["layout" := AStr (ds_layout self)]>
                 (<["dataset_id" := AStr (dataset_id self)]> ∅)) ∅).
Proof.
  intros Hlayout. unfold create_container, bind, modify. simpl.
  by rewrite bool_decide_eq_true_2.
Qed.

(** X12.  Creating an Individual-layout container whose variables
    have distinct names gives one extent per variable, named after
    it, of [row_increment] zero rows with [last_row = 0], the declared
    storage type (default ["f8"]) and the attributes base type
    (default ["float"]), position in declaration order, description
    and unit; the file carries [dataset_id] and [layout]; nothing
    else is in it.  With a repeated name the creation raises
    [ValueError]. *)
Theorem individual_creation self names :
  ds_layout self = DS_LAYOUT_INDIVIDUAL ->
  map_result name_of (var_defs self) = Ok names ->
  0 <= ds_increment self ->
  (NoDup names ->
   exists f,
     create_container self (mkFile ∅ ∅) = (f, Ok tt)
     /\ f_attrs f !! "dataset_id" = Some (AStr (dataset_id self))
     /\ f_attrs f !! "layout" = Some (AStr DS_LAYOUT_INDIVIDUAL)
     /\ (forall i vi name,
           var_defs self !! i = Some vi -> vi_name vi = Some name ->
           f_vars f !! name
           = Some (created_extent (ds_increment self) i vi))
     /\ (forall n, n ∉ names -> f_vars f !! n = None))
  /\ (~ NoDup names ->
      (create_container self (mkFile ∅ ∅)).2 = Raise ValueError).
Proof.
  intros Hlayout Hnames Hinc.
  rewrite (create_container_individual self Hlayout). split.
  - intros Hnd.
    destruct (create_loop_run self (var_defs self) names 0
                (mkFile (<["layout" := AStr (ds_layout self)]>
                           (<["dataset_id" := AStr (dataset_id self)]> ∅)) ∅)
                Hnames Hinc Hnd)
      as (f & Hrun & Hattrs & Hvars & Hother); [done|].
    exists f. split; [done|]. rewrite Hattrs. simpl.
    split; [by rewrite lookup_insert_ne, lookup_insert_eq|].
    split; [by rewrite lookup_insert_eq, Hlayout|].
    split; [|by intros n Hn; rewrite (Hother n Hn)].
    intros i vi name Hi Hname. by rewrite (Hvars i vi name Hi Hname).
  - intros Hnd. apply create_loop_collides with names; [done|done|by left].
Qed.

Lemma individual_creation_witness :
  exists f,
    create_container Scenario.self (mkFile ∅ ∅) = (f, Ok tt)
    /\ f_vars f !! "temperature"
       = Some (created_extent 10 1 Scenario.temperature_def).
Proof.
  destruct (individual_creation Scenario.self ["time"; "temperature"])
    as [Hrun _].
  - reflexivity.
  - reflexivity.
  - vm_compute. discriminate.
  - destruct Hrun as (f & Hf & _ & _ & Hvars & _).
    + apply (bool_decide_unpack (NoDup ["time"; "temperature"])).
      vm_compute. exact I.
    + exists f. split; [exact Hf|].
      apply (Hvars 1%nat Scenario.temperature_def "temperature");
        reflexivity.
Defined.

Lemma dtype_parts_run vars names :
  map_result name_of vars = Ok names ->
  dtype_parts vars
  = Ok (zip names (map (fun vi => default "f8" (vi_storage_dtype vi)) vars)).
Proof.
  revert names. induction vars as [|vi vars IH]; intros names Hnames.
  - by injection Hnames as <-.
  - apply map_result_cons in Hnames as (name & names' & -> & Hname & Hrest).
    simpl. by rewrite Hname, (IH names' Hrest).
Qed.

Lemma dtype_parts_names vars names :
  map_result name_of vars = Ok names ->
  dtype_parts vars
  = Ok (zip names (map (fun vi => default "f8" (vi_storage_dtype vi)) vars))
  /\ (zip names (map (fun vi => default "f8" (vi_storage_dtype vi)) vars)).*1
     = names.
Proof.
  intros Hnames. split; [by apply dtype_parts_run|].
  apply fst_zip. rewrite length_map.
  by rewrite (map_result_length _ _ _ Hnames).
Qed.

(** X13.  Creating a Combined-layout container whose variables have
    distinct names gives the single extent ["data"] of
    [row_increment] zero records with [last_row = 0], whose record
    type lists the variables with their storage types (default
    ["f8"]) in declaration order; with a repeated name the creation
    raises [ValueError]. *)
Theorem combined_creation self names :
  ds_layout self = DS_LAYOUT_COMBINED ->
  map_result name_of (var_defs self) = Ok names ->
  0 <= ds_increment self ->
  let parts :=
    zip names
        (map (fun vi => default "f8" (vi_storage_dtype vi)) (var_defs self)) in
  (NoDup names ->
   exists f,
     create_container self (mkFile ∅ ∅) = (f, Ok tt)
     /\ f_attrs f !! "dataset_id" = Some (AStr (dataset_id self))
     /\ f_attrs f !! "layout" = Some (AStr DS_LAYOUT_COMBINED)
     /\ f_vars f
        = {[ DS_VARIABLES := created_records (ds_increment self) parts ]})
  /\ (~ NoDup names ->
      (create_container self (mkFile ∅ ∅)).2 = Raise ValueError).
Proof.
  intros Hlayout Hnames Hinc. simpl.
  destruct (dtype_parts_names (var_defs self) names Hnames) as [Hparts Hfst].
  assert (create_container self (mkFile ∅ ∅)
          = create_combined self
              (mkFile (<["layout" := AStr (ds_layout self)]>
                         (<["dataset_id" := AStr (dataset_id self)]> ∅)) ∅))
    as ->.
  { unfold create_container, bind, modify. simpl.
    rewrite bool_decide_eq_false_2
      by (rewrite Hlayout; apply layouts_differ).
    by rewrite bool_decide_eq_true_2. }
  split.
  - intros Hnd. unfold create_combined, bind at 1, lift. rewrite Hparts.
    unfold bind at 1, lift, np_dtype. rewrite Hfst.
    case_bool_decide; [|done].
    unfold bind at 1, file_create_dataset, create_dataset. simpl.
    rewrite lookup_empty.
    destruct (ds_increment self <? 0) eqn:E; [lia|].
    fold (set_var DS_VARIABLES
            (mkDataset
               (replicate (Z.to_nat (ds_increment self))
                  (fill_value
                     (Compound
                        (zip names
                           (map (fun vi => default "f8" (vi_storage_dtype vi))
                              (var_defs self))))))
               (Compound
                  (zip names
                     (map (fun vi => default "f8" (vi_storage_dtype vi))
                        (var_defs self)))) ∅ 0)
            (mkFile (<["layout" := AStr (ds_layout self)]>
                       (<["dataset_id" := AStr (dataset_id self)]> ∅)) ∅)).
    unfold bind at 1. rewrite on_var_modify_set. rewrite on_var_modify_set.
    eexists. split; [done|]. simpl.
    split; [by rewrite lookup_insert_ne, lookup_insert_eq|].
    split; [by rewrite lookup_insert_eq, Hlayout|done].
  - intros Hnd. unfold create_combined, bind, lift, np_dtype.
    rewrite Hparts. simpl. rewrite Hfst. by case_bool_decide.
Qed.

Lemma combined_creation_witness :
  exists f,
    create_container Scenario.combined (mkFile ∅ ∅) = (f, Ok tt)
    /\ f_vars f
       = {[ DS_VARIABLES
            := created_records 10 [("time", "i8"); ("temperature", "f8")] ]}.
Proof.
  destruct (combined_creation Scenario.combined ["time"; "temperature"])
    as [Hrun _].
  - reflexivity.
  - reflexivity.
  - vm_compute. discriminate.
  - destruct Hrun as (f & Hf & _ & _ & Hvars).
    + apply (bool_decide_unpack (NoDup ["time"; "temperature"])).
      vm_compute. exact I.
    + exists f. split; [exact Hf|exact Hvars].
Defined.

(** ** The name index of a compiled schema *)

Lemma undeclared_cons vi vars name :
  undeclared (vi :: vars) name
  <-> vi_name vi <> Some name /\ undeclared vars name.
Proof.
  unfold undeclared. split.
  - intros H. split; [by apply (H 0%nat)|].
    intros j vj Hj. by apply (H (S j)).
  - intros [H0 H] [|j] vj Hj; simpl in Hj; [by injection Hj as <-|].
    by apply (H j).
Qed.

Lemma last_declared_here vi vars name vi' :
  last_declared (vi :: vars) name 0 vi'
  <-> vi' = vi /\ vi_name vi = Some name /\ undeclared vars name.
Proof.
  unfold last_declared, undeclared. simpl. split.
  - intros ([= <-] & Hname & Hlater). split; [done|]. split; [done|].
    intros j vj Hj. apply (Hlater (S j)); [lia|done].
  - intros (-> & Hname & Hnone). split; [done|]. split; [done|].
    intros [|j] vj Hlt Hj; [lia|]. by apply (Hnone j).
Qed.

Lemma last_declared_later vi vars name i vi' :
  last_declared (vi :: vars) name (S i) vi' <-> last_declared vars name i vi'.
Proof.
  unfold last_declared. simpl. split.
  - intros (Hi & Hname & Hlater). split; [done|]. split; [done|].
    intros j vj Hlt Hj. apply (Hlater (S j)); [lia|done].
  - intros (Hi & Hname & Hlater). split; [done|]. split; [done|].
    intros [|j] vj Hlt Hj; [lia|]. apply (Hlater j); [lia|done].
Qed.

Lemma build_var_index_lookup vars position m m' name k :
  build_var_index position vars m = Ok m' ->
  m' !! name = Some k
  <-> (exists i vi, k = (position + i)%nat /\ last_declared vars name i vi)
      \/ (m !! name = Some k /\ undeclared vars name).
Proof.
  revert position m. induction vars as [|vi vars IH]; intros position m Hrun.
  - injection Hrun as <-. split.
    + intros Hk. right. split; [done|]. intros j vj Hj.
      by rewrite lookup_nil in Hj.
    + intros [(i & vi & _ & Hi & _)|[Hk _]]; [|done].
      by rewrite lookup_nil in Hi.
  - simpl in Hrun. unfold name_of in Hrun.
    destruct (vi_name vi) as [name0|] eqn:Hname0; [|done].
    rewrite (IH _ _ Hrun). split.
    + intros [(i & vi' & -> & Hlast)|[Hk Hnone]].
      * left. exists (S i), vi'. split; [lia|].
        by apply last_declared_later.
      * destruct (decide (name0 = name)) as [->|Hne].
        -- rewrite lookup_insert_eq in Hk. injection Hk as <-.
           left. exists 0%nat, vi. split; [lia|].
           by apply last_declared_here.
        -- rewrite lookup_insert_ne in Hk by done. right.
           split; [done|]. apply undeclared_cons. split; [|done].
           rewrite Hname0. by intros [= ->].
    + intros [(i & vi' & -> & Hlast)|[Hk Hnone]].
      * destruct i as [|i].
        -- apply (proj1 (last_declared_here _ _ _ _)) in Hlast
             as (-> & Hname & Hnone).
           right. split; [|done].
           assert (name0 = name) as -> by congruence.
           rewrite lookup_insert_eq. f_equal. lia.
        -- apply (proj1 (last_declared_later _ _ _ _ _)) in Hlast. left.
           exists i, vi'. split; [lia|done].
      * apply undeclared_cons in Hnone as [Hne Hnone]. right.
        split; [|done]. rewrite lookup_insert_ne; [done|].
        intros ->. by rewrite Hname0 in Hne.
Qed.

Lemma build_var_defs_map_lookup vars m m' name vi' :
  build_var_defs_map vars m = Ok m' ->
  m' !! name = Some vi'
  <-> (exists i, last_declared vars name i vi')
      \/ (m !! name = Some vi' /\ undeclared vars name).
Proof.
  revert m. induction vars as [|vi vars IH]; intros m Hrun.
  - injection Hrun as <-. split.
    + intros Hk. right. split; [done|]. intros j vj Hj.
      by rewrite lookup_nil in Hj.
    + intros [(i & Hi & _)|[Hk _]]; [|done].
      by rewrite lookup_nil in Hi.
  - simpl in Hrun. unfold name_of in Hrun.
    destruct (vi_name vi) as [name0|] eqn:Hname0; [|done].
    rewrite (IH _ Hrun). split.
    + intros [(i & Hlast)|[Hk Hnone]].
      * left. exists (S i). by apply last_declared_later.
      * destruct (decide (name0 = name)) as [->|Hne].
        -- rewrite lookup_insert_eq in Hk. injection Hk as <-.
           left. exists 0%nat. by apply last_declared_here.
        -- rewrite lookup_insert_ne in Hk by done. right.
           split; [done|]. apply undeclared_cons. split; [|done].
           rewrite Hname0. by intros [= ->].
    + intros [(i & Hlast)|[Hk Hnone]].
      * destruct i as [|i].
        -- apply (proj1 (last_declared_here _ _ _ _)) in Hlast
             as (-> & Hname & Hnone).
           right. split; [|done].
           assert (name0 = name) as -> by congruence.
           by rewrite lookup_insert_eq.
        -- apply (proj1 (last_declared_later _ _ _ _ _)) in Hlast. left. by exists i.
      * apply undeclared_cons in Hnone as [Hne Hnone]. right.
        split; [|done]. rewrite lookup_insert_ne; [done|].
        intros ->. by rewrite Hname0 in Hne.
Qed.

(** X14.  In a compiled schema [var_index] maps a name to the
    position of its last declaration and [var_defs_map] maps it to
    that declaration; a name is in either exactly when some variable
    declares it.  (With distinct names: the position and the
    declaration of the variable.) *)
Theorem schema_index h5py id fs_get sch self :
  init h5py id fs_get sch = Ok self ->
  (forall name i,
     var_index self !! name = Some i
     <-> exists vi, last_declared (var_defs self) name i vi)
  /\ (forall name vi,
        var_defs_map self !! name = Some vi
        <-> exists i, last_declared (var_defs self) name i vi).
Proof.
  unfold init, _parse_schema. destruct h5py; [|done].
  destruct (sch_attributes sch) as [persistence|]; [|done].
  destruct (persistence_or_empty persistence) as [pa|]; [|done].
  destruct (increment_of pa); [|done].
  destruct (sch_variables sch) as [vars|]; [|done].
  destruct (build_var_defs_map vars ∅) as [vmap|] eqn:Hmap; [|done].
  destruct (build_var_index 0 vars ∅) as [vindex|] eqn:Hindex; [|done].
  intros [= <-]. simpl. split.
  - intros name i. rewrite (build_var_index_lookup _ _ _ _ name i Hindex).
    split.
    + intros [(i' & vi & -> & Hlast)|[Hk _]]; [by exists vi|].
      by rewrite lookup_empty in Hk.
    + intros [vi Hlast]. left. by exists i, vi.
  - intros name vi. rewrite (build_var_defs_map_lookup _ _ _ name vi Hmap).
    split.
    + intros [Hlast|[Hk _]]; [done|]. by rewrite lookup_empty in Hk.
    + intros Hlast. by left.
Qed.

Lemma schema_index_witness :
  var_index Cases.repeated !! "temperature" = Some 1%nat.
Proof.
  destruct (schema_index true "d" Scenario.fs_get Scenario.duplicate_schema
              Cases.repeated eq_refl) as [Hindex _].
  apply Hindex. exists Scenario.temperature_def.
  split; [reflexivity|]. split; [reflexivity|].
  intros [|[|[|j]]] vj Hlt Hj; simpl in Hj; try lia; discriminate Hj.
Defined.

(** ** Columns that the container does not store *)

Lemma same_metadata_is_Some f f' name :
  same_metadata f f' ->
  is_Some (f_vars f' !! name) <-> is_Some (f_vars f !! name).
Proof.
  intros [_ Hv]. destruct (Hv name) as [Hattrs _].
  destruct (f_vars f' !! name), (f_vars f !! name); simpl in Hattrs;
    try done; split; intros [? ?]; done || by eexists.
Qed.

Lemma extend_individual_metadata self packet c f :
  same_metadata f (extend_individual self packet c f).1.
Proof.
  unfold extend_individual.
  destruct (f_vars f !! c); [|apply same_metadata_refl].
  apply on_var_metadata. intros d0. apply extend_var_metadata.
Qed.

Lemma for_each_extend_stored self packet (keep : string -> Prop)
    `{!forall c, Decision (keep c)} cs f :
  (forall c, keep c <-> is_Some (f_vars f !! c)) ->
  for_each (extend_individual self packet) cs f
  = for_each (extend_individual self packet) (filter keep cs) f.
Proof.
  revert f. induction cs as [|c cs IH]; intros f Hkeep; [done|].
  destruct (decide (keep c)) as [Hc|Hc].
  - rewrite filter_cons_True by done. simpl. unfold bind.
    pose proof (extend_individual_metadata self packet c f) as Hmeta.
    destruct (extend_individual self packet c f) as [f1 [[]|e]]; [|done].
    apply IH. intros c'. rewrite (Hkeep c').
    symmetry. by apply same_metadata_is_Some.
  - rewrite filter_cons_False by done. simpl. unfold bind.
    unfold extend_individual at 1.
    destruct (f_vars f !! c) as [d|] eqn:Hd.
    + destruct Hc. apply Hkeep. by rewrite Hd.
    + by apply IH.
Qed.

(** X15.  In the Individual layout the columns of a packet that the
    container does not store are skipped: the append does exactly
    what it does for the packet without them, for the file
    afterwards and for the outcome. *)
Theorem unknown_columns_ignored self packet f :
  ds_layout self = DS_LAYOUT_INDIVIDUAL ->
  extend_container self packet f
  = extend_container self
      (mkPacket (filter (fun c => is_Some (f_vars f !! c)) (cols packet))
                (data packet)) f.
Proof.
  intros Hlayout. unfold extend_container.
  rewrite bool_decide_eq_true_2 by done. simpl.
  by apply (for_each_extend_stored self packet
              (fun c => is_Some (f_vars f !! c))).
Qed.

Lemma unknown_columns_ignored_witness :
  extend_container Scenario.self
    (mkPacket ["humidity"; "time"; "pressure"] (data Scenario.packet_time_only))
    (Scenario.file_at Scenario.fs13)
  = extend_container Scenario.self Scenario.packet_time_only
      (Scenario.file_at Scenario.fs13).
Proof.
  rewrite (unknown_columns_ignored Scenario.self
             (mkPacket ["humidity"; "time"; "pressure"]
                (data Scenario.packet_time_only))
             (Scenario.file_at Scenario.fs13) eq_refl).
  f_equal.
Defined.

(** ** Which variables a query names *)

Lemma collect_by_set conv self filter f vars1 vars2 :
  (forall v, v ∈ vars1 <-> v ∈ vars2) ->
  (forall v, v ∈ vars1 -> is_Some (f_vars f !! v) ->
             exists b, is_time_encoded self v = Ok b) ->
  collect conv self filter f vars1 ∅ = collect conv self filter f vars2 ∅.
Proof.
  intros Hset Hdecl.
  destruct (collect_run conv self filter f vars1 ∅ Hdecl)
    as (res1 & -> & Hres1).
  destruct (collect_run conv self filter f vars2 ∅) as (res2 & -> & Hres2).
  { intros v Hv. apply Hdecl. by apply Hset. }
  f_equal. apply map_eq. intros v. rewrite Hres1, Hres2.
  destruct (decide (v ∈ vars1)) as [Hin|Hnot].
  - rewrite !bool_decide_eq_true_2; [done|by apply Hset|done].
  - rewrite !bool_decide_eq_false_2; [done| |done].
    intros Hin. by apply Hnot, Hset.
Qed.

(** X16.  An Individual-layout query depends on the requested
    variables only as a set: two filters that name the same
    variables, in any order and with any repetition, and agree on
    the other entries give the same result, transposed or not. *)
Theorem query_by_set conv self filter1 filter2 fs f vars1 vars2 :
  ds_layout self = DS_LAYOUT_INDIVIDUAL ->
  fs_files fs !! _get_ds_filename self = Some f ->
  df_variables filter1 = Some vars1 -> df_variables filter2 = Some vars2 ->
  vars1 <> [] -> (forall v, v ∈ vars1 <-> v ∈ vars2) ->
  df_time_format filter1 = df_time_format filter2 ->
  df_max_rows filter1 = df_max_rows filter2 ->
  df_transpose_time filter1 = df_transpose_time filter2 ->
  (time_var self ∈ vars1 -> is_Some (f_vars f !! time_var self) ->
   is_Some (var_defs_map self !! time_var self)) ->
  get_data conv self filter1 fs = get_data conv self filter2 fs.
Proof.
  intros Hlayout Hf Hv1 Hv2 Hne Hset Hfmt Hmax Htrans Hdecl.
  assert (vars2 <> []) as Hne2.
  { destruct vars1 as [|v vs]; [done|]. intros ->.
    assert (v ∈ []) as Hin by (apply Hset, elem_of_cons; by left).
    by apply elem_of_nil in Hin. }
  assert (read_vars self filter1 = Ok vars1) as Hr1.
  { unfold read_vars. rewrite Hv1. by destruct vars1. }
  assert (read_vars self filter2 = Ok vars2) as Hr2.
  { unfold read_vars. rewrite Hv2. by destruct vars2. }
  rewrite !(get_data_run conv self _ fs f Hf). f_equal.
  rewrite (query_individual conv self filter1 f vars1 Hlayout Hr1).
  rewrite (query_individual conv self filter2 f vars2 Hlayout Hr2).
  rewrite <- Htrans. unfold bind.
  assert (collect conv self filter2 f vars2 = collect conv self filter1 f vars2)
    as ->.
  { unfold collect, read_var, convert, window, time_format, max_rows.
    by rewrite Hfmt, Hmax. }
  rewrite (collect_by_set conv self filter1 f vars1 vars2 Hset); [done|].
  intros v Hin Hfile. apply is_time_encoded_ok. intros ->. by apply Hdecl.
Qed.

Lemma query_by_set_witness :
  get_data Scenario.seconds Scenario.self
    (mkFilter (Some ["temperature"; "time"; "temperature"]) None (Some 3) None)
    Scenario.fs13
  = get_data Scenario.seconds Scenario.self
      (mkFilter (Some ["time"; "temperature"]) None (Some 3) None)
      Scenario.fs13.
Proof.
  apply (query_by_set Scenario.seconds Scenario.self _ _ Scenario.fs13
           (Scenario.file_at Scenario.fs13)
           ["temperature"; "time"; "temperature"] ["time"; "temperature"]).
  - reflexivity.
  - vm_compute. reflexivity.
  - reflexivity.
  - reflexivity.
  - discriminate.
  - intros v. rewrite !elem_of_cons, !elem_of_nil. tauto.
  - reflexivity.
  - reflexivity.
  - reflexivity.
  - intros _ _. vm_compute. by eexists.
Defined.

(** ** The records of the Combined layout *)

(** X17.  The record that the Combined layout writes for a row has
    one component per schema variable, in schema order: the row's
    value where the packet names the variable, [None] where it does
    not; packet columns outside the schema play no part.  It is
    assembled whenever the row has a field for every schema variable
    that the packet names. *)
Theorem combined_record cs names row_data :
  (forall vn, vn ∈ names -> vn ∈ cs -> is_Some (row_data !! vn)) ->
  row_vals (build_pvi 0 cs names ∅) names row_data
  = Ok (assembled cs names row_data)
  /\ row_vals (build_pvi 0 cs names ∅) names row_data
     = row_vals (build_pvi 0 (filter (fun c => c ∈ names) cs) names ∅)
         names row_data.
Proof. apply combined_record_aux. Qed.

Lemma combined_record_witness :
  row_vals (build_pvi 0 ["pressure"; "temperature"]
              ["time"; "temperature"] ∅)
    ["time"; "temperature"] (Scenario.row 7 21)
  = Ok (VTuple [VNone; VRaw 21]).
Proof.
  destruct (combined_record ["pressure"; "temperature"]
              ["time"; "temperature"] (Scenario.row 7 21)) as [Hrow _].
  - intros vn Hn _.
    apply elem_of_cons in Hn as [->|Hn]; [vm_compute; by eexists|].
    apply elem_of_cons in Hn as [->|Hn]; [vm_compute; by eexists|].
    by apply elem_of_nil in Hn.
  - rewrite Hrow. vm_compute. reflexivity.
Defined.

(** ** The path of a container *)

Lemma str_app_cons (x : ascii) (a b : string) :
  String x a +:+ b = String x (a +:+ b).
Proof. reflexivity. Qed.

Lemma str_app_assoc (a b c : string) : (a +:+ b) +:+ c = a +:+ (b +:+ c).
Proof.
  induction a as [|x a IH]; [done|]. rewrite !str_app_cons. by rewrite IH.
Qed.

Lemma str_length_app (a b : string) :
  String.length (a +:+ b) = (String.length a + String.length b)%nat.
Proof.
  induction a as [|x a IH]; [done|]. rewrite str_app_cons. simpl.
  by rewrite IH.
Qed.

Lemma str_app_inj_r (a b s : string) : a +:+ s = b +:+ s -> a = b.
Proof.
  intros Heq.
  assert (String.length a = String.length b) as Hlen.
  { apply (f_equal String.length) in Heq. rewrite !str_length_app in Heq.
    lia. }
  revert b Heq Hlen. induction a as [|x a IH]; intros [|y b] Heq Hlen;
    simpl in Hlen; try done.
  rewrite !str_app_cons in Heq. injection Heq as -> Heq.
  f_equal. apply IH; [done|lia].
Qed.

Lemma has_slash_app (a b : string) :
  has_slash (a +:+ b) = has_slash a || has_slash b.
Proof.
  induction a as [|x a IH]; [done|]. rewrite str_app_cons. simpl.
  by rewrite IH, orb_assoc.
Qed.

Lemma rsplit_no_slash s : has_slash s = false -> rsplit_slash s = None.
Proof.
  induction s as [|c s IH]; simpl; [done|].
  intros [Hc Hs]%orb_false_elim. by rewrite (IH Hs), Hc.
Qed.

Lemma rsplit_app d f :
  has_slash f = false ->
  rsplit_slash (d +:+ String "/" f) = Some (d +:+ "/", f).
Proof.
  intros Hf. induction d as [|c d IH].
  - change (rsplit_slash (String "/" f) = Some (String "/" EmptyString, f)).
    simpl. by rewrite (rsplit_no_slash f Hf).
  - rewrite !str_app_cons. simpl. by rewrite IH.
Qed.

Lemma rstrip_app_slash d : rstrip_slash (d +:+ "/") = rstrip_slash d.
Proof.
  induction d as [|c d IH]; [done|]. rewrite str_app_cons. simpl.
  by rewrite IH.
Qed.

Lemma rstrip_last x c :
  is_slash c = false ->
  rstrip_slash (x +:+ String c EmptyString) = x +:+ String c EmptyString.
Proof.
  intros Hc. induction x as [|a x IH].
  - change (rstrip_slash (String c EmptyString) = String c EmptyString).
    simpl. by rewrite Hc.
  - rewrite str_app_cons. simpl. rewrite IH. by destruct x.
Qed.

(** [os.path.split] undoes the joining of a directory that does not
    end in a slash and a name without slashes. *)
Lemma os_path_split_join x c f :
  is_slash c = false -> has_slash f = false ->
  os_path_split ((x +:+ String c EmptyString) +:+ String "/" f)
  = (x +:+ String c EmptyString, f).
Proof.
  intros Hc Hf. unfold os_path_split. rewrite (rsplit_app _ f Hf).
  change (String "/" EmptyString) with "/".
  rewrite rstrip_app_slash, (rstrip_last x c Hc). by destruct x.
Qed.

Lemma parents_from_length pre s p :
  p ∈ parents_from pre s ->
  (String.length p < String.length pre + String.length s)%nat.
Proof.
  revert pre. induction s as [|c s IH]; intros pre; simpl.
  - intros Hin. by apply elem_of_nil in Hin.
  - intros [Hin|Hin]%elem_of_app.
    + destruct (is_slash c && negb (bool_decide (pre = EmptyString)));
        [|by apply elem_of_nil in Hin].
      apply list_elem_of_singleton in Hin as ->. lia.
    + apply IH in Hin. rewrite str_length_app in Hin. simpl in Hin. lia.
Qed.

Lemma ds_filename_prefixed self root :
  (forall p, file_system_get self p = root +:+ p) ->
  _get_ds_filename self
  = ((root +:+ "SCIDATA/dataset") +:+ "s")
    +:+ String "/" (DS_FILE_PREFIX +:+ dataset_id self +:+ ".hdf5").
Proof.
  intros Hget. unfold _get_ds_filename. rewrite Hget.
  by rewrite !str_app_assoc.
Qed.

Lemma container_path_aux self root :
  (forall p, file_system_get self p = root +:+ p) ->
  has_slash (dataset_id self) = false ->
  os_path_split (_get_ds_filename self)
  = (root +:+ DS_BASE_PATH, DS_FILE_PREFIX +:+ dataset_id self +:+ ".hdf5")
  /\ (forall other,
        (forall p, file_system_get other p = root +:+ p) ->
        _get_ds_filename other = _get_ds_filename self ->
        dataset_id other = dataset_id self).
Proof.
  intros Hget Hid. split.
  - rewrite (ds_filename_prefixed self root Hget).
    rewrite os_path_split_join; [|done|].
    + by rewrite str_app_assoc.
    + rewrite !has_slash_app, Hid. done.
  - intros other Hget' Heq. unfold _get_ds_filename in Heq.
    rewrite Hget, Hget' in Heq.
    apply (inj (String.app root)) in Heq.
    apply (inj (String.app DS_BASE_PATH)) in Heq.
    apply (inj (String.app "/")) in Heq.
    apply (inj (String.app DS_FILE_PREFIX)) in Heq.
    by apply str_app_inj_r in Heq.
Qed.

(** X18.  When [file_system.get] prefixes a root to the relative
    path, the container of a dataset whose id has no slash is
    [<root>SCIDATA/datasets/ds_<id>.hdf5]: [os.path.split] gives the
    directory [<root>SCIDATA/datasets], whatever the id, and the file
    name [ds_<id>.hdf5], and different ids give different paths. *)
Theorem container_path self root :
  (forall p, file_system_get self p = root +:+ p) ->
  has_slash (dataset_id self) = false ->
  os_path_split (_get_ds_filename self)
  = (root +:+ DS_BASE_PATH, DS_FILE_PREFIX +:+ dataset_id self +:+ ".hdf5")
  /\ (forall other,
        (forall p, file_system_get other p = root +:+ p) ->
        _get_ds_filename other = _get_ds_filename self ->
        dataset_id other = dataset_id self).
Proof. apply container_path_aux. Qed.

Lemma container_path_witness :
  os_path_split (_get_ds_filename Scenario.self)
  = ("/data/SCIDATA/datasets", "ds_a.hdf5").
Proof.
  destruct (container_path Scenario.self "/data/") as [Hsplit _].
  - reflexivity.
  - reflexivity.
  - rewrite Hsplit. reflexivity.
Defined.

(** X19.  Under that path convention only the first dataset of a
    base path can be created: once [require_dataset] has created one
    container, it fails with [OSError] for every other dataset id
    whose container does not exist yet, since the directory is then
    there. *)
Theorem only_first_dataset_created self other root fs fs1 :
  (forall p, file_system_get self p = root +:+ p) ->
  (forall p, file_system_get other p = root +:+ p) ->
  has_slash (dataset_id self) = false ->
  has_slash (dataset_id other) = false ->
  dataset_id other <> dataset_id self ->
  require_dataset self fs = (fs1, Ok (_get_ds_filename self, true)) ->
  path_exists fs (_get_ds_filename other) = false ->
  require_dataset other fs1 = (fs1, Raise OSError).
Proof.
  intros Hget Hget' Hid Hid' Hne Hrun Hother.
  destruct (container_path_aux self root Hget Hid) as [Hsplit _].
  destruct (container_path_aux other root Hget' Hid') as [Hsplit' Hinj].
  assert (_get_ds_filename other <> _get_ds_filename self) as Hfn.
  { intros Heq. apply Hne. symmetry. by apply (Hinj self). }
  assert (path_exists fs (_get_ds_filename self) = false) as Hno.
  { destruct (path_exists fs (_get_ds_filename self)) eqn:E; [|done].
    rewrite require_dataset_exists in Hrun by done. by injection Hrun. }
  rewrite (require_dataset_run self fs Hno) in Hrun.
  rewrite Hsplit in Hrun. simpl in Hrun. unfold makedirs in Hrun.
  destruct (path_exists fs (root +:+ DS_BASE_PATH)) eqn:Hdir; [done|].
  destruct (bool_decide (_get_ds_filename self ∈ _)); [done|].
  injection Hrun as <- _.
  apply require_dataset_dir_exists.
  - unfold path_exists in *. simpl.
    apply orb_false_elim in Hother as [Hd Hf].
    apply bool_decide_eq_false_1 in Hd. apply bool_decide_eq_false_1 in Hf.
    rewrite (bool_decide_eq_false_2 (_ ∈ _)).
    + rewrite lookup_insert_ne by done. by rewrite bool_decide_eq_false_2.
    + assert (String.length (root +:+ DS_BASE_PATH)
              < String.length (_get_ds_filename other))%nat as Hlen.
      { rewrite (ds_filename_prefixed other root Hget').
        rewrite !str_length_app. unfold DS_BASE_PATH. simpl. lia. }
      intros [[Hin|Hin]%elem_of_union|Hin]%elem_of_union.
      * done.
      * apply elem_of_singleton in Hin. rewrite Hin in Hlen. lia.
      * apply elem_of_list_to_set, parents_from_length in Hin.
        simpl in Hin. lia.
  - rewrite Hsplit'. simpl. apply path_exists_dir. simpl. set_solver.
Qed.

Lemma only_first_dataset_created_witness :
  require_dataset Scenario.other Scenario.fs_created
  = (Scenario.fs_created, Raise OSError).
Proof.
  apply (only_first_dataset_created Scenario.self Scenario.other "/data/"
           Scenario.fs0 Scenario.fs_created).
  - reflexivity.
  - reflexivity.
  - reflexivity.
  - reflexivity.
  - discriminate.
  - vm_compute. reflexivity.
  - reflexivity.
Defined.

(** ** A Combined-layout append in full *)

Lemma resize_if_needed_room self n d :
  0 < ds_increment self -> 0 <= n -> extent_ok d ->
  exists d1,
    resize_if_needed self n d = (d1, Ok (last_row d))
    /\ last_row d + n <= len d1.
Proof.
  intros Hinc Hn [Hlow Hhigh].
  destruct (Z_le_gt_dec (last_row d + n) (len d)) as [Hfit|Hover].
  - exists d. by rewrite resize_if_needed_keep.
  - destruct (resize_if_needed_grow self n d Hinc Hn Hover)
      as (d1 & Hrun & Hcap & _).
    exists d1. split; [done|].
    pose proof (growth_positive n _ Hinc Hn). lia.
Qed.

Lemma resize_if_needed_dtype self n d :
  ds_dtype (resize_if_needed self n d).1 = ds_dtype d.
Proof.
  unfold resize_if_needed, _resize_dataset, bind, gets, lift, ret, py_div,
    h5_resize.
  destruct (last_row d + n >? len d); [|done].
  destruct (ds_increment self =? 0); [done|]. simpl.
  by destruct (_ <? 0).
Qed.

Lemma write_rows_completes pvi names cur_idx rows p d :
  0 <= cur_idx ->
  cur_idx + Z.of_nat p + Z.of_nat (length rows) <= len d ->
  (forall row_data,
     row_data ∈ rows ->
     exists vals, row_vals pvi names row_data = Ok vals
                  /\ dtype_accepts (ds_dtype d) vals = Ok tt) ->
  exists d',
    for_enumerate
      (fun row_idx row_data =>
         vals <- lift (row_vals pvi names row_data) ;;
         h5_write_row (cur_idx + Z.of_nat row_idx) vals) p rows d
    = (d', Ok tt).
Proof.
  intros Hidx. revert p d. induction rows as [|row rows IH];
    intros p d Hroom Hrows; [by eexists|].
  simpl in *. unfold bind at 1. unfold bind at 1. unfold lift at 1.
  destruct (Hrows row) as (vals & -> & Hacc); [apply elem_of_cons; by left|].
  unfold h5_write_row at 1. rewrite Hacc.
  rewrite (proj2 (Z.leb_le 0 _)) by lia.
  rewrite (proj2 (Z.ltb_lt _ (len d))) by lia. simpl.
  apply IH.
  - unfold len in *. simpl. rewrite length_insert. lia.
  - intros r Hr. apply Hrows, elem_of_cons. by right.
Qed.

Lemma map_result_ext_ok {A B} (f : A -> result B) (g : A -> B) l :
  (forall x, x ∈ l -> f x = Ok (g x)) -> map_result f l = Ok (map g l).
Proof.
  induction l as [|x l IH]; intros Hf; [done|].
  simpl. rewrite Hf by (apply elem_of_cons; by left).
  rewrite IH; [done|]. intros y Hy. apply Hf, elem_of_cons. by right.
Qed.

Lemma field_accepts_error code v e :
  field_accepts code v = Raise e -> e = TypeError.
Proof.
  unfold field_accepts. destruct v; try done.
  destruct (is_integer_dtype code); [|done]. by intros [= <-].
Qed.

(** A record type takes the tuple of one value per field when every
    field accepts its value, and refuses it with [TypeError] when
    some field does not. *)
Lemma record_accepted (parts : list (string * string))
    (g : string -> value) :
  (forall vn code, (vn, code) ∈ parts -> field_accepts code (g vn) = Ok tt) ->
  dtype_accepts (Compound parts) (VTuple (map g parts.*1)) = Ok tt.
Proof.
  intros Hall. unfold dtype_accepts.
  rewrite bool_decide_eq_true_2 by (by rewrite length_map, length_fmap).
  assert (exists ys,
            map_result (fun p : string * string * value =>
                          field_accepts p.1.2 p.2)
              (zip parts (map g parts.*1)) = Ok ys) as [ys ->]; [|done].
  induction parts as [|[vn code] parts IH]; [by eexists|].
  simpl. rewrite Hall by (apply elem_of_cons; by left).
  change (list_fmap (string * string)%type string fst parts)
    with (parts.*1).
  destruct IH as [ys ->]; [|by eexists].
  intros vn' code' Hin. apply Hall, elem_of_cons. by right.
Qed.

Lemma record_refused (parts : list (string * string))
    (g : string -> value) :
  (exists vn code,
     (vn, code) ∈ parts /\ field_accepts code (g vn) = Raise TypeError) ->
  dtype_accepts (Compound parts) (VTuple (map g parts.*1)) = Raise TypeError.
Proof.
  intros Hsome. unfold dtype_accepts.
  rewrite bool_decide_eq_true_2 by (by rewrite length_map, length_fmap).
  assert (map_result (fun p : string * string * value =>
                        field_accepts p.1.2 p.2)
            (zip parts (map g parts.*1)) = Raise TypeError) as ->; [|done].
  induction parts as [|[vn code] parts IH].
  - destruct Hsome as (? & ? & Hin & _). by apply elem_of_nil in Hin.
  - simpl. change (list_fmap (string * string)%type string fst parts)
      with (parts.*1).
    destruct (field_accepts code (g vn)) as [[]|e] eqn:Hhead.
    + rewrite IH; [done|].
      destruct Hsome as (vn' & code' & Hin & Hbad).
      apply elem_of_cons in Hin as [Heq|Hin]; [|by exists vn', code'].
      injection Heq as -> ->. congruence.
    + by rewrite (field_accepts_error _ _ _ Hhead).
Qed.

(** X20.  A Combined-layout append on the record extent of the
    schema, sound and with a positive increment, of rows that have a
    value other than [None] for each schema variable that the packet
    names: it completes when no schema variable that the packet
    leaves out has an integer storage type, and then the committed
    rows are those before followed by one assembled record per row,
    the row's values in schema order and [None] for the variables
    left out; when the packet leaves out a variable of integer
    storage type, a batch that is not empty is refused with
    [TypeError] and nothing is committed. *)
Theorem combined_append self packet d names parts :
  0 < ds_increment self -> extent_ok d ->
  map_result name_of (var_defs self) = Ok names ->
  dtype_parts (var_defs self) = Ok parts -> ds_dtype d = Compound parts ->
  (forall row_data vn,
     row_data ∈ data packet -> vn ∈ names -> vn ∈ cols packet ->
     exists v, row_data !! vn = Some v /\ v <> VNone) ->
  ((forall vn code,
      (vn, code) ∈ parts -> vn ∉ cols packet ->
      is_integer_dtype code = false) ->
   exists d',
     extend_combined self packet d = (d', Ok tt)
     /\ committed d'
        = committed d ++ map (assembled (cols packet) names) (data packet)
     /\ last_row d' = last_row d + Z.of_nat (length (data packet)))
  /\ (data packet <> [] ->
      (exists vn code,
         (vn, code) ∈ parts /\ (vn ∉ cols packet)
         /\ is_integer_dtype code = true) ->
      exists d',
        extend_combined self packet d = (d', Raise TypeError)
        /\ committed d' = committed d /\ last_row d' = last_row d).
Proof.
  intros Hinc Hok Hnames Hparts Hdtype Hrows.
  assert (parts.*1 = names) as Hfst.
  { destruct (dtype_parts_names _ _ Hnames) as [Heq Hfst].
    rewrite Hparts in Heq. injection Heq as ->. done. }
  assert (forall row_data,
            row_data ∈ data packet ->
            row_vals (build_pvi 0 (cols packet) names ∅) names row_data
            = Ok (assembled (cols packet) names row_data)) as Hvals.
  { intros row_data Hin.
    destruct (combined_record_aux (cols packet) names row_data) as [-> _];
      [|done].
    intros vn Hn Hc. destruct (Hrows row_data vn Hin Hn Hc) as (v & -> & _).
    by eexists. }
  destruct (resize_if_needed_room self (Z.of_nat (length (data packet))) d
              Hinc ltac:(lia) Hok) as (d1 & Hresize & Hroom).
  assert (ds_dtype d1 = Compound parts) as Hdtype1.
  { pose proof (resize_if_needed_dtype self
                  (Z.of_nat (length (data packet))) d) as Hd.
    rewrite Hresize in Hd. simpl in Hd. congruence. }
  assert (forall row_data vn code,
            row_data ∈ data packet -> (vn, code) ∈ parts ->
            vn ∈ cols packet ->
            field_accepts code
              (if bool_decide (vn ∈ cols packet)
               then default VNone (row_data !! vn) else VNone) = Ok tt)
    as Hnamed.
  { intros row_data vn code Hin Hpart Hc.
    rewrite bool_decide_eq_true_2 by done.
    destruct (Hrows row_data vn Hin) as (v & -> & Hv); [|done|].
    - rewrite <- Hfst. apply list_elem_of_fmap. by exists (vn, code).
    - simpl. by destruct v. }
  split.
  - intros Hfloat.
    assert (exists d', extend_combined self packet d = (d', Ok tt))
      as [d' Hrun].
    { unfold extend_combined, bind at 1. rewrite Hresize.
      unfold bind at 1, lift at 1. rewrite Hnames. unfold bind at 1.
      destruct (write_rows_completes (build_pvi 0 (cols packet) names ∅)
                  names (last_row d) (data packet) 0%nat d1) as [d2 ->].
      - by destruct Hok.
      - lia.
      - intros row_data Hin. rewrite (Hvals row_data Hin).
        eexists. split; [done|]. rewrite Hdtype1. unfold assembled.
        rewrite <- Hfst. apply record_accepted. intros vn code Hpart.
        destruct (decide (vn ∈ cols packet)) as [Hc|Hc];
          [by apply Hnamed|].
        rewrite bool_decide_eq_false_2 by done. simpl.
        by rewrite (Hfloat vn code Hpart Hc).
      - by eexists. }
    exists d'. split; [done|].
    destruct (extend_combined_committed self packet d d' ltac:(lia) Hok Hrun)
      as (names' & recs & Hnames' & Hrecs & Hlog & Hlast).
    assert (names' = names) as -> by congruence.
    rewrite (map_result_ext_ok _ (assembled (cols packet) names) _ Hvals)
      in Hrecs.
    injection Hrecs as <-. by split.
  - intros Hrow (vn & code & Hpart & Hout & Hint).
    assert ((extend_combined self packet d).2 = Raise TypeError) as Hraise.
    { unfold extend_combined, bind at 1. rewrite Hresize.
      unfold bind at 1, lift at 1. rewrite Hnames. unfold bind at 1.
      destruct (data packet) as [|row_data rest] eqn:Hdata; [done|].
      simpl. unfold bind at 1. unfold bind at 1. unfold lift at 1.
      rewrite (Hvals row_data) by (apply elem_of_cons; by left).
      unfold h5_write_row at 1. rewrite Hdtype1. unfold assembled.
      rewrite <- Hfst, record_refused; [done|].
      exists vn, code. split; [done|].
      rewrite bool_decide_eq_false_2 by done. simpl. by rewrite Hint. }
    destruct (failed_append_aux self packet d TypeError ltac:(lia) Hok)
      as [_ Hkeep].
    destruct (Hkeep Hraise) as [Hlast Hlog].
    exists (extend_combined self packet d).1. split; [|by split].
    rewrite <- Hraise. by destruct (extend_combined self packet d).
Qed.

(** ** Rows are never lost *)

Lemma keeps_rows_refl d : keeps_rows d d.
Proof. split; [done|lia]. Qed.

Lemma keeps_rows_trans d1 d2 d3 :
  keeps_rows d1 d2 -> keeps_rows d2 d3 -> keeps_rows d1 d3.
Proof.
  intros [Hp1 Hl1] [Hp2 Hl2]. split; [by etrans|lia].
Qed.

Lemma extend_var_keeps_rows self packet var_name d :
  0 <= ds_increment self -> extent_ok d ->
  keeps_rows d (extend_var self packet var_name d).1.
Proof.
  intros Hinc Hok.
  destruct (extend_var self packet var_name d) as [d' [[]|e]] eqn:Hrun.
  - destruct (extend_var_committed self packet var_name d d' Hinc Hok Hrun)
      as (batch & _ & _ & Hlog & Hlast).
    simpl. split; [rewrite Hlog; by apply prefix_app_r|lia].
  - destruct (failed_append_aux self packet d e Hinc Hok) as [Hvar _].
    destruct (Hvar var_name) as [Hlast Hlog]; [by rewrite Hrun|].
    rewrite Hrun in Hlast, Hlog. simpl in *.
    split; [by rewrite Hlog|lia].
Qed.

Lemma extend_combined_keeps_rows self packet d :
  0 <= ds_increment self -> extent_ok d ->
  keeps_rows d (extend_combined self packet d).1.
Proof.
  intros Hinc Hok.
  destruct (extend_combined self packet d) as [d' [[]|e]] eqn:Hrun.
  - destruct (extend_combined_committed self packet d d' Hinc Hok Hrun)
      as (names & recs & _ & _ & Hlog & Hlast).
    simpl. split; [rewrite Hlog; by apply prefix_app_r|lia].
  - destruct (failed_append_aux self packet d e Hinc Hok) as [_ Hcomb].
    destruct Hcomb as [Hlast Hlog]; [by rewrite Hrun|].
    rewrite Hrun in Hlast, Hlog. simpl in *.
    split; [by rewrite Hlog|lia].
Qed.

Lemma extend_container_keeps_rows self packet f :
  0 <= ds_increment self -> file_ok f ->
  forall name d,
    f_vars f !! name = Some d ->
    exists d', f_vars (extend_container self packet f).1 !! name = Some d'
               /\ extent_ok d' /\ keeps_rows d d'.
Proof.
  intros Hinc Hok.
  pose (P := fun f0 : H5File =>
               forall name d, f_vars f !! name = Some d ->
                 exists d', f_vars f0 !! name = Some d'
                            /\ extent_ok d' /\ keeps_rows d d').
  assert (P f) as Hstart.
  { intros name d Hd. exists d. split; [done|].
    split; [by apply (Hok name)|apply keeps_rows_refl]. }
  assert (forall {A} c (m : M Dataset A) f0,
            (forall d0, extent_ok d0 ->
                        extent_ok (m d0).1 /\ keeps_rows d0 (m d0).1) ->
            P f0 -> P (on_var c m f0).1) as Hon.
  { intros A c m f0 Hm Hf0 name d Hd.
    destruct (Hf0 name d Hd) as (d0 & Hd0 & Hok0 & Hkeep0).
    unfold on_var. destruct (f_vars f0 !! c) as [dc|] eqn:Hc;
      [|by exists d0].
    pose proof (Hm dc) as Hmc. destruct (m dc) as [dc' r]. simpl in *.
    unfold set_var. simpl. destruct (decide (c = name)) as [->|Hne].
    - rewrite lookup_insert_eq. assert (dc = d0) as -> by congruence.
      destruct (Hmc Hok0) as [Hok' Hkeep']. exists dc'.
      split; [done|]. split; [done|]. by apply keeps_rows_trans with d0.
    - rewrite lookup_insert_ne by done. by exists d0. }
  change (P (extend_container self packet f).1).
  unfold extend_container.
  destruct (bool_decide (ds_layout self = DS_LAYOUT_INDIVIDUAL)).
  - apply (for_each_preserve P); [|done].
    intros c f0 Hf0. unfold extend_individual.
    destruct (f_vars f0 !! c); [|done].
    apply Hon; [|done]. intros d0 Hok0. split.
    + by apply extend_var_any.
    + by apply extend_var_keeps_rows.
  - destruct (bool_decide (ds_layout self = DS_LAYOUT_COMBINED)); [|done].
    destruct (f_vars f !! DS_VARIABLES); [|done].
    apply Hon; [|done]. intros d0 Hok0. split.
    + by apply extend_combined_any.
    + by apply extend_combined_keeps_rows.
Qed.

(** X21.  No operation loses committed rows: from any state reached
    by creating and appending, after a further [require_dataset] or
    [extend_dataset], whether it returned or raised, every extent is
    still there, its committed rows begin with the rows that were
    committed before, and [last_row] has not decreased. *)
Theorem rows_never_lost self fs :
  reachable self fs ->
  forall fs',
    fs' = (require_dataset self fs).1
    \/ (exists packet, fs' = (extend_dataset self packet fs).1) ->
    forall name d,
      extent self fs name = Some d ->
      exists d', extent self fs' name = Some d'
                 /\ committed d `prefix_of` committed d'
                 /\ last_row d <= last_row d'.
Proof.
  intros Hreach fs' Hstep name d Hd.
  pose proof (reachable_ok self fs Hreach) as Hok.
  destruct (Hok name d Hd) as (Hinc & _ & _).
  destruct (extent_file self fs name d Hd) as (f & Hf & Hname).
  destruct Hstep as [-> | [packet ->]].
  - rewrite require_dataset_exists by (by apply path_exists_file with f).
    exists d. split; [done|]. split; [done|lia].
  - pose proof (extend_dataset_file self packet fs) as Hrun.
    rewrite Hf in Hrun. rewrite Hrun. unfold extent. simpl.
    rewrite lookup_insert_eq. simpl.
    destruct (extend_container_keeps_rows self packet f Hinc) with name d
      as (d' & Hd' & _ & Hprefix & Hlast); [|done|].
    + intros n dn Hn. destruct (Hok n dn) as (_ & Hext & _); [|done].
      unfold extent. by rewrite Hf.
    + by exists d'.
Qed.

Lemma rows_never_lost_witness :
  exists d',
    extent Scenario.self Scenario.fs13 "time" = Some d'
    /\ committed (Scenario.time_at Scenario.fs5) `prefix_of` committed d'.
Proof.
  assert (reachable Scenario.self Scenario.fs5) as Hreach.
  { replace Scenario.fs5
      with (extend_dataset Scenario.self Scenario.packet5
              (require_dataset Scenario.self Scenario.fs0).1).1
      by (vm_compute; reflexivity).
    apply reach_extend, reach_require, reach_start. reflexivity. }
  destruct (rows_never_lost Scenario.self Scenario.fs5 Hreach Scenario.fs13)
    with "time" (Scenario.time_at Scenario.fs5)
    as (d' & Hd' & Hprefix & _).
  - right. exists Scenario.packet8. vm_compute. reflexivity.
  - vm_compute. reflexivity.
  - exists d'. split; [exact Hd'|exact Hprefix].
Defined.

Lemma combined_append_witness :
  (exists d',
     extend_combined Scenario.combined Scenario.packet_time_only
       Cases.records_created = (d', Ok tt)
     /\ committed d'
        = [VTuple [VRaw 13; VNone]; VTuple [VRaw 14; VNone]])
  /\ (exists d',
        extend_combined Scenario.combined Cases.packet_temperature_only
          Cases.records_created = (d', Raise TypeError)
        /\ committed d' = []).
Proof.
  assert (forall vn : string, vn ∈ ["time"; "temperature"] ->
            vn = "time" \/ vn = "temperature") as Hnames.
  { intros vn Hn. apply elem_of_cons in Hn as [->|Hn]; [by left|].
    apply elem_of_cons in Hn as [->|Hn]; [by right|].
    by apply elem_of_nil in Hn. }
  split.
  - destruct (combined_append Scenario.combined Scenario.packet_time_only
                Cases.records_created ["time"; "temperature"]
                [("time", "i8"); ("temperature", "f8")])
      as [Hcompletes _].
    + vm_compute. reflexivity.
    + vm_compute. split; discriminate.
    + reflexivity.
    + reflexivity.
    + vm_compute. reflexivity.
    + intros row_data vn Hrow _ Hcol.
      apply elem_of_cons in Hcol as [->|Hcol];
        [|by apply elem_of_nil in Hcol].
      apply elem_of_cons in Hrow as [->|Hrow];
        [exists (VRaw 13); split; [vm_compute; reflexivity|discriminate]|].
      apply elem_of_cons in Hrow as [->|Hrow];
        [exists (VRaw 14); split; [vm_compute; reflexivity|discriminate]|].
      by apply elem_of_nil in Hrow.
    + destruct Hcompletes as (d' & Hrun & Hlog & _).
      * intros vn code Hpart Hout.
        apply elem_of_cons in Hpart as [Heq|Hpart].
        -- injection Heq as -> ->. destruct Hout. apply elem_of_cons.
           by left.
        -- apply elem_of_cons in Hpart as [Heq|Hpart];
             [|by apply elem_of_nil in Hpart].
           injection Heq as -> ->. vm_compute. reflexivity.
      * exists d'. split; [exact Hrun|]. rewrite Hlog. vm_compute.
        reflexivity.
  - destruct (combined_append Scenario.combined Cases.packet_temperature_only
                Cases.records_created ["time"; "temperature"]
                [("time", "i8"); ("temperature", "f8")])
      as [_ Hrefused].
    + vm_compute. reflexivity.
    + vm_compute. split; discriminate.
    + reflexivity.
    + reflexivity.
    + vm_compute. reflexivity.
    + intros row_data vn Hrow _ Hcol.
      apply elem_of_cons in Hcol as [->|Hcol];
        [|by apply elem_of_nil in Hcol].
      apply elem_of_cons in Hrow as [->|Hrow];
        [exists (VRaw 120); split; [vm_compute; reflexivity|discriminate]|].
      by apply elem_of_nil in Hrow.
    + destruct Hrefused as (d' & Hrun & Hlog & _).
      * discriminate.
      * exists "time", "i8". split; [apply elem_of_cons; by left|].
        split; [|vm_compute; reflexivity].
        intros Hin. apply elem_of_cons in Hin as [Heq|Hin];
          [discriminate Heq|by apply elem_of_nil in Hin].
      * exists d'. split; [exact Hrun|]. rewrite Hlog. vm_compute.
        reflexivity.
Defined.

(** ** An append is not all-or-nothing *)

(** X22.  In the Individual layout the variables of a packet are
    appended one after the other and nothing is undone: when a later
    column raises, the call raises, and a variable whose column was
    written before keeps its new rows and its advanced [last_row]. *)
Theorem append_not_atomic self packet c cs f d d' e :
  ds_layout self = DS_LAYOUT_INDIVIDUAL ->
  cols packet = c :: cs -> c ∉ cs ->
  f_vars f !! c = Some d ->
  extend_var self packet c d = (d', Ok tt) ->
  (for_each (extend_individual self packet) cs (set_var c d' f)).2
  = Raise e ->
  (extend_container self packet f).2 = Raise e
  /\ f_vars (extend_container self packet f).1 !! c = Some d'
  /\ last_row d' = last_row d + Z.of_nat (length (data packet)).
Proof.
  intros Hlayout Hcols Hnot Hd Hvar Hrest. unfold extend_container.
  rewrite bool_decide_eq_true_2 by done. rewrite Hcols. simpl. unfold bind.
  rewrite (extend_individual_run self packet c f d Hd), Hvar. simpl.
  pose proof (for_each_extend_untouched self packet cs (set_var c d' f) c
                Hnot) as Hkeep.
  destruct (for_each (extend_individual self packet) cs (set_var c d' f))
    as [f1 r]. simpl in *. subst r.
  split; [done|]. split.
  - rewrite Hkeep. unfold set_var. simpl. by rewrite lookup_insert_eq.
  - by apply extend_var_run in Hvar as (batch & _ & _ & _ & _ & ? & _).
Qed.

Lemma append_not_atomic_witness :
  (extend_container Scenario.self Cases.packet_half
     (Scenario.file_at Scenario.fs5)).2 = Raise ValueError
  /\ last_row <$> f_vars (extend_container Scenario.self Cases.packet_half
                            (Scenario.file_at Scenario.fs5)).1 !! "time"
     = Some 6.
Proof.
  destruct (append_not_atomic Scenario.self Cases.packet_half "time"
              ["temperature"] (Scenario.file_at Scenario.fs5)
              (Scenario.time_at Scenario.fs5)
              (extend_var Scenario.self Cases.packet_half "time"
                 (Scenario.time_at Scenario.fs5)).1 ValueError)
    as (Hraise & Hd' & Hlast).
  - reflexivity.
  - reflexivity.
  - intros Hin. apply elem_of_cons in Hin as [Heq|Hin];
      [discriminate Heq|by apply elem_of_nil in Hin].
  - vm_compute. reflexivity.
  - vm_compute. reflexivity.
  - vm_compute. reflexivity.
  - split; [exact Hraise|]. rewrite Hd'. simpl. rewrite Hlast.
    vm_compute. reflexivity.
Defined.

(** ** Querying a container that was just created *)

Lemma named_declared vars names v :
  map_result name_of vars = Ok names -> v ∈ names ->
  exists i vi, vars !! i = Some vi /\ vi_name vi = Some v.
Proof.
  revert names. induction vars as [|vi vars IH]; intros names Hnames Hin.
  - injection Hnames as <-. by apply elem_of_nil in Hin.
  - apply map_result_cons in Hnames as (n0 & ns & -> & Hn0 & Hrest).
    apply elem_of_cons in Hin as [->|Hin].
    + exists 0%nat, vi. split; [done|]. unfold name_of in Hn0.
      destruct (vi_name vi); [by injection Hn0 as ->|done].
    + destruct (IH ns Hrest Hin) as (i & vi' & Hi & Hname).
      by exists (S i), vi'.
Qed.

(** A creation that completed had distinct names to work with, and a
    non-negative increment unless there was no variable. *)
Lemma created_distinct self names :
  ds_layout self = DS_LAYOUT_INDIVIDUAL ->
  map_result name_of (var_defs self) = Ok names ->
  (create_container self (mkFile ∅ ∅)).2 = Ok tt ->
  NoDup names /\ (names = [] \/ 0 <= ds_increment self).
Proof.
  intros Hlayout Hnames Hrun.
  rewrite (create_container_individual self Hlayout) in Hrun.
  destruct (var_defs self) as [|vi vars] eqn:Hvars.
  - injection Hnames as <-. split; [constructor|by left].
  - assert (0 <= ds_increment self) as Hinc.
    { destruct (Z.le_gt_cases 0 (ds_increment self)) as [|Hneg]; [done|].
      exfalso.
      apply map_result_cons in Hnames as (n0 & ns & -> & Hn0 & _).
      simpl in Hrun. unfold bind at 1 in Hrun.
      unfold create_individual, bind at 1, lift in Hrun.
      rewrite Hn0 in Hrun.
      unfold bind at 1, file_create_dataset, create_dataset in Hrun.
      simpl in Hrun. rewrite lookup_empty in Hrun.
      destruct (ds_increment self <? 0) eqn:E; [done|lia]. }
    split; [|by right].
    destruct (decide (NoDup names)) as [|Hnd]; [done|].
    rewrite (create_loop_collides self _ names 0 _ Hnames Hinc) in Hrun;
      [done|by left].
Qed.

(** The extents of a container that was created: one for each
    declared name, with [last_row = 0]. *)
Lemma created_extents self names v :
  ds_layout self = DS_LAYOUT_INDIVIDUAL ->
  map_result name_of (var_defs self) = Ok names ->
  (create_container self (mkFile ∅ ∅)).2 = Ok tt ->
  if bool_decide (v ∈ names)
  then exists d, f_vars (create_container self (mkFile ∅ ∅)).1 !! v = Some d
                 /\ last_row d = 0
  else f_vars (create_container self (mkFile ∅ ∅)).1 !! v = None.
Proof.
  intros Hlayout Hnames Hrun.
  destruct (created_distinct self names Hlayout Hnames Hrun) as [Hnd Hinc].
  rewrite (create_container_individual self Hlayout).
  destruct Hinc as [->|Hinc].
  - destruct (var_defs self) as [|vi vars] eqn:Hvars.
    + rewrite bool_decide_eq_false_2 by apply not_elem_of_nil. done.
    + by apply map_result_cons in Hnames as (? & ? & ? & _).
  - destruct (create_loop_run self (var_defs self) names 0
                (mkFile (<["layout" := AStr (ds_layout self)]>
                           (<["dataset_id" := AStr (dataset_id self)]> ∅)) ∅)
                Hnames Hinc Hnd)
      as (f & -> & _ & Hvars & Hother); [done|]. simpl.
    case_bool_decide as Hin.
    + destruct (named_declared _ _ _ Hnames Hin) as (i & vi & Hi & Hname).
      rewrite (Hvars i vi v Hi Hname). by eexists.
    + by rewrite (Hother v Hin).
Qed.

Lemma window_nothing_committed filter d :
  last_row d = 0 -> window filter d = [].
Proof.
  intros Hlast. unfold window, py_slice, slice_bound. rewrite Hlast. simpl.
  replace (Z.to_nat _) with 0%nat; [done|].
  destruct (Z.max (0 - max_rows filter) 0 <? 0) eqn:E; lia.
Qed.

Lemma convert_nil conv filter b : convert conv filter b [] = [].
Proof.
  unfold convert. destruct b; [|done].
  by destruct (bool_decide (time_format filter = "unix_millis")).
Qed.

(** X23.  A query of a container that [require_dataset] has just
    created, in the Individual layout and without transposition,
    returns an empty series for every requested variable that the
    schema declares and nothing else, whatever [max_rows] and
    [time_format] are: the rows that creation allocated are not
    data. *)
Theorem created_then_query conv self filter fs fs1 names vars :
  ds_layout self = DS_LAYOUT_INDIVIDUAL ->
  map_result name_of (var_defs self) = Ok names ->
  require_dataset self fs = (fs1, Ok (_get_ds_filename self, true)) ->
  read_vars self filter = Ok vars ->
  df_transpose_time filter <> Some true ->
  (time_var self ∈ vars -> time_var self ∈ names ->
   is_Some (var_defs_map self !! time_var self)) ->
  exists res,
    get_data conv self filter fs1 = (fs1, Ok res)
    /\ forall v,
         res !! v
         = if bool_decide (v ∈ vars /\ v ∈ names) then Some [] else None.
Proof.
  intros Hlayout Hnames Hreq Hvars Hplain Hdecl.
  destruct (require_dataset_outcome self fs fs1 _ Hreq) as (_ & _ & _ & Hno).
  specialize (Hno eq_refl).
  rewrite (require_dataset_run self fs Hno) in Hreq.
  destruct (makedirs _ fs) as [fs0 [[]|e]]; [|done].
  destruct (bool_decide (_get_ds_filename self ∈ fs_dirs fs0)); [done|].
  destruct (create_container self (mkFile ∅ ∅)).2 as [[]|e] eqn:Hrun; [|done].
  injection Hreq as <-.
  pose proof (fun v => created_extents self names v Hlayout Hnames Hrun)
    as Hext.
  destruct (get_data_plain conv self filter
              (mkFS (fs_dirs fs0)
                 (<[_get_ds_filename self
                    := (create_container self (mkFile ∅ ∅)).1]>
                    (fs_files fs0)))
              (create_container self (mkFile ∅ ∅)).1 vars Hlayout)
    as (res & Hget & Hres); [by simpl; rewrite lookup_insert_eq|done|done| |].
  - intros v Hv Hsome. apply is_time_encoded_ok. intros ->.
    apply Hdecl; [done|]. specialize (Hext (time_var self)).
    case_bool_decide; [done|]. rewrite Hext in Hsome. by destruct Hsome.
  - exists res. split; [done|]. intros v. rewrite Hres.
    specialize (Hext v).
    destruct (decide (v ∈ vars)) as [Hv|Hv].
    + rewrite bool_decide_eq_true_2 by done.
      case_bool_decide as Hin.
      * destruct Hext as (d & -> & Hlast). simpl.
        rewrite (window_nothing_committed filter d Hlast), convert_nil.
        by rewrite bool_decide_eq_true_2.
      * rewrite Hext. simpl. rewrite bool_decide_eq_false_2; [done|].
        by intros [_ ?].
    + rewrite bool_decide_eq_false_2 by done.
      rewrite bool_decide_eq_false_2; [done|]. by intros [? _].
Qed.

Lemma created_then_query_witness :
  exists res,
    get_data Scenario.seconds Scenario.self Scenario.last3 Scenario.fs_created
    = (Scenario.fs_created, Ok res)
    /\ res !! "time" = Some [] /\ res !! "temperature" = Some []
    /\ res !! "pressure" = None.
Proof.
  destruct (created_then_query Scenario.seconds Scenario.self Scenario.last3
              Scenario.fs0 Scenario.fs_created ["time"; "temperature"]
              ["time"; "temperature"])
    as (res & Hget & Hres).
  - reflexivity.
  - reflexivity.
  - vm_compute. reflexivity.
  - reflexivity.
  - discriminate.
  - intros _ _. vm_compute. eexists. reflexivity.
  - exists res. split; [exact Hget|].
    split; [|split]; rewrite Hres; reflexivity.
Defined.
